(** * CSV reconciliation scripts: header normalisation, date-format
      detection, field mapping and completeness aggregation

    Shallow embedding of the analysis code of
    [analyze_trustees_csv.py] (class [TrusteesCSVAnalyzer]) and of
    [analyze_societies_simple.py] (function [analyze_csv_file]), with the
    statements of the specification proved, corrected or refuted on it.
    The second half of the file covers more of both scripts (the value
    tables, the date analysis, the schema, the progress report, the
    summary of the societies' [main]) and proves further properties.

    Conventions.
    - A Python [str] is a Rocq [string].  The library functions of Python
      that the scripts call ([str.strip], [str.split], [str.lower], [int],
      [re.match], ...) are modelled in module [Py] on the 7-bit ASCII
      repertoire, where their behaviour is a small table.  NFKD
      normalisation fixes every ASCII string; its value on any other
      string is left uninterpreted (section variable [nfkd_ext]).
    - A Python exception is a value: fallible code returns [res A], either
      [Val a] or [Exc e], and [try]/[except] is a [match] on it.
    - Python [float] results ([a / b], [x * 100], the [0.7] threshold) are
      modelled by exact rationals [Q]; the float is the correctly rounded
      image of the rational.  Rounding is monotone and exact on the
      integers involved, so the order facts proved here carry over; for the
      threshold test the two agree as long as the word sets have fewer
      than 10^15 elements.
    - [dict]s whose iteration order is observable are association lists in
      insertion order ([odict]); [defaultdict]s that are only read by key
      are [gmap]s; a [set] of strings is a [gset string]. *)

From Stdlib Require Import ZArith QArith Arith Ascii String DecimalString Lia.
From stdpp Require Import base option list strings gmap.

Local Open Scope string_scope.
Local Open Scope list_scope.

(** ** Exceptions as values *)

Inductive exn : Type :=
| ValueError
| IndexError
| KeyError
| ZeroDivisionError
| re_error
| UnicodeDecodeError
| OtherError (msg : string).

Inductive res (A : Type) : Type :=
| Val (a : A)
| Exc (e : exn).
Arguments Val {A} a.
Arguments Exc {A} e.

#[export] Instance res_ret : MRet res := fun A a => Val a.

#[export] Instance res_bind : MBind res := fun A B k m =>
  match m with
  | Val a => k a
  | Exc e => Exc e
  end.

#[export] Instance res_fmap : FMap res := fun A B f m =>
  match m with
  | Val a => Val (f a)
  | Exc e => Exc e
  end.

(** [for x in l: acc = body(acc, x)] where the body may raise. *)
Fixpoint res_fold {A B} (body : B -> A -> res B) (acc : B) (l : list A)
  : res B :=
  match l with
  | [] => Val acc
  | x :: l' => acc' ← body acc x; res_fold body acc' l'
  end.

(** [[f(x) for x in l]] where [f] may raise. *)
Fixpoint res_map {A B} (f : A -> res B) (l : list A) : res (list B) :=
  match l with
  | [] => Val []
  | x :: l' => y ← f x; ys ← res_map f l'; Val (y :: ys)
  end.

(** ** Dictionaries in insertion order

    [d[k] = v] replaces the value of a key that is present, at its
    position, and appends a new key otherwise. *)

Definition odict (V : Type) : Type := list (string * V).

Fixpoint dict_set {V} (d : odict V) (k : string) (v : V) : odict V :=
  match d with
  | [] => [(k, v)]
  | (k', v') :: d' =>
      if String.eqb k' k then (k, v) :: d' else (k', v') :: dict_set d' k v
  end.

Fixpoint dict_get {V} (d : odict V) (k : string) : option V :=
  match d with
  | [] => None
  | (k', v') :: d' => if String.eqb k' k then Some v' else dict_get d' k
  end.

(** ** The Python library on ASCII strings *)

Module Py.

Definition ord (c : ascii) : nat := nat_of_ascii c.

Definition between (lo hi : nat) (c : ascii) : bool :=
  (lo <=? ord c)%nat && (ord c <=? hi)%nat.

(** [str.isspace] on one character: TAB..CR, FS..US and the space. *)
Definition isspace (c : ascii) : bool := between 9 13 c || between 28 32 c.

(** C [isspace], the one [int()] uses on an ASCII string. *)
Definition c_isspace (c : ascii) : bool := between 9 13 c || between 32 32 c.

Definition isdigit (c : ascii) : bool := between 48 57 c.

Definition isalpha (c : ascii) : bool := between 65 90 c || between 97 122 c.

Definition isascii_char (c : ascii) : bool := (ord c <? 128)%nat.

Definition lower_char (c : ascii) : ascii :=
  if between 65 90 c then ascii_of_nat (ord c + 32) else c.

Fixpoint all_chars (p : ascii -> bool) (s : string) : bool :=
  match s with
  | "" => true
  | String c s' => p c && all_chars p s'
  end.

(** [bool(s)]: a string is true when it is not empty. *)
Definition truthy (s : string) : bool := negb (String.eqb s "").

(** [s.isascii()] *)
Definition isascii (s : string) : bool := all_chars isascii_char s.

(** [s.lower()] *)
Fixpoint lower (s : string) : string :=
  match s with
  | "" => ""
  | String c s' => String (lower_char c) (lower s')
  end.

Fixpoint lstrip_by (p : ascii -> bool) (s : string) : string :=
  match s with
  | "" => ""
  | String c s' => if p c then lstrip_by p s' else s
  end.

Fixpoint rstrip_by (p : ascii -> bool) (s : string) : string :=
  match s with
  | "" => ""
  | String c s' =>
      match rstrip_by p s' with
      | "" => if p c then "" else String c ""
      | t => String c t
      end
  end.

(** [s.strip()] *)
Definition strip (s : string) : string := rstrip_by isspace (lstrip_by isspace s).

(** Whether [s] begins inside a word. *)
Definition head_in_word (s : string) : bool :=
  match s with
  | "" => false
  | String c _ => negb (isspace c)
  end.

(** Put [c] in front of the words of the rest of the string: it extends
    the first word when the rest begins inside a word, and is a word of
    its own otherwise. *)
Definition push_char (c : ascii) (joined : bool) (ws : list string)
  : list string :=
  match joined, ws with
  | true, w :: ws' => String c w :: ws'
  | _, _ => String c "" :: ws
  end.

(** [s.split()]: the maximal runs of non-whitespace characters. *)
Fixpoint split (s : string) : list string :=
  match s with
  | "" => []
  | String c s' =>
      if isspace c then split s'
      else push_char c (head_in_word s') (split s')
  end.

(** [s.split(sep)] for a one-character separator. *)
Fixpoint split_on (sep : ascii) (s : string) : list string :=
  match s with
  | "" => [""]
  | String c s' =>
      if Ascii.eqb c sep then "" :: split_on sep s'
      else match split_on sep s' with
           | w :: ws => String c w :: ws
           | [] => [String c ""]
           end
  end.

(** [sep.join(ws)] *)
Fixpoint join (sep : string) (ws : list string) : string :=
  match ws with
  | [] => ""
  | [w] => w
  | w :: ws' => w +:+ sep +:+ join sep ws'
  end.

(** [s.startswith(p)] *)
Fixpoint startswith (p s : string) : bool :=
  match p, s with
  | "", _ => true
  | String a p', String b s' => Ascii.eqb a b && startswith p' s'
  | String _ _, "" => false
  end.

(** [sub in s] *)
Fixpoint contains (sub s : string) : bool :=
  startswith sub s ||
  match s with
  | "" => false
  | String _ s' => contains sub s'
  end.

(** [s.endswith(suffix)] *)
Fixpoint endswith (suffix s : string) : bool :=
  String.eqb s suffix ||
  match s with
  | "" => false
  | String _ s' => endswith suffix s'
  end.

(** [str(n)] for a natural number. *)
Definition str_of_nat (n : nat) : string :=
  NilEmpty.string_of_uint (Nat.to_uint n).

(** *** [int(s)]

    Optional surrounding C whitespace, an optional sign, then decimal
    digits in which single underscores may separate digits.  Anything
    else is a [ValueError].  (The limit on the number of digits that
    recent interpreters add is not modelled.) *)

Definition digit_value (c : ascii) : Z := Z.of_nat (ord c - 48).

Fixpoint digits (acc : Z) (after_digit : bool) (s : string) : option Z :=
  match s with
  | "" => if after_digit then Some acc else None
  | String c s' =>
      if isdigit c then digits (10 * acc + digit_value c) true s'
      else if Ascii.eqb c "_" && after_digit then digits acc false s'
      else None
  end.

Definition int (s : string) : res Z :=
  let parsed :=
    match rstrip_by c_isspace (lstrip_by c_isspace s) with
    | String "+" t => digits 0 false t
    | String "-" t => Z.opp <$> digits 0 false t
    | t => digits 0 false t
    end in
  match parsed with
  | Some n => Val n
  | None => Exc ValueError
  end.

(** [n / d] on integers: true division. *)
Definition truediv (n d : Z) : res Q :=
  if (d =? 0)%Z then Exc ZeroDivisionError
  else Val (inject_Z n / inject_Z d)%Q.

(** [l[i]] for [i >= 0]. *)
Definition getitem {A} (l : list A) (i : nat) : res A :=
  match l !! i with
  | Some x => Val x
  | None => Exc IndexError
  end.

End Py.

(** ** Regular expressions: the fragment of [re] the scripts use

    A pattern is a sequence of atoms; an atom is the end anchor [$] or a
    character class under a counted repetition.  [compile] reads the
    pattern text ([\d], [\w], [\s], an escaped or plain literal, and the
    quantifiers [{m}], [{m,n}], [{m,}], [+], [*], [?]); a leading [^] is
    accepted and dropped, since [re.match] anchors at the start anyway.
    Pattern text outside this fragment is reported as [re_error]. *)

Module Re.

Inductive cclass : Type :=
| cc_digit                (* \d *)
| cc_word                 (* \w *)
| cc_space                (* \s *)
| cc_char (c : ascii).    (* a literal character *)

Inductive atom : Type :=
| at_end                                          (* $ *)
| at_rep (cl : cclass) (lo : nat) (hi : option nat).

Definition regex : Type := list atom.

Definition in_class (cl : cclass) (c : ascii) : bool :=
  match cl with
  | cc_digit => Py.isdigit c
  | cc_word => Py.isalpha c || Py.isdigit c || Ascii.eqb c "_"
  | cc_space => Py.isspace c
  | cc_char d => Ascii.eqb c d
  end.

(** *** Reading a pattern *)

Inductive mode : Type :=
| m_plain
| m_escape
| m_lo (n : option nat)
| m_hi (lo : nat) (n : option nat).

(** Atoms read so far (latest first), whether the latest may still take
    a quantifier, and the reading mode. *)
Record reader : Type := Reader {
  atoms : list atom;
  fresh : bool;
  rmode : mode
}.

Definition push (cl : cclass) (r : reader) : option reader :=
  Some (Reader (at_rep cl 1 (Some 1) :: atoms r) true m_plain).

Definition quantify (lo : nat) (hi : option nat) (r : reader)
  : option reader :=
  match fresh r, atoms r with
  | true, at_rep cl _ _ :: rest =>
      Some (Reader (at_rep cl lo hi :: rest) false m_plain)
  | _, _ => None
  end.

Definition add_digit (n : option nat) (c : ascii) : option nat :=
  Some (10 * default 0 n + (Py.ord c - 48)).

Definition is_special (c : ascii) : bool :=
  bool_decide (c ∈ [".";"(";")";"[";"]";"|";"}";"\";"^";"$";"{";"+";"*";"?"]%char).

Definition step (r : reader) (c : ascii) : option reader :=
  match rmode r with
  | m_plain =>
      if Ascii.eqb c "\" then Some (Reader (atoms r) (fresh r) m_escape)
      else if Ascii.eqb c "^" then
        match atoms r with [] => Some r | _ => None end
      else if Ascii.eqb c "$" then Some (Reader (at_end :: atoms r) false m_plain)
      else if Ascii.eqb c "{" then
        if fresh r then Some (Reader (atoms r) true (m_lo None)) else None
      else if Ascii.eqb c "+" then quantify 1 None r
      else if Ascii.eqb c "*" then quantify 0 None r
      else if Ascii.eqb c "?" then quantify 0 (Some 1) r
      else if is_special c then None
      else push (cc_char c) r
  | m_escape =>
      if Ascii.eqb c "d" then push cc_digit r
      else if Ascii.eqb c "w" then push cc_word r
      else if Ascii.eqb c "s" then push cc_space r
      else if Py.isalpha c || Py.isdigit c then None
      else push (cc_char c) r
  | m_lo n =>
      if Py.isdigit c then Some (Reader (atoms r) true (m_lo (add_digit n c)))
      else match n with
           | None => None
           | Some lo =>
               if Ascii.eqb c "," then Some (Reader (atoms r) true (m_hi lo None))
               else if Ascii.eqb c "}" then quantify lo (Some lo) r
               else None
           end
  | m_hi lo n =>
      if Py.isdigit c then Some (Reader (atoms r) true (m_hi lo (add_digit n c)))
      else if Ascii.eqb c "}" then
        match n with
        | Some hi => if (lo <=? hi)%nat then quantify lo n r else None
        | None => quantify lo None r
        end
      else None
  end.

Fixpoint read (r : reader) (pattern : string) : option reader :=
  match pattern with
  | "" => Some r
  | String c p' => r' ← step r c; read r' p'
  end.

(** [re.compile(pattern)] *)
Definition compile (pattern : string) : res regex :=
  match read (Reader [] false m_plain) pattern with
  | Some (Reader ats _ m_plain) => Val (rev ats)
  | _ => Exc re_error
  end.

(** *** Matching at the start of a string *)

(** Between [lo] and [hi] characters of the class [p], then [k] on what
    is left. *)
Fixpoint rep (p : ascii -> bool) (k : string -> bool)
    (lo : nat) (hi : option nat) (s : string) : bool :=
  (bool_decide (lo = 0) && k s) ||
  match s with
  | "" => false
  | String c s' =>
      p c && negb (bool_decide (hi = Some 0)) && rep p k (pred lo) (pred <$> hi) s'
  end.

(** [$]: at the end of the string, or just before a final newline. *)
Definition at_eol (s : string) : bool :=
  match s with
  | "" => true
  | String c "" => Ascii.eqb c (ascii_of_nat 10)
  | _ => false
  end.

Fixpoint accepts (r : regex) (s : string) : bool :=
  match r with
  | [] => true
  | at_end :: r' => at_eol s && accepts r' s
  | at_rep cl lo hi :: r' => rep (in_class cl) (accepts r') lo hi s
  end.

(** [bool(re.match(pattern, s))] *)
Definition matches (pattern s : string) : res bool :=
  r ← compile pattern; Val (accepts r s).

End Re.

(** ** [analyze_societies_simple.py]: [analyze_csv_file]

    The function body from the point where the file has been read into
    [rows] (a list of rows, each a list of cells).  Opening the file and
    sniffing the delimiter are outside the model; the [print] calls are
    left out. *)

Module Societies.

(** [row[col_idx] if col_idx < len(row) else ''] *)
Definition cell (row : list string) (col_idx : nat) : res string :=
  if (col_idx <? length row)%nat then Py.getitem row col_idx else Val "".

(** [values = [... for row in data_rows]] *)
Definition column_values (data_rows : list (list string)) (col_idx : nat)
  : res (list string) :=
  res_map (fun row => cell row col_idx) data_rows.

(** [non_empty = [v for v in values if v and v.strip()]] *)
Definition non_empty (values : list string) : list string :=
  List.filter (fun v => Py.truthy v && Py.truthy (Py.strip v)) values.

Definition date_keywords : list string :=
  ["date"; "reg_date"; "registration_date"; "exemption_date"].

(** [any(keyword in col_name.lower() for keyword in [...])] *)
Definition is_date_column (col_name : string) : bool :=
  existsb (fun keyword => Py.contains keyword (Py.lower col_name)) date_keywords.

(** What the date branch finds out about one cell. *)
Inductive finding : Type :=
| blank                (* the cell is skipped *)
| iso_date             (* ISO shape, nothing to report *)
| iso_date_invalid_range   (* "Invalid date" is reported *)
| iso_date_malformed       (* "Malformed date" is reported *)
| iso_too_few_parts    (* ISO shape with fewer than three parts *)
| slash_pattern        (* DD/MM/YYYY or MM/DD/YYYY is printed *)
| dash_pattern         (* DD-MM-YYYY is printed *)
| no_pattern.

(** [year, month, day = int(parts[0]), int(parts[1]), int(parts[2])] *)
Definition parse_parts (parts : list string) : res (Z * Z * Z) :=
  p0 ← Py.getitem parts 0; year ← Py.int p0;
  p1 ← Py.getitem parts 1; month ← Py.int p1;
  p2 ← Py.getitem parts 2; day ← Py.int p2;
  Val (year, month, day).

(** The body of [for row_idx, value in enumerate(values)] for one value. *)
Definition check_date (value : string) : res finding :=
  if Py.truthy value && Py.truthy (Py.strip value) then
    let date_str := Py.strip value in
    iso ← Re.matches "\d{4}-\d{2}-\d{2}" date_str;
    if iso : bool then
      let parts := Py.split_on "-" date_str in
      if (3 <=? length parts)%nat then
        match parse_parts parts with
        | Val (year, month, day) =>
            if (month >? 12)%Z || (day >? 31)%Z || (month <? 1)%Z || (day <? 1)%Z
            then Val iso_date_invalid_range
            else Val iso_date
        | Exc ValueError => Val iso_date_malformed
        | Exc e => Exc e
        end
      else Val iso_too_few_parts
    else
      slash ← Re.matches "\d{1,2}/\d{1,2}/\d{2,4}" date_str;
      if slash : bool then Val slash_pattern
      else
        dash ← Re.matches "\d{1,2}-\d{1,2}-\d{2,4}" date_str;
        if dash : bool then Val dash_pattern else Val no_pattern
  else Val blank.

(** One entry of [date_issues]: the row number written in the message,
    the kind of issue, the value and the column. *)
Inductive issue_kind : Type := Invalid_date | Malformed_date.

Record date_issue : Type := Date_issue {
  issue_row : nat;
  issue_kind_of : issue_kind;
  issue_value : string;
  issue_column : string
}.

Definition report (row_idx : nat) (col_name value : string) (f : finding)
  : list date_issue :=
  match f with
  | iso_date_invalid_range =>
      [Date_issue (row_idx + 2) Invalid_date (Py.strip value) col_name]
  | iso_date_malformed =>
      [Date_issue (row_idx + 2) Malformed_date (Py.strip value) col_name]
  | _ => []
  end.

(** The loop over [enumerate(values)], appending to [date_issues]. *)
Fixpoint check_values (col_name : string) (row_idx : nat)
    (values : list string) (date_issues : list date_issue)
  : res (list date_issue) :=
  match values with
  | [] => Val date_issues
  | value :: rest =>
      f ← check_date value;
      check_values col_name (S row_idx) rest
        (date_issues ++ report row_idx col_name value f)
  end.

Record column_stat : Type := Column_stat {
  stat_non_empty : nat;
  stat_empty : nat;
  stat_unique : nat;
  stat_sample : list string
}.

Record analysis : Type := Analysis {
  file_name : string;
  shape : nat * nat;
  columns : list string;
  date_issues : list date_issue;
  column_stats : odict column_stat;
  sample_data : list (list string)
}.

(** The body of [for col_idx, col_name in enumerate(headers)]. *)
Definition analyze_column (data_rows : list (list string))
    (acc : list date_issue * odict column_stat)
    (col : nat * string)
  : res (list date_issue * odict column_stat) :=
  let '(col_idx, col_name) := col in
  values ← column_values data_rows col_idx;
  let ne := non_empty values in
  let stat := Column_stat (length ne) (length values - length ne)
                (size (list_to_set ne : gset string)) (take 3 ne) in
  issues ← (if is_date_column col_name
            then check_values col_name 0 values acc.1
            else Val acc.1);
  Val (issues, dict_set acc.2 col_name stat).

(** The body of the [try] of [analyze_csv_file] from [if len(rows) < 2]
    on: [None] when the file has fewer than two rows or when an exception
    escapes the column loop. *)
Definition analyze_rows (rows : list (list string)) (file_name : string)
  : option analysis :=
  match rows with
  | headers :: ((_ :: _) as data_rows) =>
      match res_fold (analyze_column data_rows) ([], [])
                     (imap (fun i h => (i, h)) headers) with
      | Val (issues, stats) =>
          Some (Analysis file_name (length data_rows, length headers) headers issues
                  stats (take 3 data_rows))
      | Exc _ => None
      end
  | _ => None
  end.

(** [analyze_csv_file].  [read_rows file_path] stands for the first part
    of the [try]: [open], [csv.Sniffer().sniff] on the first 1024
    characters and [list(csv.reader(f, delimiter=delimiter))]; it gives
    the rows of the file, or the exception that one of the three raises
    (a file that cannot be opened, a delimiter that cannot be
    determined).  [except Exception] turns every exception into [None]. *)
Definition analyze_csv_file (read_rows : string -> res (list (list string)))
    (file_path file_name : string) : option analysis :=
  match read_rows file_path with
  | Val rows => analyze_rows rows file_name
  | Exc _ => None
  end.

End Societies.

(** ** [analyze_trustees_csv.py]: class [TrusteesCSVAnalyzer] *)

(** *** What pandas hands over

    A [DataFrame] as [read_csv] returns it: the column labels and the
    rows, a cell being [None] for NaN (an empty or missing field) and
    [Some text] otherwise. *)

Definition cell : Type := option string.

Record DataFrame : Type := Frame {
  df_columns : list string;
  df_rows : list (list cell)
}.

(** Position of the first occurrence of a label. *)
Fixpoint index_of (label : string) (labels : list string) : option nat :=
  match labels with
  | [] => None
  | l :: rest => if String.eqb l label then Some 0 else S <$> index_of label rest
  end.

(** [df[header]]: the column with that label, [KeyError] without one. *)
Definition df_getitem (df : DataFrame) (header : string) : res (list cell) :=
  match index_of header (df_columns df) with
  | Some i => Val (map (fun row => default None (row !! i)) (df_rows df))
  | None => Exc KeyError
  end.

(** [series.dropna()] *)
Definition dropna (col : list cell) : list cell :=
  List.filter (fun c : cell => bool_decide (is_Some c)) col.

(** [df.dropna(how='all')]: the rows that have a cell which is not NaN. *)
Definition dropna_all (df : DataFrame) : list (list cell) :=
  List.filter (fun row => existsb (fun c : cell => bool_decide (is_Some c)) row)
    (df_rows df).

(** *** Records of the analysis *)

Inductive file_error : Type :=
| Encoding_error (encoding : string) (e : exn)   (* 'Encoding {encoding}: {e}' *)
| Could_not_read                      (* 'Could not read file with any encoding' *)
| General_error (e : exn).                        (* 'General error: {e}' *)

(** [file_info], without the value samples ([field_samples],
    [unique_values], [date_fields]), which no statement below reads. *)
Record file_info : Type := File_info {
  file_name : string;
  headers : list string;
  normalized_headers : list string;
  total_rows : nat;
  non_empty_rows : nat;
  field_completion : odict nat;
  errors : list file_error
}.

(** One line of the progress report that [run_analysis] prints per file. *)
Inductive log_line : Type :=
| Log_errors (name : string) (errs : list file_error)
| Log_analyzed (name : string) (rows columns : nat).

Record analyzer : Type := Analyzer {
  files_analyzed : nat;
  total_records : nat;
  field_variations : gmap string (gset string);
  file_structures : odict file_info;
  printed : list log_line
}.

(** One dictionary of [completeness_by_field]. *)
Record completeness : Type := Completeness {
  c_file : string;
  c_completeness : Q;
  c_filled_records : nat;
  c_total_records : nat
}.

Record summary : Type := Summary {
  s_files_analyzed : nat;
  s_total_records : nat;
  s_unique_field_names : nat
}.

Record results : Type := Results {
  r_summary : summary;
  r_field_mapping : odict (list string);
  r_file_structures : odict file_info;
  r_field_variations : gmap string (gset string);
  r_completeness_by_field : gmap string (list completeness)
}.

Definition standard_fields : odict (list string) := [
  ("pt_cause_no", ["pt cause no"; "pt_cause_no"; "cause no"; "cause_no"; "pt no";
                   "pt_no"; "pt cause no (station)"; "pt_cause_no_(station)";
                   "pt_cause_no_station"]);
  ("folio_no", ["folio no"; "folio_no"; "folio"; "folio number"; "folio_number"]);
  ("deceased_name", ["name of the deceased"; "name of deceased"; "deceased name";
                     "deceased_name"; "name"; "deceased"]);
  ("gender", ["gender"; "sex"]);
  ("marital_status", ["marital status"; "marital_status"; "status"]);
  ("date_of_death", ["date of death"; "date_of_death"; "death date"; "death_date";
                     "died"]);
  ("religion", ["religion"; "faith"]);
  ("county", ["county"; "location"; "district"]);
  ("station", ["station"; "court station"; "court_station"; "office"]);
  ("assets", ["assets"; "estate"; "property"; "shares"; "estate value";
              "estate_value"; "value"]);
  ("beneficiaries", ["beneficiaries"; "beneficiary"; "heirs"; "next of kin";
                     "next_of_kin"; "beneficiaries/ date of birth/ id no.";
                     "beneficiaries/date of birth/idno"]);
  ("telephone_no", ["telephone no"; "telephone_no"; "phone"; "tel"; "telephone";
                    "contact"; "telephone no of the beneficiary";
                    "telephone of beneficiary"]);
  ("date_of_advertisement", ["date of advertisement"; "date_of_advertisement";
                             "advertisement date"; "advert date"; "advert_date";
                             "date of advertisement for claims";
                             "date advertisement for claims"]);
  ("date_of_confirmation", ["date of confirmation"; "date_of_confirmation";
                            "confirmation date"; "confirmed";
                            "date of confirmation of grants";
                            "date of confirmation of grants"]);
  ("date_account_drawn", ["date account drawn"; "date_account_drawn";
                          "account drawn"; "account_drawn"]);
  ("date_payment_made", ["date payment made"; "date_payment_made"; "payment date";
                         "payment_date"; "paid"]);
  ("file_year", ["year"; "file year"; "file_year"]);
  ("serial_number", ["serial number"; "serial_number"; "s/no"; "sno"; "no"])
].

Definition date_formats : list string := [
  "^\d{1,2}/\d{1,2}/\d{2,4}$";
  "^\d{1,2}-\d{1,2}-\d{2,4}$";
  "^\d{1,2}\.\d{1,2}\.\d{2,4}$";
  "^\d{4}-\d{2}-\d{2}";
  "^\w{3}\s+\w{3}\s+\d{1,2}\s+\d{4}";
  "^\d{1,2}\s+\w{3}\s+\d{4}";
  "^\w{3}\s+\d{1,2},?\s+\d{4}";
  "^\d{1,2}/\d{1,2}/$";
  "^/$";
  "^\d{1,2}/\d{1,2}/\d{2}/\d{2}$"
].

Definition encodings : list string := ["utf-8"; "latin-1"; "cp1252"; "iso-8859-1"].

Definition stop_words : gset string :=
  list_to_set ["of"; "the"; "and"; "or"; "in"; "on"; "at"; "to"; "for"; "with"; "by"].

(** The default of [fuzzy_match]'s [threshold]. *)
Definition default_threshold : Q := 7 # 10.

(** [f'format_{i}_{pattern}'] *)
Definition format_name (i : nat) (pattern : string) : string :=
  "format_" +:+ Py.str_of_nat i +:+ "_" +:+ pattern.

(** The loop of [detect_date_format] over [enumerate(self.date_formats)],
    from index [i] on. *)
Fixpoint first_format (i : nat) (patterns : list string) (value : string)
  : res string :=
  match patterns with
  | [] => Val "unknown_format"
  | pattern :: rest =>
      m ← Re.matches pattern value;
      if m : bool then Val (format_name i pattern)
      else first_format (S i) rest value
  end.

(** [detect_date_format]: [None] is Python's [None]. *)
Definition detect_date_format (value : string) : res (option string) :=
  if negb (Py.truthy value) then Val None
  else
    let value := Py.strip value in
    if negb (Py.truthy value) then Val None
    else Some <$> first_format 0 date_formats value.

(** [fuzzy_match] *)
Definition fuzzy_match (field1 field2 : string) (threshold : Q) : res bool :=
  if negb (Py.truthy field1) || negb (Py.truthy field2) then Val false
  else
    let words1 : gset string := list_to_set (Py.split field1) ∖ stop_words in
    let words2 : gset string := list_to_set (Py.split field2) ∖ stop_words in
    if bool_decide (words1 = ∅) || bool_decide (words2 = ∅) then Val false
    else
      let common_words := words1 ∩ words2 in
      let total_words := words1 ∪ words2 in
      similarity ←
        (if bool_decide (total_words = ∅) then Val 0%Q
         else Py.truediv (Z.of_nat (size common_words)) (Z.of_nat (size total_words)));
      Val (Qle_bool threshold similarity).

Section Trustees.

(** [unicodedata.normalize('NFKD', s)] for a string that is not ASCII. *)
Variable nfkd_ext : string -> string.

(** [pd.read_csv(file_path, encoding=encoding, low_memory=False)] *)
Variable read_csv : string -> string -> res DataFrame.

(** [os.path.join] and [os.path.basename] *)
Variable path_join : string -> string -> string.
Variable basename : string -> string.

(** The order in which a [set] of strings is iterated. *)
Variable iter_order : gset string -> list string.

(** [os.listdir]: the names in a directory, or the exception it raises
    (a directory that does not exist or cannot be read). *)
Variable listdir : string -> res (list string).

(** [unicodedata.normalize('NFKD', s)] *)
Definition nfkd (s : string) : string :=
  if Py.isascii s then s else nfkd_ext s.

(** [normalize_text] ([pd.isna] is false of a [str]). *)
Definition normalize_text (text : string) : string :=
  if negb (Py.truthy text) then ""
  else
    let text := Py.strip text in
    let text := nfkd text in
    Py.lower (Py.join " " (Py.split text)).

(** The [for variation in known_variations] loop of the fuzzy pass:
    whether some variation accepts [field]. *)
Fixpoint some_variation (field : string) (known_variations : list string)
  : res bool :=
  match known_variations with
  | [] => Val false
  | variation :: rest =>
      let normalized_variation := normalize_text variation in
      if Py.contains normalized_variation field
         || Py.contains field normalized_variation
      then Val true
      else
        close ← fuzzy_match field normalized_variation default_threshold;
        if close : bool then Val true else some_variation field rest
  end.

(** The two passes for one standard field: what [mapping[standard_field]]
    holds at the end. *)
Definition map_field (all_fields known_variations : list string)
  : res (list string) :=
  let exact :=
    List.filter
      (fun field => bool_decide (field ∈ map normalize_text known_variations))
      all_fields in
  res_fold
    (fun matched field =>
       if bool_decide (field ∈ matched) then Val matched
       else
         found ← some_variation field known_variations;
         Val (if found : bool then matched ++ [field] else matched))
    exact all_fields.

(** [create_field_mapping], over a given registry, with [all_fields] the
    set of observed fields in its iteration order. *)
Definition create_field_mapping_of (registry : odict (list string))
    (all_fields : list string) : res (odict (list string)) :=
  res_fold
    (fun mapping entry =>
       matched ← map_field all_fields entry.2;
       Val (dict_set mapping entry.1 matched))
    [] registry.

Definition create_field_mapping (a : analyzer) : res (odict (list string)) :=
  create_field_mapping_of standard_fields (iter_order (dom (field_variations a))).

(** The [for encoding in encodings] loop of [analyze_file]: the frame
    read, if any, and the error notes appended on the way. *)
Fixpoint read_any (file_path : string) (encs : list string)
    (errs : list file_error) : option DataFrame * list file_error :=
  match encs with
  | [] => (None, errs)
  | encoding :: rest =>
      match read_csv file_path encoding with
      | Val df => (Some df, errs)
      | Exc UnicodeDecodeError => read_any file_path rest errs
      | Exc e => read_any file_path rest (errs ++ [Encoding_error encoding e])
      end
  end.

(** The body of [for col_idx, header in enumerate(df.columns)], on the
    pair of [file_info['field_completion']] and [self.field_variations].
    An exception leaves the pair as it was when it was raised. *)
Definition analyze_header (df : DataFrame) (name : string)
    (st : odict nat * gmap string (gset string)) (header : string)
  : (odict nat * gmap string (gset string)) * option exn :=
  let normalized_header := normalize_text header in
  if negb (Py.truthy normalized_header) then (st, None)
  else
    match df_getitem df header with
    | Exc e => (st, Some e)
    | Val col =>
        let non_null_values := dropna col in
        ((dict_set st.1 normalized_header (length non_null_values),
          <[normalized_header :=
              default ∅ (st.2 !! normalized_header) ∪ {[name]}]> st.2),
         None)
    end.

Fixpoint analyze_headers (df : DataFrame) (name : string)
    (st : odict nat * gmap string (gset string)) (hs : list string)
  : (odict nat * gmap string (gset string)) * option exn :=
  match hs with
  | [] => (st, None)
  | header :: rest =>
      match analyze_header df name st header with
      | (st', None) => analyze_headers df name st' rest
      | (st', Some e) => (st', Some e)
      end
  end.

(** [analyze_file]: the [file_info] returned and [self.field_variations]
    afterwards. *)
Definition analyze_file (fv : gmap string (gset string)) (file_path : string)
  : file_info * gmap string (gset string) :=
  let name := basename file_path in
  match read_any file_path encodings [] with
  | (None, errs) =>
      (File_info name [] [] 0 0 [] (errs ++ [Could_not_read]), fv)
  | (Some df, errs) =>
      let hs := df_columns df in
      let nhs := map normalize_text hs in
      match analyze_headers df name ([], fv) hs with
      | ((fc, fv'), None) =>
          (File_info name hs nhs (length (df_rows df))
             (length (dropna_all df)) fc errs, fv')
      | ((fc, fv'), Some e) =>
          (File_info name hs nhs (length (df_rows df)) 0 fc
             (errs ++ [General_error e]), fv')
      end
  end.

(** [csv_files = [f for f in os.listdir(...) if f.lower().endswith('.csv')]] *)
Definition csv_files_of (listing : list string) : list string :=
  List.filter (fun f => Py.endswith ".csv" (Py.lower f)) listing.

(** The body of [for file_name in csv_files] in [run_analysis].
    [analyze_file] catches every exception itself, so the [except] branch
    of the loop body is never taken. *)
Definition analyze_one (csv_directory : string) (a : analyzer) (name : string)
  : analyzer :=
  let file_path := path_join csv_directory name in
  let '(info, fv) := analyze_file (field_variations a) file_path in
  Analyzer (S (files_analyzed a)) (total_records a + total_rows info) fv
    (dict_set (file_structures a) name info)
    (printed a ++
       [match errors info with
        | [] => Log_analyzed name (total_rows info) (length (headers info))
        | errs => Log_errors name errs
        end]).

Definition analyze_all (csv_directory : string) (a : analyzer)
    (csv_files : list string) : analyzer :=
  foldl (analyze_one csv_directory) a csv_files.

(** The body of the inner loop of [analyze_data_quality]. *)
Definition quality_of_field (name : string) (info : file_info)
    (by_field : gmap string (list completeness)) (item : string * nat)
  : res (gmap string (list completeness)) :=
  let '(field_name, completion_count) := item in
  let total := non_empty_rows info in
  if (0 <? total)%nat then
    ratio ← Py.truediv (Z.of_nat completion_count) (Z.of_nat total);
    let completeness_percent := (ratio * 100)%Q in
    Val (<[field_name :=
             default [] (by_field !! field_name) ++
             [Completeness name completeness_percent completion_count total]]>
           by_field)
  else Val by_field.

(** [analyze_data_quality]: the [completeness_by_field] it builds. *)
Definition analyze_data_quality (a : analyzer)
  : res (gmap string (list completeness)) :=
  res_fold
    (fun by_field entry =>
       res_fold (quality_of_field entry.1 entry.2) by_field
         (field_completion entry.2))
    ∅ (file_structures a).

Definition new_analyzer : analyzer := Analyzer 0 0 ∅ [] [].

(** [run_analysis], from the directory listing to the results (without
    the date and schema parts).  [os.listdir] is called outside any
    [try], so its exception is the exception of [run_analysis]. *)
Definition run_analysis (csv_directory : string) : res results :=
  listing ← listdir csv_directory;
  let a := analyze_all csv_directory new_analyzer (csv_files_of listing) in
  mapping ← create_field_mapping a;
  quality ← analyze_data_quality a;
  Val (Results
         (Summary (files_analyzed a) (total_records a)
            (size (dom (field_variations a))))
         mapping (file_structures a) (field_variations a) quality).

End Trustees.

(** ** Definitions used in the statements *)

(** A word: not empty and free of whitespace. *)
Definition word (w : string) : bool :=
  Py.truthy w && Py.all_chars (fun c => negb (Py.isspace c)) w.

(** The words of a field name that count for the overlap. *)
Definition key_words (field : string) : gset string :=
  list_to_set (Py.split field) ∖ stop_words.

(** Token-overlap similarity as the specification words it: the share of
    common words among all words of the two names, and 0 when one of the
    names has no word left. *)
Definition token_overlap (field1 field2 : string) : Q :=
  if bool_decide (key_words field1 = ∅ \/ key_words field2 = ∅) then 0%Q
  else (inject_Z (Z.of_nat (size (key_words field1 ∩ key_words field2))) /
        inject_Z (Z.of_nat (size (key_words field1 ∪ key_words field2))))%Q.

(** The registry and the observed headers of the specification's field
    mapping example. *)
Definition example_registry : odict (list string) :=
  [("pt_cause_no", ["pt cause no"; "cause no"])].

Definition example_headers : list string :=
  ["pt cause no"; "pt_cause_no_(station)"; "folio no"].

(** A cell that holds a value. *)
Definition non_null (c : cell) : bool := bool_decide (is_Some c).

(** Number of rows of the frame whose cell in column [i] holds a value. *)
Definition filled_rows (df : DataFrame) (i : nat) : nat :=
  length (List.filter (fun row => non_null (default None (row !! i))) (df_rows df)).

(** Number of rows of the frame that are not entirely empty. *)
Definition non_blank_rows (df : DataFrame) : nat :=
  length (List.filter (fun row => existsb non_null row) (df_rows df)).

(** The completeness record of a file for a field filled in [filled] of
    its [total] rows. *)
Definition completeness_of (name : string) (filled total : nat) : completeness :=
  Completeness name
    (inject_Z (Z.of_nat filled) / inject_Z (Z.of_nat total) * 100)%Q filled total.

(** The completeness records of one field, file after file: one for each
    entry of the file's [field_completion] under that name, provided the
    file has a row that is not blank. *)
Definition completeness_entries (files : odict file_info) (field : string)
  : list completeness :=
  flat_map
    (fun entry : string * file_info =>
       flat_map
         (fun item : string * nat =>
            if (0 <? non_empty_rows entry.2)%nat && String.eqb item.1 field
            then [completeness_of entry.1 item.2 (non_empty_rows entry.2)]
            else [])
         (field_completion entry.2))
    files.

(** The effect of one pass of the column loop of [analyze_file] that
    does not raise. *)
Definition header_step (nfkd_ext : string -> string) (df : DataFrame)
    (name : string) (st : odict nat * gmap string (gset string))
    (header : string) : odict nat * gmap string (gset string) :=
  let nh := normalize_text nfkd_ext header in
  if negb (Py.truthy nh) then st
  else
    match index_of header (df_columns df) with
    | Some i =>
        (dict_set st.1 nh (filled_rows df i),
         <[nh := default ∅ (st.2 !! nh) ∪ {[name]}]> st.2)
    | None => st
    end.

(** The effect of one pass of the inner loop of [analyze_data_quality]. *)
Definition quality_step (name : string) (info : file_info)
    (by_field : gmap string (list completeness)) (item : string * nat)
  : gmap string (list completeness) :=
  if (0 <? non_empty_rows info)%nat then
    <[item.1 := default [] (by_field !! item.1) ++
                [completeness_of name item.2 (non_empty_rows info)]]> by_field
  else by_field.

(** A small environment for the examples.  The file 2019.csv has twelve
    rows, two of them blank; its column "Name" is filled in seven rows and
    its column "Folio No" in ten.  The file 2021.csv has blank rows only.
    The file 2020.csv cannot be read with any encoding, and there is no
    other file. *)
Definition example_frame : DataFrame :=
  Frame ["Name"; "Folio No"]
    [[Some "Achieng"; Some "1"]; [None; Some "2"]; [Some "Baraka"; Some "3"];
     [None; None]; [Some "Chebet"; Some "4"]; [Some "Daudi"; Some "5"];
     [None; Some "6"]; [Some "Esther"; Some "7"]; [Some "Faraji"; Some "8"];
     [None; Some "9"]; [None; None]; [Some "Gathoni"; Some "10"]].

(** A frame whose rows are all blank. *)
Definition blank_frame : DataFrame :=
  Frame ["Name"; "Folio No"] [[None; None]; [None; None]].

Definition example_join (directory name : string) : string :=
  directory +:+ "/" +:+ name.

Definition example_basename (path : string) : string :=
  default "" (last (Py.split_on "/" path)).

Definition example_read_csv (path encoding : string) : res DataFrame :=
  if String.eqb path "trustees/2019.csv" then Val example_frame
  else if String.eqb path "trustees/2021.csv" then Val blank_frame
  else if String.eqb path "trustees/2020.csv" then
    (if String.eqb encoding "utf-8" then Exc UnicodeDecodeError
     else Exc (OtherError "Error tokenizing data"))
  else Exc (OtherError "No such file or directory").

(** The file a line of the progress report is about. *)
Definition log_name (line : log_line) : string :=
  match line with
  | Log_errors name _ => name
  | Log_analyzed name _ _ => name
  end.

(** The counts of a file's [field_completion] do not exceed its number of
    rows that are not blank, unless that number was never computed. *)
Definition info_bounded (info : file_info) : Prop :=
  non_empty_rows info = 0 \/
  Forall (fun kv : string * nat => kv.2 <= non_empty_rows info) (field_completion info).

(** [a] is [a'] with one more file, [bad], which left only its entry
    [info] in [file_structures] and its line in the progress report. *)
Definition skipped (bad : string) (info : file_info) (line : log_line)
    (a a' : analyzer) : Prop :=
  exists l1 l2 p1 p2,
    file_structures a = l1 ++ (bad, info) :: l2 /\
    file_structures a' = l1 ++ l2 /\
    (bad ∉ (l1 ++ l2).*1) /\
    printed a = p1 ++ line :: p2 /\
    printed a' = p1 ++ p2 /\
    Forall (fun l => log_name l <> bad) (p1 ++ p2) /\
    field_variations a = field_variations a' /\
    total_records a = total_records a' /\
    files_analyzed a = S (files_analyzed a').

(** A frame in which two headers have the same normal form. *)
Definition twin_frame : DataFrame :=
  Frame ["Name"; "name "] [[Some "Achieng"; None]; [Some "Baraka"; None]].

(** ** More of [analyze_trustees_csv.py]

    The rest of the column loop of [analyze_file] (the value samples, the
    unique values and the date samples), [analyze_date_patterns],
    [generate_schema_recommendations] and the [convert_sets] helper of
    [save_results].  The cells of a frame are text, as in the frames
    above. *)

(** The values of a column that are not NaN, as text ([str(v)]). *)
Definition texts (col : list cell) : list string := omap id col.

(** [series.unique()]: the distinct values, in order of first
    appearance. *)
Fixpoint unique (seen : gset string) (values : list string) : list string :=
  match values with
  | [] => []
  | v :: rest =>
      if bool_decide (v ∈ seen) then unique seen rest
      else v :: unique ({[v]} ∪ seen) rest
  end.

(** One dictionary of [date_samples]. *)
Record date_sample : Type := Date_sample {
  sample_value : string;
  sample_format : string
}.

(** The loop [for val in sample_values] of [analyze_file]. *)
Fixpoint date_samples_of (sample_values : list string) : res (list date_sample) :=
  match sample_values with
  | [] => Val []
  | val :: rest =>
      found ←
        (if Py.truthy val && Py.truthy (Py.strip val) then
           date_format ← detect_date_format val;
           match date_format with
           | Some f =>
               if Py.truthy f && negb (String.eqb f "unknown_format")
               then Val [Date_sample val f]
               else Val []
           | None => Val []
           end
         else Val []);
      more ← date_samples_of rest;
      Val (found ++ more)
  end.

(** The tables of [file_info] that the column loop fills, with
    [self.field_variations]. *)
Record tables : Type := Tables {
  t_field_completion : odict nat;
  t_field_samples : odict (list string);
  t_unique_values : odict (gset string);
  t_date_fields : odict (list date_sample);
  t_field_variations : gmap string (gset string)
}.

(** [file_info] with all its tables. *)
Record full_info : Type := Full_info {
  fi_info : file_info;
  fi_field_samples : odict (list string);
  fi_unique_values : odict (gset string);
  fi_date_fields : odict (list date_sample)
}.

(** [[str(v) for v in values if str(v).strip()]] *)
Definition non_blank (values : list string) : list string :=
  List.filter (fun v => Py.truthy (Py.strip v)) values.

(** [formats_found] and [date_fields_by_type] of [analyze_date_patterns]. *)
Record date_analysis : Type := Date_analysis {
  formats_found : gmap string nat;
  date_fields_by_type : gmap string (list date_sample)
}.

(** The [if]/[elif] chain of [analyze_date_patterns] on a field name. *)
Definition date_type (field_name : string) : string :=
  if Py.contains "death" field_name then "death_dates"
  else if Py.contains "advertisement" field_name then "advertisement_dates"
  else if Py.contains "confirmation" field_name then "confirmation_dates"
  else if Py.contains "payment" field_name then "payment_dates"
  else if Py.contains "account" field_name then "account_dates"
  else "other_dates".

(** The body of [for sample in date_samples] in [analyze_date_patterns]. *)
Definition count_sample (field_name : string) (d : date_analysis)
    (sample : date_sample) : date_analysis :=
  Date_analysis
    (<[sample_format sample :=
         S (default 0 (formats_found d !! sample_format sample))]> (formats_found d))
    (<[date_type field_name :=
         default [] (date_fields_by_type d !! date_type field_name) ++ [sample]]>
       (date_fields_by_type d)).

(** [analyze_date_patterns], on the [file_info] values of
    [self.file_structures]. *)
Definition analyze_date_patterns (files : odict full_info) : date_analysis :=
  foldl
    (fun d (entry : string * full_info) =>
       foldl
         (fun d (field : string * list date_sample) =>
            foldl (count_sample field.1) d field.2)
         d (fi_date_fields entry.2))
    (Date_analysis ∅ ∅) files.

(** The type chosen for a standard field in
    [generate_schema_recommendations]. *)
Definition column_type (standard_field : string) : string :=
  if Py.contains "date" standard_field then "TEXT"
  else if bool_decide (standard_field ∈ ["file_year"; "serial_number"]) then "INTEGER"
  else if bool_decide (standard_field ∈ ["data_quality_score"]) then "DECIMAL(5,2)"
  else if bool_decide (standard_field ∈ ["missing_fields"; "import_warnings"]) then "JSONB"
  else "TEXT".

(** [recommendations['database_schema']] for a field mapping. *)
Definition database_schema (mapping : odict (list string)) : odict string :=
  foldl
    (fun schema (entry : string * list string) =>
       match entry.2 with
       | [] => schema
       | _ :: _ => dict_set schema entry.1 (column_type entry.1)
       end)
    [] mapping.

(** *** [convert_sets]

    The values that [save_results] walks: sets, dictionaries and lists,
    and everything else as an opaque leaf.  A set is given by its
    elements in iteration order. *)
#[warnings="-register-all"]
Inductive obj : Type :=
| O_leaf (text : string)
| O_set (elements : list string)
| O_dict (items : list (string * obj))
| O_list (items : list obj).

Fixpoint convert_sets (o : obj) : obj :=
  match o with
  | O_leaf t => O_leaf t
  | O_set elements => O_list (map O_leaf elements)
  | O_dict items => O_dict (map (fun '(k, v) => (k, convert_sets v)) items)
  | O_list items => O_list (map convert_sets items)
  end.

(** Whether a set occurs somewhere in a value. *)
Fixpoint has_set (o : obj) : bool :=
  match o with
  | O_leaf _ => false
  | O_set _ => true
  | O_dict items => existsb (fun '(_, v) => has_set v) items
  | O_list items => existsb has_set items
  end.

Section TrusteesValues.

Variable nfkd_ext : string -> string.
Variable read_csv : string -> string -> res DataFrame.
Variable basename : string -> string.

(** The whole body of [for col_idx, header in enumerate(df.columns)],
    statement by statement.  An exception leaves the tables as they were
    when it was raised. *)
Definition sample_header (df : DataFrame) (name : string) (t : tables)
    (header : string) : tables * option exn :=
  let normalized_header := normalize_text nfkd_ext header in
  if negb (Py.truthy normalized_header) then (t, None)
  else
    match df_getitem df header with
    | Exc e => (t, Some e)
    | Val col =>
        let non_null_values := dropna col in
        let completion :=
          dict_set (t_field_completion t) normalized_header (length non_null_values) in
        let sample_values := take 10 (texts non_null_values) in
        let samples :=
          dict_set (t_field_samples t) normalized_header (non_blank sample_values) in
        let unique_vals := unique ∅ (texts non_null_values) in
        let uniques :=
          if (length unique_vals <=? 50)%nat
          then dict_set (t_unique_values t) normalized_header
                 (list_to_set (non_blank unique_vals))
          else t_unique_values t in
        match date_samples_of sample_values with
        | Exc e =>
            (Tables completion samples uniques (t_date_fields t)
               (t_field_variations t), Some e)
        | Val date_samples =>
            let dates :=
              match date_samples with
              | [] => t_date_fields t
              | _ :: _ => dict_set (t_date_fields t) normalized_header date_samples
              end in
            (Tables completion samples uniques dates
               (<[normalized_header :=
                    default ∅ (t_field_variations t !! normalized_header) ∪ {[name]}]>
                  (t_field_variations t)), None)
        end
    end.

Fixpoint sample_headers (df : DataFrame) (name : string) (t : tables)
    (hs : list string) : tables * option exn :=
  match hs with
  | [] => (t, None)
  | header :: rest =>
      match sample_header df name t header with
      | (t', None) => sample_headers df name t' rest
      | (t', Some e) => (t', Some e)
      end
  end.

(** [analyze_file] with every table of [file_info]. *)
Definition analyze_file_full (fv : gmap string (gset string)) (file_path : string)
  : full_info * gmap string (gset string) :=
  let name := basename file_path in
  match read_any read_csv file_path encodings [] with
  | (None, errs) =>
      (Full_info (File_info name [] [] 0 0 [] (errs ++ [Could_not_read])) [] [] [], fv)
  | (Some df, errs) =>
      let hs := df_columns df in
      let nhs := map (normalize_text nfkd_ext) hs in
      match sample_headers df name (Tables [] [] [] [] fv) hs with
      | (t, None) =>
          (Full_info
             (File_info name hs nhs (length (df_rows df)) (length (dropna_all df))
                (t_field_completion t) errs)
             (t_field_samples t) (t_unique_values t) (t_date_fields t),
           t_field_variations t)
      | (t, Some e) =>
          (Full_info
             (File_info name hs nhs (length (df_rows df)) 0 (t_field_completion t)
                (errs ++ [General_error e]))
             (t_field_samples t) (t_unique_values t) (t_date_fields t),
           t_field_variations t)
      end
  end.

End TrusteesValues.

(** ** Definitions used in the further statements *)

(** Whether one alias accepts a field name in the fuzzy pass: one
    contains the other, or their token overlap reaches the threshold. *)
Definition accepts_alias (nfkd_ext : string -> string) (field alias : string) : bool :=
  let nv := normalize_text nfkd_ext alias in
  Py.contains nv field || Py.contains field nv ||
  Qle_bool default_threshold (token_overlap field nv).

Definition fuzzy_ok (nfkd_ext : string -> string) (known : list string)
    (field : string) : bool :=
  existsb (accepts_alias nfkd_ext field) known.

(** Whether a field name is the normal form of an alias. *)
Definition exact_ok (nfkd_ext : string -> string) (known : list string)
    (field : string) : bool :=
  bool_decide (field ∈ map (normalize_text nfkd_ext) known).

(** The headers the two passes keep: the exact matches, then the fuzzy
    matches that are not exact ones. *)
Definition matched_for (nfkd_ext : string -> string) (all_fields known : list string)
  : list string :=
  List.filter (exact_ok nfkd_ext known) all_fields ++
  List.filter (fun f => negb (exact_ok nfkd_ext known f) && fuzzy_ok nfkd_ext known f)
    all_fields.

(** ** More of [analyze_societies_simple.py] *)

(** The text the column loop reads in a row: [row[col_idx]], or the empty
    string in a short row. *)
Definition cell_text (row : list string) (col_idx : nat) : string :=
  default "" (row !! col_idx).

(** The finding of the date check on a value. *)
Definition finding_of (value : string) : Societies.finding :=
  match Societies.check_date value with
  | Val f => f
  | Exc _ => Societies.blank
  end.

(** The issues that the rows of one column add to [date_issues]. *)
Definition column_issues (data_rows : list (list string)) (col_idx : nat)
    (col_name : string) : list Societies.date_issue :=
  if Societies.is_date_column col_name then
    concat
      (imap
         (fun row_idx row =>
            Societies.report row_idx col_name (cell_text row col_idx)
              (finding_of (cell_text row col_idx)))
         data_rows)
  else [].

(** The statistics of one column. *)
Definition stat_of (data_rows : list (list string)) (col_idx : nat)
  : Societies.column_stat :=
  let values := map (fun row => cell_text row col_idx) data_rows in
  let ne := Societies.non_empty values in
  Societies.Column_stat (length ne) (length values - length ne)
    (size (list_to_set ne : gset string)) (take 3 ne).

(** *** The summary of [main]

    The entries of [date_issues] are pieces of text in the script; the
    two f-strings that build them: *)
Definition kind_text (k : Societies.issue_kind) : string :=
  match k with
  | Societies.Invalid_date => "Invalid date"
  | Societies.Malformed_date => "Malformed date"
  end.

Definition message (i : Societies.date_issue) : string :=
  "Row " +:+ Py.str_of_nat (Societies.issue_row i) +:+ ": " +:+
  kind_text (Societies.issue_kind_of i) +:+ " '" +:+ Societies.issue_value i +:+
  "' in column '" +:+ Societies.issue_column i +:+ "'".

(** The [if]/[elif] chain of [main] on one issue text. *)
Definition issue_pattern (issue : string) : string :=
  if Py.contains "Invalid date" issue then "Invalid date format"
  else if Py.contains "Malformed date" issue then "Malformed date"
  else "Other date issue".

(** [issue_patterns] after the loop over [all_date_issues]. *)
Definition count_patterns (all_date_issues : list string) : gmap string nat :=
  foldl
    (fun issue_patterns issue =>
       <[issue_pattern issue :=
           S (default 0 (issue_patterns !! issue_pattern issue))]> issue_patterns)
    ∅ all_date_issues.

(** ** More definitions for the trustees script *)

(** The number of rows [analyze_file] finds in a file: those of the frame
    that the first working encoding gives, and none for a file that no
    encoding reads. *)
Definition rows_read (read_csv : string -> string -> res DataFrame)
    (file_path : string) : nat :=
  match read_any read_csv file_path encodings [] with
  | (Some df, _) => length (df_rows df)
  | (None, _) => 0
  end.

(** The notes that the encodings of a list leave in [errors]: one for
    each attempt that fails with something else than a decoding error. *)
Definition encoding_notes (read_csv : string -> string -> res DataFrame)
    (file_path : string) (encs : list string) : list file_error :=
  flat_map
    (fun encoding =>
       match read_csv file_path encoding with
       | Val _ | Exc UnicodeDecodeError => []
       | Exc e => [Encoding_error encoding e]
       end)
    encs.

(** The date samples of all files, each with the name of its field, in
    the order in which [analyze_date_patterns] visits them. *)
Definition all_samples (files : odict full_info) : list (string * date_sample) :=
  flat_map
    (fun entry : string * full_info =>
       flat_map
         (fun field : string * list date_sample => map (pair field.1) field.2)
         (fi_date_fields entry.2))
    files.

(** Whether a pattern of [date_formats] matches the stripped value. *)
Definition some_format_matches (value : string) : bool :=
  existsb
    (fun pattern =>
       match Re.matches pattern (Py.strip value) with
       | Val true => true
       | _ => false
       end)
    date_formats.

(** No encoding of the list reads the file. *)
Definition unreadable (read_csv : string -> string -> res DataFrame)
    (file_path : string) (encs : list string) : Prop :=
  forall encoding, encoding ∈ encs -> forall df, read_csv file_path encoding <> Val df.

(** The line of the progress report for a file, from what reading it
    gives. *)
Definition line_of (read_csv : string -> string -> res DataFrame)
    (file_path name : string) : log_line :=
  match read_any read_csv file_path encodings [] with
  | (Some df, []) => Log_analyzed name (length (df_rows df)) (length (df_columns df))
  | (Some df, errs) => Log_errors name errs
  | (None, errs) => Log_errors name (errs ++ [Could_not_read])
  end.

(** Every key of the field-variation index is a non-empty name and
    stands for at least one file. *)
Definition keyed (fv : gmap string (gset string)) : Prop :=
  forall k files, fv !! k = Some files -> k <> "" /\ files <> ∅.

(** The format name that [detect_date_format] gives a value, and the
    empty string where it answers [None]. *)
Definition format_of (value : string) : string :=
  match detect_date_format value with
  | Val (Some f) => f
  | _ => ""
  end.

(** The six keys that [date_fields_by_type] can get. *)
Definition date_types : list string :=
  ["death_dates"; "advertisement_dates"; "confirmation_dates"; "payment_dates";
   "account_dates"; "other_dates"].

(** The values of the column with a given label that are not NaN, as
    text. *)
Definition column_texts (df : DataFrame) (header : string) : list string :=
  match df_getitem df header with
  | Val col => texts (dropna col)
  | Exc _ => []
  end.

(** What the value tables of a file hold: each entry of a table belongs
    to a column of the frame whose label has the entry's key as its
    normal form, and holds the sample of the first ten values of that
    column that are not blank, the set of its distinct values that are
    not blank (for a column of at most fifty distinct values), or the
    date samples among its first ten values (when there is one). *)
Definition tables_of (nfkd_ext : string -> string) (df : DataFrame)
    (samples : odict (list string)) (uniques : odict (gset string))
    (dates : odict (list date_sample)) : Prop :=
  (forall nh values, (nh, values) ∈ samples ->
     exists header,
       header ∈ df_columns df /\ normalize_text nfkd_ext header = nh /\
       values = non_blank (take 10 (column_texts df header))) /\
  (forall nh values, (nh, values) ∈ uniques ->
     exists header,
       header ∈ df_columns df /\ normalize_text nfkd_ext header = nh /\
       length (unique ∅ (column_texts df header)) <= 50 /\
       values = list_to_set (non_blank (unique ∅ (column_texts df header)))) /\
  (forall nh found, (nh, found) ∈ dates ->
     found <> [] /\
     exists header,
       header ∈ df_columns df /\ normalize_text nfkd_ext header = nh /\
       found = map (fun v => Date_sample v (format_of v))
                 (List.filter some_format_matches (take 10 (column_texts df header)))).

(** ** What the date patterns see of a character *)

Definition newline : ascii := ascii_of_nat 10.

(** The tests that the patterns of [date_formats] make on a character. *)
Definition atoms (c : ascii) : list bool :=
  [Py.isdigit c; Py.isalpha c; Py.isspace c; Ascii.eqb c "/"; Ascii.eqb c "-";
   Ascii.eqb c "."; Ascii.eqb c ","; Ascii.eqb c "_"; Ascii.eqb c newline].

(** The ten outcomes of these tests: a digit, a letter, white space, the
    newline, one of the five punctuation marks, anything else. *)
Definition char_classes : list (list bool) :=
  [[true; false; false; false; false; false; false; false; false];
   [false; true; false; false; false; false; false; false; false];
   [false; false; true; false; false; false; false; false; false];
   [false; false; true; false; false; false; false; false; true];
   [false; false; false; true; false; false; false; false; false];
   [false; false; false; false; true; false; false; false; false];
   [false; false; false; false; false; true; false; false; false];
   [false; false; false; false; false; false; true; false; false];
   [false; false; false; false; false; false; false; true; false];
   [false; false; false; false; false; false; false; false; false]].

Definition is_empty (s : string) : bool :=
  match s with "" => true | String _ _ => false end.

(** ** The library model on examples *)

Example compile_slash :
  Re.compile "^\d{1,2}/\d{1,2}/\d{2,4}$" =
  Val [Re.at_rep Re.cc_digit 1 (Some 2); Re.at_rep (Re.cc_char "/") 1 (Some 1);
       Re.at_rep Re.cc_digit 1 (Some 2); Re.at_rep (Re.cc_char "/") 1 (Some 1);
       Re.at_rep Re.cc_digit 2 (Some 4); Re.at_end].
Proof. reflexivity. Qed.

Example compile_textual :
  Re.compile "^\w{3}\s+\d{1,2},?\s+\d{4}" =
  Val [Re.at_rep Re.cc_word 3 (Some 3); Re.at_rep Re.cc_space 1 None;
       Re.at_rep Re.cc_digit 1 (Some 2); Re.at_rep (Re.cc_char ",") 0 (Some 1);
       Re.at_rep Re.cc_space 1 None; Re.at_rep Re.cc_digit 4 (Some 4)].
Proof. reflexivity. Qed.

Example compile_dot :
  Re.compile "^\d{1,2}\.\d{1,2}\.\d{2,4}$" =
  Val [Re.at_rep Re.cc_digit 1 (Some 2); Re.at_rep (Re.cc_char ".") 1 (Some 1);
       Re.at_rep Re.cc_digit 1 (Some 2); Re.at_rep (Re.cc_char ".") 1 (Some 1);
       Re.at_rep Re.cc_digit 2 (Some 4); Re.at_end].
Proof. reflexivity. Qed.

Example matches_examples :
  Re.matches "^\d{1,2}/\d{1,2}/\d{2,4}$" "4/4/2024" = Val true /\
  Re.matches "^\d{1,2}/\d{1,2}/\d{2,4}$" "4/4/24/23" = Val false /\
  Re.matches "^\d{1,2}/\d{1,2}/\d{2,4}$" "06/11/00" = Val true /\
  Re.matches "^\d{1,2}/\d{1,2}/\d{2,4}$" "123/1/2000" = Val false /\
  Re.matches "^\d{4}-\d{2}-\d{2}" "2001-02-28T10:00" = Val true /\
  Re.matches "^\w{3}\s+\w{3}\s+\d{1,2}\s+\d{4}" "Mon Nov 06 2000" = Val true /\
  Re.matches "^\w{3}\s+\d{1,2},?\s+\d{4}" "Nov 06, 2000" = Val true /\
  Re.matches "^\w{3}\s+\d{1,2},?\s+\d{4}" "Nov 06 2000" = Val true /\
  Re.matches "^/$" "/" = Val true /\
  Re.matches "(a|b)" "a" = Exc re_error.
Proof. repeat split; reflexivity. Qed.

Example int_examples :
  Py.int "02" = Val 2%Z /\ Py.int " 12 " = Val 12%Z /\ Py.int "-12" = Val (-12)%Z /\
  Py.int "1_2" = Val 12%Z /\ Py.int "1__2" = Exc ValueError /\
  Py.int "12_" = Exc ValueError /\ Py.int "" = Exc ValueError /\
  Py.int "28T10" = Exc ValueError /\ Py.int "+ 1" = Exc ValueError.
Proof. repeat split; reflexivity. Qed.

Example split_examples :
  Py.split " a  b " = ["a"; "b"] /\ Py.split "" = [] /\ Py.split "   " = [] /\
  Py.split_on "-" "a--b" = ["a"; ""; "b"] /\ Py.split_on "-" "" = [""] /\
  Py.strip "  x y  " = "x y" /\ Py.join " " ["a"; "b"; "c"] = "a b c".
Proof. repeat split; reflexivity. Qed.

Example societies_file :
  Societies.analyze_csv_file
    (fun _ => Val [["name"; "reg_date"]; ["a"; "1954-20-20"]; ["b"];
                   ["c"; "2001-02-28x"; "-"]])
    "societies/societies.csv" "societies.csv" =
  Some (Societies.Analysis "societies.csv" (3, 2) ["name"; "reg_date"]
          [Societies.Date_issue 2 Societies.Invalid_date "1954-20-20" "reg_date";
           Societies.Date_issue 4 Societies.Malformed_date "2001-02-28x" "reg_date"]
          [("name", Societies.Column_stat 3 0 3 ["a"; "b"; "c"]);
           ("reg_date", Societies.Column_stat 2 1 2 ["1954-20-20"; "2001-02-28x"])]
          [["a"; "1954-20-20"]; ["b"]; ["c"; "2001-02-28x"; "-"]]).
Proof. by vm_compute. Qed.

(** The date check of the societies script reads a time of day after the
    date as part of the day group. *)
Example check_date_time_suffix :
  Societies.check_date "2001-02-28T10:00:00" = Val Societies.iso_date_malformed.
Proof. reflexivity. Qed.

(** [detect_date_format] of the trustees script names the pattern and
    does not look at the numbers. *)
Example detect_date_format_names_only :
  detect_date_format "1954-20-20" = Val (Some "format_3_^\d{4}-\d{2}-\d{2}") /\
  detect_date_format "2001-02-28" = Val (Some "format_3_^\d{4}-\d{2}-\d{2}").
Proof. split; reflexivity. Qed.

(** * Properties *)

(** ** Strings *)

Lemma lower_char_idem c : Py.lower_char (Py.lower_char c) = Py.lower_char c.
Proof. destruct c as [[] [] [] [] [] [] [] []]; reflexivity. Qed.

Lemma isspace_lower_char c : Py.isspace (Py.lower_char c) = Py.isspace c.
Proof. destruct c as [[] [] [] [] [] [] [] []]; reflexivity. Qed.

Lemma isascii_lower_char c : Py.isascii_char (Py.lower_char c) = Py.isascii_char c.
Proof. destruct c as [[] [] [] [] [] [] [] []]; reflexivity. Qed.

Lemma split_space c s : Py.isspace c = true -> Py.split (String c s) = Py.split s.
Proof. intros H. simpl. by rewrite H. Qed.

Lemma split_nonspace c s :
  Py.isspace c = false ->
  Py.split (String c s) = Py.push_char c (Py.head_in_word s) (Py.split s).
Proof. intros H. simpl. by rewrite H. Qed.

Lemma split_head_in_word s :
  Py.head_in_word s = true -> exists w ws, Py.split s = w :: ws.
Proof.
  destruct s as [|c s]; simpl; [done|].
  destruct (Py.isspace c); simpl; [done|]. intros _.
  unfold Py.push_char. destruct (Py.head_in_word s), (Py.split s); eauto.
Qed.

Lemma word_cons c w :
  word (String c w) = negb (Py.isspace c) && Py.all_chars (fun c => negb (Py.isspace c)) w.
Proof. reflexivity. Qed.

Lemma split_words s : Forall (fun w => word w = true) (Py.split s).
Proof.
  induction s as [|c s IH]; simpl; [constructor|].
  destruct (Py.isspace c) eqn:Hc; [done|].
  unfold Py.push_char.
  destruct (Py.head_in_word s), (Py.split s) as [|w ws];
    try (constructor; [by rewrite word_cons, Hc|done]).
  inversion IH as [|? ? Hw Hws]; subst. constructor; [|done].
  rewrite word_cons, Hc. simpl.
  unfold word in Hw. by apply andb_true_iff in Hw as [_ ?].
Qed.

Lemma sapp_nil (t : string) : "" +:+ t = t.
Proof. reflexivity. Qed.

Lemma sapp_cons c (s t : string) : String c s +:+ t = String c (s +:+ t).
Proof. reflexivity. Qed.

Lemma split_word_app w t :
  word w = true -> Py.head_in_word t = false ->
  Py.split (w +:+ t) = w :: Py.split t.
Proof.
  induction w as [|c w IH]; [done|].
  rewrite word_cons. intros [Hc Hw]%andb_true_iff Ht.
  apply negb_true_iff in Hc. rewrite sapp_cons, split_nonspace by done.
  destruct w as [|c' w].
  - rewrite sapp_nil. by rewrite Ht.
  - rewrite IH; [|by rewrite word_cons in *|done].
    simpl in Hw. apply andb_true_iff in Hw as [Hc' _].
    rewrite sapp_cons. simpl. by rewrite Hc'.
Qed.

Lemma app_empty_r (s : string) : s +:+ "" = s.
Proof. induction s; rewrite ?sapp_cons; [done|congruence]. Qed.

Lemma join_cons2 w w' ws :
  Py.join " " (w :: w' :: ws) = w +:+ String " " (Py.join " " (w' :: ws)).
Proof. reflexivity. Qed.

Lemma split_join ws :
  Forall (fun w => word w = true) ws -> Py.split (Py.join " " ws) = ws.
Proof.
  induction 1 as [|w ws Hw Hws IH]; [done|].
  destruct ws as [|w' ws].
  - simpl. rewrite <- (app_empty_r w) at 1. by rewrite split_word_app.
  - rewrite join_cons2, split_word_app; [|done|done].
    by rewrite split_space, IH.
Qed.

Lemma split_lstrip s : Py.split (Py.lstrip_by Py.isspace s) = Py.split s.
Proof.
  induction s as [|c s IH]; [done|]. simpl.
  destruct (Py.isspace c) eqn:Hc; [done|]. simpl. by rewrite Hc.
Qed.

Lemma head_rstrip s :
  Py.head_in_word (Py.rstrip_by Py.isspace s) = Py.head_in_word s.
Proof.
  destruct s as [|c s]; [done|]. simpl.
  destruct (Py.rstrip_by Py.isspace s); [|done].
  by destruct (Py.isspace c) eqn:Hc; simpl; rewrite ?Hc.
Qed.

Lemma split_rstrip s : Py.split (Py.rstrip_by Py.isspace s) = Py.split s.
Proof.
  induction s as [|c s IH]; [done|]. simpl.
  pose proof (head_rstrip s) as Hh.
  destruct (Py.rstrip_by Py.isspace s) as [|c' t] eqn:Ht.
  - destruct (Py.isspace c) eqn:Hc; [done|]. simpl. rewrite Hc.
    by rewrite <- Hh, <- IH.
  - simpl in *. destruct (Py.isspace c); [done|]. by rewrite <- Hh, <- IH.
Qed.

Lemma split_strip s : Py.split (Py.strip s) = Py.split s.
Proof. unfold Py.strip. by rewrite split_rstrip, split_lstrip. Qed.

Lemma lower_app s t : Py.lower (s +:+ t) = Py.lower s +:+ Py.lower t.
Proof.
  induction s as [|c s IH]; [done|].
  rewrite sapp_cons. simpl. by rewrite sapp_cons, IH.
Qed.

Lemma lower_join ws :
  Py.lower (Py.join " " ws) = Py.join " " (map Py.lower ws).
Proof.
  induction ws as [|w ws IH]; [done|].
  destruct ws as [|w' ws]; [done|].
  rewrite join_cons2, lower_app.
  change (Py.lower (String " " ?x)) with (String " " (Py.lower x)).
  by rewrite IH.
Qed.

Lemma lower_idem s : Py.lower (Py.lower s) = Py.lower s.
Proof. induction s; simpl; [done|]. by rewrite lower_char_idem, IHs. Qed.

Lemma word_lower w : word (Py.lower w) = word w.
Proof.
  destruct w as [|c w]; [done|]. simpl. rewrite !word_cons, isspace_lower_char.
  f_equal. induction w as [|d w IH]; simpl; [done|].
  by rewrite isspace_lower_char, IH.
Qed.

Lemma all_chars_app p s t :
  Py.all_chars p (s +:+ t) = Py.all_chars p s && Py.all_chars p t.
Proof. induction s; rewrite ?sapp_cons; simpl; [done|]. by rewrite IHs, andb_assoc. Qed.

Lemma all_chars_lstrip p q s :
  Py.all_chars p s = true -> Py.all_chars p (Py.lstrip_by q s) = true.
Proof.
  induction s as [|c s IH]; [done|]. simpl.
  intros [Hc Hs]%andb_true_iff. destruct (q c); [auto|]. simpl. by rewrite Hc, Hs.
Qed.

Lemma all_chars_rstrip p q s :
  Py.all_chars p s = true -> Py.all_chars p (Py.rstrip_by q s) = true.
Proof.
  induction s as [|c s IH]; [done|]. simpl.
  intros [Hc Hs]%andb_true_iff. specialize (IH Hs).
  destruct (Py.rstrip_by q s).
  - destruct (q c); simpl; [done|]. by rewrite Hc.
  - simpl in *. by rewrite Hc, IH.
Qed.

Lemma all_chars_strip p s :
  Py.all_chars p s = true -> Py.all_chars p (Py.strip s) = true.
Proof. intros. by apply all_chars_rstrip, all_chars_lstrip. Qed.

Lemma all_chars_split p s :
  Py.all_chars p s = true -> Forall (fun w => Py.all_chars p w = true) (Py.split s).
Proof.
  induction s as [|c s IH]; simpl; [constructor|].
  intros [Hc Hs]%andb_true_iff. specialize (IH Hs).
  destruct (Py.isspace c); [done|]. unfold Py.push_char.
  destruct (Py.head_in_word s), (Py.split s) as [|w ws];
    try (constructor; [by simpl; rewrite Hc|done]).
  inversion IH; subst. constructor; [|done]. simpl. by rewrite Hc.
Qed.

Lemma all_chars_join p ws :
  p " "%char = true ->
  Forall (fun w => Py.all_chars p w = true) ws ->
  Py.all_chars p (Py.join " " ws) = true.
Proof.
  intros Hsp. induction 1 as [|w ws Hw Hws IH]; [done|].
  destruct ws as [|w' ws]; [done|].
  rewrite join_cons2, all_chars_app, Hw.
  change (Py.all_chars p (String " " ?x)) with (p " "%char && Py.all_chars p x).
  by rewrite Hsp, IH.
Qed.

Lemma isascii_lower s : Py.isascii (Py.lower s) = Py.isascii s.
Proof.
  unfold Py.isascii. induction s; simpl; [done|].
  by rewrite isascii_lower_char, IHs.
Qed.

Lemma truthy_false s : Py.truthy s = false -> s = "".
Proof. by destruct s. Qed.

Section Normalize.
Variable nfkd_ext : string -> string.

Lemma nfkd_ascii s : Py.isascii s = true -> nfkd nfkd_ext s = s.
Proof. unfold nfkd. by intros ->. Qed.

Lemma normalize_text_ascii x :
  Py.isascii x = true ->
  normalize_text nfkd_ext x = Py.join " " (map Py.lower (Py.split x)).
Proof.
  intros Hx. unfold normalize_text.
  destruct (Py.truthy x) eqn:Ht; simpl.
  - rewrite nfkd_ascii by by apply all_chars_strip.
    by rewrite split_strip, lower_join.
  - by rewrite (truthy_false _ Ht).
Qed.

Lemma isascii_normalized x :
  Py.isascii x = true ->
  Py.isascii (Py.join " " (map Py.lower (Py.split x))) = true.
Proof.
  intros Hx. apply all_chars_join; [done|].
  apply Forall_map. eapply Forall_impl; [by apply all_chars_split|].
  intros w Hw. change (Py.isascii (Py.lower w) = true). by rewrite isascii_lower.
Qed.

Lemma normalize_text_idem x :
  Py.isascii x = true ->
  normalize_text nfkd_ext (normalize_text nfkd_ext x) = normalize_text nfkd_ext x.
Proof.
  intros Hx. rewrite (normalize_text_ascii x Hx).
  rewrite normalize_text_ascii by by apply isascii_normalized.
  rewrite split_join.
  - f_equal. rewrite <- list_fmap_compose. apply list_fmap_ext.
    intros _ w _. simpl. apply lower_idem.
  - apply Forall_map. eapply Forall_impl; [apply split_words|].
    intros w Hw. simpl. by rewrite word_lower.
Qed.
End Normalize.

(** ** Fuzzy matching *)

Lemma key_words_empty_string : key_words "" = ∅.
Proof. reflexivity. Qed.

Lemma fuzzy_match_overlap field1 field2 thr :
  (0 < thr)%Q ->
  fuzzy_match field1 field2 thr = Val (Qle_bool thr (token_overlap field1 field2)).
Proof.
  intros Hthr. unfold fuzzy_match, token_overlap. fold (key_words field1) (key_words field2).
  assert (Hzero : Qle_bool thr 0 = false).
  { apply not_true_is_false. rewrite Qle_bool_iff. by apply Qlt_not_le. }
  destruct (Py.truthy field1) eqn:H1; simpl.
  2:{ apply truthy_false in H1 as ->. rewrite key_words_empty_string.
      rewrite bool_decide_eq_true_2 by by left. by rewrite Hzero. }
  destruct (Py.truthy field2) eqn:H2; simpl.
  2:{ apply truthy_false in H2 as ->. rewrite key_words_empty_string.
      rewrite bool_decide_eq_true_2 by by right. by rewrite Hzero. }
  destruct (decide (key_words field1 = ∅)) as [E1|E1].
  { rewrite (bool_decide_eq_true_2 _ E1). simpl.
    rewrite bool_decide_eq_true_2 by by left. by rewrite Hzero. }
  rewrite (bool_decide_eq_false_2 _ E1). simpl.
  destruct (decide (key_words field2 = ∅)) as [E2|E2].
  { rewrite (bool_decide_eq_true_2 _ E2). simpl.
    rewrite bool_decide_eq_true_2 by by right. by rewrite Hzero. }
  rewrite (bool_decide_eq_false_2 _ E2). simpl.
  rewrite (bool_decide_eq_false_2 (_ \/ _)) by tauto.
  assert (Hu : key_words field1 ∪ key_words field2 ≠ ∅) by set_solver.
  rewrite (bool_decide_eq_false_2 _ Hu).
  unfold Py.truediv.
  assert (Hs : size (key_words field1 ∪ key_words field2) ≠ 0).
  { rewrite size_non_empty_iff. by intros ?%leibniz_equiv. }
  destruct (Z.eqb_spec (Z.of_nat (size (key_words field1 ∪ key_words field2))) 0) as [E|E];
    [lia|]. reflexivity.
Qed.

(** ** Date formats *)

Lemma matches_compiled pattern r value :
  Re.compile pattern = Val r -> Re.matches pattern value = Val (Re.accepts r value).
Proof. unfold Re.matches. by intros ->. Qed.

Lemma date_formats_compile :
  Forall (fun pattern => exists r, Re.compile pattern = Val r) date_formats.
Proof. repeat constructor; eexists; reflexivity. Qed.

Lemma first_format_cases patterns value :
  Forall (fun pattern => exists r, Re.compile pattern = Val r) patterns ->
  forall i0,
  (exists k pattern,
     patterns !! k = Some pattern /\
     Re.matches pattern value = Val true /\
     (forall j q, j < k -> patterns !! j = Some q -> Re.matches q value = Val false) /\
     first_format i0 patterns value = Val (format_name (i0 + k) pattern)) \/
  ((forall j q, patterns !! j = Some q -> Re.matches q value = Val false) /\
   first_format i0 patterns value = Val "unknown_format").
Proof.
  induction 1 as [|pattern rest [r Hr] Hrest IH]; intros i0.
  { right. split; [|done]. intros j q Hj. by rewrite lookup_nil in Hj. }
  simpl. rewrite (matches_compiled _ _ value Hr).
  destruct (Re.accepts r value) eqn:Hacc; simpl.
  - left. exists 0, pattern. rewrite Nat.add_0_r.
    split; [done|]. split; [by rewrite (matches_compiled _ _ value Hr), Hacc|].
    split; [lia|done].
  - assert (Hhead : Re.matches pattern value = Val false).
    { by rewrite (matches_compiled _ _ value Hr), Hacc. }
    destruct (IH (S i0)) as [(k & q & Hk & Hm & Hbefore & Hres)|[Hnone Hres]].
    + left. exists (S k), q. split; [done|]. split; [done|]. split.
      * intros [|j] q' Hj Hq'; simpl in Hq'; [by injection Hq' as <-|].
        apply (Hbefore j); [lia|done].
      * rewrite Hres. f_equal. f_equal. lia.
    + right. split; [|done].
      intros [|j] q' Hq'; simpl in Hq'; [by injection Hq' as <-|]. by apply (Hnone j).
Qed.

Lemma truthy_strip value : Py.truthy (Py.strip value) = true -> Py.truthy value = true.
Proof. by destruct value. Qed.

Lemma truthy_true s : Py.truthy s = true <-> s <> "".
Proof. destruct s; unfold Py.truthy; simpl; split; congruence. Qed.

Lemma detect_blank value :
  Py.strip value = "" -> detect_date_format value = Val None.
Proof.
  intros H. unfold detect_date_format. destruct (Py.truthy value); [|done].
  simpl. by rewrite H.
Qed.

Lemma detect_nonblank value :
  Py.strip value <> "" ->
  detect_date_format value = Some <$> first_format 0 date_formats (Py.strip value).
Proof.
  intros H%truthy_true. unfold detect_date_format.
  by rewrite (truthy_strip _ H), H.
Qed.

(** ** Field mapping on the example of the specification *)

Lemma example_mapping nfkd_ext all_fields :
  all_fields ≡ₚ example_headers ->
  create_field_mapping_of nfkd_ext example_registry all_fields =
    Val [("pt_cause_no", ["pt cause no"])].
Proof.
  intros Hp. symmetry in Hp. apply permutations_Permutation in Hp.
  vm_compute in Hp.
  repeat (apply elem_of_cons in Hp as [->|Hp]; [vm_compute; reflexivity|]).
  by apply elem_of_nil in Hp.
Qed.

(** ** Matching and splitting *)

Lemma rep_true p k lo hi s :
  Re.rep p k lo hi s = true ->
  exists pre rest,
    s = pre +:+ rest /\ lo <= String.length pre /\
    (forall h, hi = Some h -> String.length pre <= h) /\
    Py.all_chars p pre = true /\ k rest = true.
Proof.
  revert lo hi. induction s as [|c s IH]; intros lo hi; simpl.
  - rewrite orb_false_r. intros [Hlo Hk]%andb_true_iff.
    apply bool_decide_eq_true in Hlo as ->.
    exists "", "". repeat split; simpl; try done; intros; lia.
  - intros [[Hlo Hk]%andb_true_iff|[[Hc Hhi]%andb_true_iff Hrep]%andb_true_iff]%orb_true_iff.
    + apply bool_decide_eq_true in Hlo as ->.
      exists "", (String c s). repeat split; simpl; try done; intros; lia.
    + apply negb_true_iff, bool_decide_eq_false in Hhi.
      destruct (IH _ _ Hrep) as (pre & rest & -> & Hl & Hh & Hall & Hrest).
      exists (String c pre), rest. repeat split; simpl; try done.
      * lia.
      * intros h ->. destruct h as [|h]; [done|].
        specialize (Hh h eq_refl). lia.
      * by rewrite Hc, Hall.
Qed.

Lemma all_chars_impl (p q : ascii -> bool) s :
  (forall c, p c = true -> q c = true) ->
  Py.all_chars p s = true -> Py.all_chars q s = true.
Proof.
  intros Hpq. induction s as [|c s IH]; simpl; [done|].
  intros [Hc Hs]%andb_true_iff. by rewrite (Hpq c Hc), IH.
Qed.

Lemma split_on_nonempty sep s : exists p more, Py.split_on sep s = p :: more.
Proof.
  destruct s as [|c s]; simpl; [by eexists _, _|].
  destruct (Ascii.eqb c sep); [by eexists _, _|].
  destruct (Py.split_on sep s); by eexists _, _.
Qed.

Lemma split_on_app sep w t p more :
  Py.all_chars (fun c => negb (Ascii.eqb c sep)) w = true ->
  Py.split_on sep t = p :: more ->
  Py.split_on sep (w +:+ t) = (w +:+ p) :: more.
Proof.
  intros Hw Ht. induction w as [|c w IH]; [done|].
  simpl in Hw. apply andb_true_iff in Hw as [Hc Hw]. apply negb_true_iff in Hc.
  rewrite sapp_cons. simpl. rewrite Hc, (IH Hw). by rewrite sapp_cons.
Qed.

Lemma split_on_sep sep t :
  Py.split_on sep (String sep t) = "" :: Py.split_on sep t.
Proof. simpl. by rewrite Ascii.eqb_refl. Qed.

Lemma digit_not_dash c : Py.isdigit c = true -> negb (Ascii.eqb c "-") = true.
Proof. destruct c as [[] [] [] [] [] [] [] []]; try discriminate; reflexivity. Qed.

Lemma all_dash_length_1 s :
  Py.all_chars (fun c => Ascii.eqb c "-") s = true -> String.length s = 1 -> s = "-".
Proof.
  destruct s as [|c [|c' s]]; simpl; try done.
  rewrite andb_true_r. by intros ->%Ascii.eqb_eq.
Qed.

(** A value of the ISO shape has at least three dash-separated parts,
    and the first two are runs of four and of two digits. *)
Lemma iso_shape_parts s :
  Re.matches "\d{4}-\d{2}-\d{2}" s = Val true ->
  exists g1 g2 g3 rest,
    Py.split_on "-" s = g1 :: g2 :: g3 :: rest /\
    Py.all_chars Py.isdigit g1 = true /\ String.length g1 = 4 /\
    Py.all_chars Py.isdigit g2 = true /\ String.length g2 = 2.
Proof.
  unfold Re.matches. simpl. intros [= H].
  apply rep_true in H as (y & s1 & -> & Hy4 & Hy4' & Hy & H).
  apply rep_true in H as (d1 & s2 & -> & Hd1 & Hd1' & Hd1c & H).
  apply rep_true in H as (m & s3 & -> & Hm2 & Hm2' & Hm & H).
  apply rep_true in H as (d2 & s4 & -> & Hd2 & Hd2' & Hd2c & H).
  apply rep_true in H as (d & s5 & -> & _ & _ & Hd & _).
  specialize (Hd1' 1 eq_refl). specialize (Hd2' 1 eq_refl).
  apply all_dash_length_1 in Hd1c as ->; [|simpl in *; lia].
  apply all_dash_length_1 in Hd2c as ->; [|simpl in *; lia].
  destruct (split_on_nonempty "-" s5) as (p & more & Hs5).
  assert (Hnd : forall w, Py.all_chars Py.isdigit w = true ->
                Py.all_chars (fun c => negb (Ascii.eqb c "-")) w = true).
  { intros w. apply all_chars_impl, digit_not_dash. }
  specialize (Hy4' 4 eq_refl). specialize (Hm2' 2 eq_refl).
  exists y, m, (d +:+ p), more.
  split; [|repeat split; first [done | lia]].
  pose proof (split_on_app "-" d s5 p more (Hnd d Hd) Hs5) as H4.
  pose proof (split_on_sep "-" (d +:+ s5)) as H3. rewrite H4 in H3.
  pose proof (split_on_app "-" m _ _ _ (Hnd m Hm) H3) as H2.
  pose proof (split_on_sep "-" (m +:+ String "-" (d +:+ s5))) as H1. rewrite H2 in H1.
  pose proof (split_on_app "-" y _ _ _ (Hnd y Hy) H1) as H0.
  rewrite !app_empty_r in H0. exact H0.
Qed.

Lemma int_cases s : (exists n, Py.int s = Val n) \/ Py.int s = Exc ValueError.
Proof. unfold Py.int. destruct (match _ with "" => _ | _ => _ end); eauto. Qed.

Lemma digits_total w :
  Py.all_chars Py.isdigit w = true ->
  forall acc b, w <> "" \/ b = true -> exists n, Py.digits acc b w = Some n.
Proof.
  induction w as [|c w IH]; intros Hw acc b Hb; simpl.
  - destruct Hb as [?|Hb]; [done|]. rewrite Hb. by eexists.
  - simpl in Hw. apply andb_true_iff in Hw as [Hc Hw]. rewrite Hc.
    apply IH; auto.
Qed.

Lemma rstrip_by_none p w :
  Py.all_chars (fun c => negb (p c)) w = true -> Py.rstrip_by p w = w.
Proof.
  induction w as [|c w IH]; [done|]. simpl.
  intros [Hc Hw]%andb_true_iff. rewrite (IH Hw).
  apply negb_true_iff in Hc. rewrite Hc. by destruct w.
Qed.

Lemma digit_facts c :
  Py.isdigit c = true ->
  Py.c_isspace c = false /\ c <> "+"%char /\ c <> "-"%char.
Proof. destruct c as [[] [] [] [] [] [] [] []]; try discriminate; by repeat split. Qed.

(** A non-empty run of digits is an integer literal. *)
Lemma int_of_digits w :
  Py.all_chars Py.isdigit w = true -> w <> "" -> exists n, Py.int w = Val n.
Proof.
  intros Hw Hne. destruct (digits_total w Hw 0%Z false) as [n Hn]; [by left|].
  exists n. unfold Py.int.
  destruct w as [|c w]; [done|].
  pose proof Hw as Hw'. simpl in Hw'. apply andb_true_iff in Hw' as [Hc _].
  destruct (digit_facts c Hc) as (Hsp & Hplus & Hminus).
  assert (Hl : Py.lstrip_by Py.c_isspace (String c w) = String c w).
  { simpl. by rewrite Hsp. }
  rewrite Hl, rstrip_by_none.
  2:{ eapply all_chars_impl; [|exact Hw]. intros d Hd.
      by rewrite (proj1 (digit_facts d Hd)). }
  destruct (Ascii.ascii_dec c "+") as [->|_]; [done|].
  destruct (Ascii.ascii_dec c "-") as [->|_]; [done|].
  assert (Hmatch : match String c w with
                   | String "+" t => Py.digits 0 false t
                   | String "-" t => Z.opp <$> Py.digits 0 false t
                   | t => Py.digits 0 false t
                   end = Py.digits 0 false (String c w)).
  { destruct c as [[] [] [] [] [] [] [] []]; try reflexivity; done. }
  by rewrite Hmatch, Hn.
Qed.

(** ** The date patterns exclude one another *)

Lemma char_cases c : In (atoms c) char_classes.
Proof.
  destruct c as [b0 b1 b2 b3 b4 b5 b6 b7].
  destruct b0, b1, b2, b3, b4, b5, b6, b7; vm_compute; tauto.
Qed.

Lemma acc_nil s : Re.accepts [] s = true.
Proof. by destruct s. Qed.

Lemma acc_end_nil r : Re.accepts (Re.at_end :: r) "" = Re.accepts r "".
Proof. reflexivity. Qed.

Lemma acc_end_cons r c s :
  Re.accepts (Re.at_end :: r) (String c s) =
    Ascii.eqb c newline && is_empty s && Re.accepts r (String c s).
Proof.
  cbn [Re.accepts Re.at_eol]. destruct s; cbn [is_empty].
  - by rewrite andb_true_r.
  - by rewrite andb_false_r.
Qed.

Lemma acc_S_nil cl lo hi r : Re.accepts (Re.at_rep cl (S lo) hi :: r) "" = false.
Proof. reflexivity. Qed.

Lemma acc_0_nil cl hi r : Re.accepts (Re.at_rep cl 0 hi :: r) "" = Re.accepts r "".
Proof. cbn [Re.accepts Re.rep]. by rewrite orb_false_r. Qed.

Lemma acc_0_0 cl r s : Re.accepts (Re.at_rep cl 0 (Some 0) :: r) s = Re.accepts r s.
Proof.
  cbn [Re.accepts]. destruct s; cbn [Re.rep]; simpl.
  - by rewrite orb_false_r.
  - by rewrite andb_false_r, orb_false_r.
Qed.

Lemma acc_S_S cl lo h r c s :
  Re.accepts (Re.at_rep cl (S lo) (Some (S h)) :: r) (String c s) =
    Re.in_class cl c && Re.accepts (Re.at_rep cl lo (Some h) :: r) s.
Proof. cbn [Re.accepts Re.rep]. simpl. by rewrite andb_true_r. Qed.

Lemma acc_S_None cl lo r c s :
  Re.accepts (Re.at_rep cl (S lo) None :: r) (String c s) =
    Re.in_class cl c && Re.accepts (Re.at_rep cl lo None :: r) s.
Proof. cbn [Re.accepts Re.rep]. simpl. by rewrite andb_true_r. Qed.

Lemma acc_0_S cl h r c s :
  Re.accepts (Re.at_rep cl 0 (Some (S h)) :: r) (String c s) =
    Re.accepts r (String c s) ||
    (Re.in_class cl c && Re.accepts (Re.at_rep cl 0 (Some h) :: r) s).
Proof. cbn [Re.accepts Re.rep]. simpl. by rewrite andb_true_r. Qed.

Lemma acc_0_None cl r c s :
  Re.accepts (Re.at_rep cl 0 None :: r) (String c s) =
    Re.accepts r (String c s) ||
    (Re.in_class cl c && Re.accepts (Re.at_rep cl 0 None :: r) s).
Proof. cbn [Re.accepts Re.rep]. simpl. by rewrite andb_true_r. Qed.

Lemma class_digit c : Re.in_class Re.cc_digit c = Py.isdigit c.
Proof. reflexivity. Qed.

Lemma class_space c : Re.in_class Re.cc_space c = Py.isspace c.
Proof. reflexivity. Qed.

Lemma class_word c :
  Re.in_class Re.cc_word c = Py.isalpha c || Py.isdigit c || Ascii.eqb c "_".
Proof. reflexivity. Qed.

Lemma class_char c d : Re.in_class (Re.cc_char d) c = Ascii.eqb c d.
Proof. reflexivity. Qed.

Lemma orb_elim (a b : bool) (G : Prop) :
  (a = true -> G) -> (b = true -> G) -> a || b = true -> G.
Proof. destruct a; simpl; auto. Qed.

Lemma andb_elim (a b : bool) (G : Prop) :
  (a = true -> b = true -> G) -> a && b = true -> G.
Proof. destruct a, b; simpl; auto; discriminate. Qed.

Ltac derive :=
  repeat progress
    rewrite ?acc_nil, ?acc_end_nil, ?acc_end_cons, ?acc_S_nil, ?acc_0_nil, ?acc_0_0,
      ?acc_S_S, ?acc_S_None, ?acc_0_S, ?acc_0_None,
      ?class_digit, ?class_space, ?class_word, ?class_char.

Ltac char_case c :=
  let Hc := fresh "Hc" in
  pose proof (char_cases c) as Hc; unfold atoms, char_classes in Hc; cbn [In] in Hc;
  repeat (destruct Hc as [Hc|Hc]); [..|destruct Hc];
  let E1 := fresh in let E2 := fresh in let E3 := fresh in let E4 := fresh in
  let E5 := fresh in let E6 := fresh in let E7 := fresh in let E8 := fresh in
  let E9 := fresh in
  injection Hc as E1 E2 E3 E4 E5 E6 E7 E8 E9;
  symmetry in E1, E2, E3, E4, E5, E6, E7, E8, E9;
  change (ascii_of_nat 10) with newline;
  rewrite ?E1, ?E2, ?E3, ?E4, ?E5, ?E6, ?E7, ?E8, ?E9;
  clear E1 E2 E3 E4 E5 E6 E7 E8 E9;
  cbn [andb orb negb is_empty].

Ltac next_char :=
  lazymatch goal with
  | H : Re.accepts _ ?s = true |- _ =>
      is_var s;
      repeat match goal with H' : context [s] |- _ => revert H' end;
      let c := fresh "c" in
      destruct s as [|c s]; derive; cbn [andb orb negb is_empty];
      [|char_case c]
  | H : is_empty ?s = true |- _ =>
      is_var s;
      repeat match goal with H' : context [s] |- _ => revert H' end;
      let c := fresh "c" in
      destruct s as [|c s]; derive; cbn [andb orb negb is_empty]
  end.

Ltac go_with close :=
  lazymatch goal with
  | |- false = true -> _ => let H := fresh in intro H; discriminate H
  | |- true = true -> _ => intros _; go_with close
  | |- (_ || _) = true -> _ =>
      let H := fresh in
      intro H; apply orb_prop in H; destruct H as [H|H]; revert H; go_with close
  | |- (_ && _) = true -> _ =>
      let H := fresh in let H' := fresh in
      intro H; apply andb_prop in H; destruct H as [H H']; revert H H'; go_with close
  | |- _ = true -> _ => let H := fresh "R" in intro H; go_with close
  | |- _ -> _ => let H := fresh "K" in intro H; go_with close
  | |- False => first [ close | next_char; go_with close ]
  end.

Ltac by_hypothesis :=
  idtac;
  match goal with
  | IH : Re.accepts ?a ?s = true -> Re.accepts ?b ?s = true -> False,
    H1 : Re.accepts ?a ?s = true, H2 : Re.accepts ?b ?s = true |- _ =>
      exact (IH H1 H2)
  end.

(** White space before a word of three characters and white space before
    a day number cannot both be matched. *)
Lemma space_then_word_or_day s :
  Re.accepts
    [Re.at_rep Re.cc_space 0 None; Re.at_rep Re.cc_word 3 (Some 3);
     Re.at_rep Re.cc_space 1 None; Re.at_rep Re.cc_digit 1 (Some 2);
     Re.at_rep Re.cc_space 1 None; Re.at_rep Re.cc_digit 4 (Some 4)] s = true ->
  Re.accepts
    [Re.at_rep Re.cc_space 0 None; Re.at_rep Re.cc_digit 1 (Some 2);
     Re.at_rep (Re.cc_char ",") 0 (Some 1); Re.at_rep Re.cc_space 1 None;
     Re.at_rep Re.cc_digit 4 (Some 4)] s = true ->
  False.
Proof.
  induction s as [|c s IH]; derive; cbn [andb orb negb is_empty];
    [go_with by_hypothesis|].
  char_case c; go_with by_hypothesis.
Qed.

Ltac by_space_loop :=
  idtac;
  match goal with
  | H1 : Re.accepts (Re.at_rep Re.cc_space 0 None ::
                       Re.at_rep Re.cc_word 3 (Some 3) :: _) ?s = true,
    H2 : Re.accepts (Re.at_rep Re.cc_space 0 None ::
                       Re.at_rep Re.cc_digit 1 (Some 2) :: _) ?s = true |- _ =>
      exact (space_then_word_or_day s H1 H2)
  end.

Lemma matches_accepts pattern r s :
  Re.compile pattern = Val r -> Re.matches pattern s = Val true -> Re.accepts r s = true.
Proof. intros Hr. rewrite (matches_compiled _ _ _ Hr). by intros [= ->]. Qed.

Ltac compiled_in H :=
  match type of H with
  | Re.matches ?pattern ?s = Val true =>
      let c := eval vm_compute in (Re.compile pattern) in
      match c with
      | Val ?r => apply (matches_accepts pattern r s eq_refl) in H
      end
  end.

Lemma formats_apart (s : string) :
  forall i j p q,
  i < j ->
  date_formats !! i = Some p -> date_formats !! j = Some q ->
  Re.matches p s = Val true -> Re.matches q s = Val true -> False.
Proof.
  intros i j p q Hlt Hi Hj Hp Hq.
  destruct i as [|[|[|[|[|[|[|[|[|[|i]]]]]]]]]]; try discriminate Hi;
    injection Hi as <-;
    (destruct j as [|[|[|[|[|[|[|[|[|[|j]]]]]]]]]]; try discriminate Hj; try lia);
    injection Hj as <-;
    compiled_in Hp; compiled_in Hq; revert Hp Hq;
    go_with by_space_loop.
Qed.

Lemma format_names_differ i j p q :
  date_formats !! i = Some p -> date_formats !! j = Some q ->
  format_name i p = format_name j q -> i = j.
Proof.
  intros Hi Hj Heq.
  assert (Hnd : NoDup (imap format_name date_formats)).
  { apply (bool_decide_unpack (NoDup _)). by vm_compute. }
  apply (NoDup_lookup _ i j (format_name i p) Hnd).
  - by rewrite list_lookup_imap, Hi.
  - by rewrite list_lookup_imap, Hj, Heq.
Qed.

(** A value of ISO shape is named by pattern 3, whatever its numbers. *)
Lemma iso_shape_named value :
  Py.strip value <> "" ->
  Re.matches "\d{4}-\d{2}-\d{2}" (Py.strip value) = Val true ->
  detect_date_format value = Val (Some (format_name 3 "^\d{4}-\d{2}-\d{2}")).
Proof.
  intros Hne Hiso.
  assert (Hiso3 : Re.matches "^\d{4}-\d{2}-\d{2}" (Py.strip value) = Val true).
  { rewrite (matches_compiled "\d{4}-\d{2}-\d{2}" _ _ eq_refl) in Hiso.
    by rewrite (matches_compiled "^\d{4}-\d{2}-\d{2}" _ _ eq_refl). }
  rewrite (detect_nonblank value Hne).
  destruct (first_format_cases date_formats (Py.strip value) date_formats_compile 0)
    as [(k & pattern & Hk & Hm & _ & ->)|[Hnone _]].
  - change (0 + k) with k.
    destruct (Nat.lt_trichotomy k 3) as [Hlt|[->|Hgt]].
    + destruct (formats_apart (Py.strip value) k 3 pattern _ Hlt Hk eq_refl Hm Hiso3).
    + by injection Hk as <-.
    + destruct (formats_apart (Py.strip value) 3 k _ pattern Hgt eq_refl Hk Hiso3 Hm).
  - by rewrite (Hnone 3 _ eq_refl) in Hiso3.
Qed.

(** ** Dictionaries *)

Lemma string_eqb_decide (a b : string) : String.eqb a b = bool_decide (a = b).
Proof.
  destruct (String.eqb_spec a b) as [->|Hne].
  - by rewrite bool_decide_eq_true_2.
  - by rewrite bool_decide_eq_false_2.
Qed.

Lemma dict_get_set_eq {V} (d : odict V) k v : dict_get (dict_set d k v) k = Some v.
Proof.
  induction d as [|[k' v'] d IH]; simpl.
  - by rewrite String.eqb_refl.
  - destruct (String.eqb_spec k' k) as [->|Hne]; simpl.
    + by rewrite String.eqb_refl.
    + by destruct (String.eqb_spec k' k).
Qed.

Lemma dict_get_set_ne {V} (d : odict V) k k' v :
  k <> k' -> dict_get (dict_set d k v) k' = dict_get d k'.
Proof.
  intros Hne. induction d as [|[k0 v0] d IH]; simpl.
  - by destruct (String.eqb_spec k k').
  - destruct (String.eqb_spec k0 k) as [->|Hne0]; simpl.
    + by destruct (String.eqb_spec k k').
    + by rewrite IH.
Qed.

Lemma dict_set_Forall {V} (P : string * V -> Prop) (d : odict V) k v :
  Forall P d -> P (k, v) -> Forall P (dict_set d k v).
Proof.
  intros Hd Hkv. induction Hd as [|[k' v'] d Hx Hd IH]; simpl.
  - by constructor.
  - destruct (String.eqb k' k); by constructor.
Qed.

(** The key of a dictionary that does not hold it is appended. *)
Lemma dict_set_fresh {V} (d : odict V) k v :
  k ∉ d.*1 -> dict_set d k v = d ++ [(k, v)].
Proof.
  induction d as [|[k' v'] d IH]; simpl; [done|].
  intros [Hne Hd]%not_elem_of_cons.
  destruct (String.eqb_spec k' k); [congruence|]. by rewrite IH.
Qed.

Lemma dict_set_keys {V} (d : odict V) k v k' :
  k' ∈ (dict_set d k v).*1 <-> k' = k \/ k' ∈ d.*1.
Proof.
  induction d as [|[k0 v0] d IH]; simpl.
  - rewrite list_elem_of_singleton, elem_of_nil. tauto.
  - destruct (String.eqb_spec k0 k) as [->|Hne]; simpl;
      rewrite !elem_of_cons; [tauto|]. rewrite IH. tauto.
Qed.

(** Setting a key other than [b] commutes with taking the entry of [b]
    out of the middle of the dictionary. *)
Lemma dict_set_around {V} (l1 l2 : odict V) b vb k v :
  k <> b ->
  exists l1' l2',
    dict_set (l1 ++ (b, vb) :: l2) k v = l1' ++ (b, vb) :: l2' /\
    dict_set (l1 ++ l2) k v = l1' ++ l2' /\
    (b ∉ l1.*1 -> b ∉ l1'.*1) /\ (b ∉ l2.*1 -> b ∉ l2'.*1).
Proof.
  intros Hne. induction l1 as [|[k1 v1] l1 IH]; simpl.
  - destruct (String.eqb_spec b k) as [->|_]; [done|].
    exists [], (dict_set l2 k v). repeat split; [done|].
    rewrite dict_set_keys. intros ? [?|?]; congruence.
  - destruct (String.eqb_spec k1 k) as [->|Hne1].
    + exists ((k, v) :: l1), l2. repeat split; [|done].
      simpl. rewrite !not_elem_of_cons. tauto.
    + destruct IH as (l1' & l2' & -> & -> & H1 & H2).
      exists ((k1, v1) :: l1'), l2'. repeat split; [|done].
      simpl. rewrite !not_elem_of_cons. intros [? ?]. auto.
Qed.

(** ** Loops that do not raise *)

Lemma res_fold_val {A B} (body : B -> A -> res B) (f : B -> A -> B) l :
  (forall acc x, x ∈ l -> body acc x = Val (f acc x)) ->
  forall acc, res_fold body acc l = Val (foldl f acc l).
Proof.
  induction l as [|x l IH]; intros Hb acc; simpl; [done|].
  rewrite Hb by by left. simpl. apply IH. intros acc' y Hy. apply Hb. by right.
Qed.

(** ** Completeness across files *)

Lemma quality_of_field_val name info by_field item :
  quality_of_field name info by_field item = Val (quality_step name info by_field item).
Proof.
  destruct item as [field c]. unfold quality_of_field, quality_step, Py.truediv.
  destruct (Nat.ltb_spec 0 (non_empty_rows info)) as [Hpos|Hz]; [|done].
  destruct (Z.eqb_spec (Z.of_nat (non_empty_rows info)) 0); [lia|]. reflexivity.
Qed.

Lemma analyze_data_quality_val a :
  analyze_data_quality a =
  Val (foldl (fun by_field entry =>
                foldl (quality_step entry.1 entry.2) by_field (field_completion entry.2))
         ∅ (file_structures a)).
Proof.
  unfold analyze_data_quality. apply res_fold_val.
  intros by_field [name info] _. simpl. apply res_fold_val.
  intros ? ? _. apply quality_of_field_val.
Qed.

Lemma quality_items name info field items :
  forall by_field,
  default [] (foldl (quality_step name info) by_field items !! field) =
  default [] (by_field !! field) ++
  flat_map (fun item : string * nat =>
              if (0 <? non_empty_rows info)%nat && String.eqb item.1 field
              then [completeness_of name item.2 (non_empty_rows info)] else [])
    items.
Proof.
  induction items as [|[f c] items IH]; intros by_field; simpl.
  { by rewrite app_nil_r. }
  rewrite IH. unfold quality_step. simpl.
  destruct (0 <? non_empty_rows info)%nat; simpl; [|done].
  destruct (String.eqb_spec f field) as [->|Hne].
  - rewrite lookup_insert_eq. simpl. by rewrite <- app_assoc.
  - by rewrite lookup_insert_ne.
Qed.

Lemma quality_files files field :
  forall by_field,
  default []
    (foldl (fun by_field (entry : string * file_info) =>
              foldl (quality_step entry.1 entry.2) by_field (field_completion entry.2))
       by_field files !! field) =
  default [] (by_field !! field) ++ completeness_entries files field.
Proof.
  induction files as [|[name info] files IH]; intros by_field; simpl.
  { by rewrite app_nil_r. }
  rewrite IH, quality_items. by rewrite <- app_assoc.
Qed.

Lemma analyze_data_quality_entries a :
  exists by_field,
    analyze_data_quality a = Val by_field /\
    forall field,
      default [] (by_field !! field) = completeness_entries (file_structures a) field.
Proof.
  eexists. split; [apply analyze_data_quality_val|].
  intros field. by rewrite quality_files, lookup_empty.
Qed.

(** ** One file *)

Lemma index_of_elem label labels :
  label ∈ labels -> exists i, index_of label labels = Some i.
Proof.
  induction labels as [|l labels IH]; [by intros ?%elem_of_nil|].
  intros Hin. simpl. destruct (String.eqb_spec l label) as [->|Hne]; [by eexists|].
  apply elem_of_cons in Hin as [->|Hin]; [done|].
  destruct (IH Hin) as [i ->]. by eexists.
Qed.

Lemma index_of_lookup label labels i :
  index_of label labels = Some i -> labels !! i = Some label.
Proof.
  revert i. induction labels as [|l labels IH]; intros i; simpl; [done|].
  destruct (String.eqb_spec l label) as [->|Hne]; [by intros [= <-]|].
  destruct (index_of label labels) as [k|]; [|done].
  intros [= <-]. by apply IH.
Qed.

Lemma index_of_app_fresh label pre post :
  label ∉ pre -> index_of label (pre ++ label :: post) = Some (length pre).
Proof.
  induction pre as [|l pre IH]; intros Hpre; simpl.
  - by rewrite String.eqb_refl.
  - apply not_elem_of_cons in Hpre as [Hne Hpre].
    rewrite string_eqb_decide, bool_decide_eq_false_2 by done.
    by rewrite IH.
Qed.

Lemma length_filter_map {A B} (p : B -> bool) (f : A -> B) l :
  length (List.filter p (map f l)) = length (List.filter (fun x => p (f x)) l).
Proof.
  induction l as [|x l IH]; simpl; [done|]. destruct (p (f x)); simpl; by rewrite IH.
Qed.

Lemma length_filter_le {A} (p q : A -> bool) l :
  (forall x, p x = true -> q x = true) ->
  length (List.filter p l) <= length (List.filter q l).
Proof.
  intros Hpq. induction l as [|x l IH]; simpl; [done|].
  destruct (p x) eqn:Hp.
  - rewrite (Hpq x Hp). simpl. lia.
  - destruct (q x); simpl; lia.
Qed.

(** A row with a value in some column is not a blank row. *)
Lemma filled_le_non_blank df i : filled_rows df i <= non_blank_rows df.
Proof.
  apply length_filter_le. intros row Hrow.
  destruct (row !! i) as [c|] eqn:Hi; simpl in Hrow; [|done].
  apply existsb_exists. exists c. split; [|done].
  apply list_elem_of_In. by eapply list_elem_of_lookup_2.
Qed.

Section OneFile.

Variable nfkd_ext : string -> string.
Variable read_csv : string -> string -> res DataFrame.
Variable basename : string -> string.

Lemma analyze_header_ok df name st header :
  header ∈ df_columns df ->
  analyze_header nfkd_ext df name st header =
    (header_step nfkd_ext df name st header, None).
Proof.
  intros [i Hi]%index_of_elem. unfold analyze_header, header_step, df_getitem.
  destruct (negb _); [done|]. rewrite Hi.
  unfold dropna. rewrite length_filter_map. reflexivity.
Qed.

Lemma analyze_headers_ok df name hs :
  (forall h, h ∈ hs -> h ∈ df_columns df) ->
  forall st,
  analyze_headers nfkd_ext df name st hs =
    (foldl (header_step nfkd_ext df name) st hs, None).
Proof.
  induction hs as [|h hs IH]; intros Hin st; simpl; [done|].
  rewrite analyze_header_ok by (apply Hin; by left).
  apply IH. intros h' Hh'. apply Hin. by right.
Qed.

Lemma analyze_file_read fv file_path df errs :
  read_any read_csv file_path encodings [] = (Some df, errs) ->
  analyze_file nfkd_ext read_csv basename fv file_path =
    let st := foldl (header_step nfkd_ext df (basename file_path)) ([], fv)
                (df_columns df) in
    (File_info (basename file_path) (df_columns df)
       (map (normalize_text nfkd_ext) (df_columns df))
       (length (df_rows df)) (non_blank_rows df) st.1 errs, st.2).
Proof.
  intros Hread. unfold analyze_file. rewrite Hread.
  rewrite analyze_headers_ok by done.
  by destruct (foldl _ _ _) as [fc fv'].
Qed.

Lemma analyze_file_unread fv file_path errs :
  read_any read_csv file_path encodings [] = (None, errs) ->
  analyze_file nfkd_ext read_csv basename fv file_path =
    (File_info (basename file_path) [] [] 0 0 [] (errs ++ [Could_not_read]), fv).
Proof. intros Hread. unfold analyze_file. by rewrite Hread. Qed.

Lemma read_any_unreadable file_path encs :
  (forall encoding df, encoding ∈ encs -> read_csv file_path encoding <> Val df) ->
  forall errs, exists errs', read_any read_csv file_path encs errs = (None, errs').
Proof.
  induction encs as [|encoding encs IH]; intros Hbad errs; simpl; [by eexists|].
  assert (Hrest : forall e df, e ∈ encs -> read_csv file_path e <> Val df).
  { intros e df He. apply Hbad. by right. }
  destruct (read_csv file_path encoding) as [df|e] eqn:Hr.
  - exfalso. by apply (Hbad encoding df); [left|].
  - destruct e; by apply IH.
Qed.

(** What [field_completion] holds for a normalised header after the
    column loop: the count of the last column that normalises to it. *)
Lemma header_steps_get_none df name nh hs :
  (forall h, h ∈ hs -> normalize_text nfkd_ext h <> nh) ->
  forall st,
  dict_get (foldl (header_step nfkd_ext df name) st hs).1 nh = dict_get st.1 nh.
Proof.
  induction hs as [|h hs IH]; intros Hne st; simpl; [done|].
  rewrite IH by (intros h' Hh'; apply Hne; by right).
  unfold header_step. destruct (negb _); [done|].
  destruct (index_of h (df_columns df)); [|done]. simpl.
  apply dict_get_set_ne. apply Hne. by left.
Qed.

Lemma header_steps_get_last df name pre h post i :
  index_of h (df_columns df) = Some i ->
  normalize_text nfkd_ext h <> "" ->
  (forall h', h' ∈ post -> normalize_text nfkd_ext h' <> normalize_text nfkd_ext h) ->
  forall st,
  dict_get (foldl (header_step nfkd_ext df name) st (pre ++ h :: post)).1
    (normalize_text nfkd_ext h) = Some (filled_rows df i).
Proof.
  intros Hi Hnh Hpost st. rewrite foldl_app. simpl.
  rewrite header_steps_get_none by done.
  unfold header_step at 1. apply truthy_true in Hnh. rewrite Hnh, Hi. simpl.
  apply dict_get_set_eq.
Qed.

Lemma last_with_normal_form nh hs :
  (exists h, h ∈ hs /\ normalize_text nfkd_ext h = nh) ->
  exists pre last post,
    hs = pre ++ last :: post /\ normalize_text nfkd_ext last = nh /\
    forall h', h' ∈ post -> normalize_text nfkd_ext h' <> nh.
Proof.
  induction hs as [|h0 hs IH]; [by intros (h & ?%elem_of_nil & _)|].
  intros (h & Hin & Hh).
  destruct (decide (Exists (fun h' => normalize_text nfkd_ext h' = nh) hs)) as [Hex|Hno].
  - apply Exists_exists in Hex. destruct (IH Hex) as (pre & last & post & -> & Hl & Hp).
    by exists (h0 :: pre), last, post.
  - rewrite Exists_exists in Hno.
    apply elem_of_cons in Hin as [->|Hin]; [|exfalso; eauto].
    exists [], h0, hs. repeat split; [done|]. intros h' Hh' Heq. eauto.
Qed.

Lemma header_steps_bounded df name hs :
  forall st,
  Forall (fun kv : string * nat => kv.2 <= non_blank_rows df) st.1 ->
  Forall (fun kv : string * nat => kv.2 <= non_blank_rows df)
    (foldl (header_step nfkd_ext df name) st hs).1.
Proof.
  induction hs as [|h hs IH]; intros st Hst; simpl; [done|].
  apply IH. unfold header_step. destruct (negb _); [done|].
  destruct (index_of h (df_columns df)); [|done]. simpl.
  apply dict_set_Forall; [done|]. simpl. apply filled_le_non_blank.
Qed.

End OneFile.

(** ** Percentages *)

Lemma percent_bounds (filled total : nat) :
  filled <= total -> 0 < total ->
  (0 <= inject_Z (Z.of_nat filled) / inject_Z (Z.of_nat total) * 100 /\
   inject_Z (Z.of_nat filled) / inject_Z (Z.of_nat total) * 100 <= 100)%Q.
Proof.
  intros Hle Hpos. destruct total as [|t]; [lia|].
  unfold Qle, Qdiv, Qmult, Qinv, inject_Z. simpl. lia.
Qed.

Lemma completeness_entries_inv files field e :
  e ∈ completeness_entries files field ->
  exists name info filled,
    (name, info) ∈ files /\ (field, filled) ∈ field_completion info /\
    0 < non_empty_rows info /\
    e = completeness_of name filled (non_empty_rows info).
Proof.
  unfold completeness_entries.
  intros ([name info] & Hfile & He)%list_elem_of_In%in_flat_map.
  apply in_flat_map in He as ([f filled] & Hitem & He). simpl in *.
  destruct (Nat.ltb_spec 0 (non_empty_rows info)) as [Hpos|]; [|done].
  destruct (String.eqb_spec f field) as [->|]; [|done].
  destruct He as [<-|[]].
  exists name, info, filled. by rewrite <- !list_elem_of_In in *.
Qed.

Lemma completeness_entries_bounded files field e :
  Forall (fun entry : string * file_info => info_bounded entry.2) files ->
  e ∈ completeness_entries files field ->
  c_filled_records e <= c_total_records e /\
  (0 <= c_completeness e /\ c_completeness e <= 100)%Q.
Proof.
  intros Hfiles (name & info & filled & Hfile & Hitem & Hpos & ->)%completeness_entries_inv.
  rewrite Forall_forall in Hfiles. specialize (Hfiles _ Hfile) as [Hz|Hb]; simpl in *; [lia|].
  rewrite Forall_forall in Hb. specialize (Hb _ Hitem). simpl in Hb.
  split; [done|]. by apply percent_bounds.
Qed.

(** ** A batch of files *)

Section Batch.

Variable nfkd_ext : string -> string.
Variable read_csv : string -> string -> res DataFrame.
Variable path_join : string -> string -> string.
Variable basename : string -> string.

Local Abbreviation file_of := (analyze_file nfkd_ext read_csv basename).
Local Abbreviation one := (analyze_one nfkd_ext read_csv path_join basename).
Local Abbreviation all := (analyze_all nfkd_ext read_csv path_join basename).

Lemma analyze_file_bounded fv file_path : info_bounded (file_of fv file_path).1.
Proof.
  destruct (read_any read_csv file_path encodings []) as [[df|] errs] eqn:Hread.
  - rewrite (analyze_file_read _ _ _ _ _ _ _ Hread). simpl. right.
    by apply header_steps_bounded.
  - rewrite (analyze_file_unread _ _ _ _ _ _ Hread). by right.
Qed.

Lemma analyze_one_structures dir a name :
  file_structures (one dir a name) =
  dict_set (file_structures a) name (file_of (field_variations a) (path_join dir name)).1.
Proof. unfold analyze_one. by destruct (file_of _ _). Qed.

Lemma analyze_all_bounded dir files :
  forall a,
  Forall (fun entry : string * file_info => info_bounded entry.2) (file_structures a) ->
  Forall (fun entry : string * file_info => info_bounded entry.2)
    (file_structures (all dir a files)).
Proof.
  induction files as [|name files IH]; intros a Ha; simpl; [done|].
  apply IH. rewrite analyze_one_structures.
  apply dict_set_Forall; [done|]. apply analyze_file_bounded.
Qed.

Lemma analyze_all_keys dir files :
  forall a name,
  name ∈ (file_structures (all dir a files)).*1 ->
  name ∈ (file_structures a).*1 \/ name ∈ files.
Proof.
  induction files as [|f files IH]; intros a name; simpl; [by left|].
  intros [Hin|Hin]%IH; [|right; by right].
  rewrite analyze_one_structures, dict_set_keys in Hin.
  destruct Hin as [->|Hin]; [right; by left|by left].
Qed.

Lemma analyze_one_printed dir a name :
  exists line, printed (one dir a name) = printed a ++ [line] /\ log_name line = name.
Proof.
  unfold analyze_one. destruct (file_of _ _) as [info fv]. simpl.
  eexists. split; [done|]. by destruct (errors info).
Qed.

Lemma analyze_all_printed (P : log_line -> Prop) dir files :
  (forall line, log_name line ∈ files -> P line) ->
  forall a, Forall P (printed a) -> Forall P (printed (all dir a files)).
Proof.
  induction files as [|f files IH]; intros HP a Ha; simpl; [done|].
  apply IH.
  - intros line Hl. apply HP. by right.
  - destruct (analyze_one_printed dir a f) as (line & -> & Hname).
    apply Forall_app. split; [done|]. constructor; [|done].
    apply HP. rewrite Hname. by left.
Qed.

Lemma skipped_init dir a bad :
  (forall encoding df, encoding ∈ encodings ->
     read_csv (path_join dir bad) encoding <> Val df) ->
  bad ∉ (file_structures a).*1 ->
  Forall (fun l => log_name l <> bad) (printed a) ->
  exists errs,
    skipped bad
      (File_info (basename (path_join dir bad)) [] [] 0 0 [] (errs ++ [Could_not_read]))
      (Log_errors bad (errs ++ [Could_not_read]))
      (one dir a bad) a.
Proof.
  intros Hbad Hkeys Hlog.
  destruct (read_any_unreadable read_csv _ _ Hbad []) as [errs Hread].
  exists errs. unfold analyze_one.
  rewrite (analyze_file_unread _ _ _ _ _ _ Hread). simpl.
  exists (file_structures a), [], (printed a), [].
  rewrite !app_nil_r, dict_set_fresh by done.
  repeat split; first [done | by destruct errs | simpl; lia].
Qed.

Lemma skipped_step dir bad info line a a' name :
  skipped bad info line a a' -> name <> bad ->
  skipped bad info line (one dir a name) (one dir a' name).
Proof.
  intros (l1 & l2 & p1 & p2 & Hs & Hs' & Hk & Hp & Hp' & Hlog & Hfv & Htot & Hn) Hne.
  unfold analyze_one. rewrite Hfv, Hs, Hs', Hp, Hp', Htot, Hn.
  destruct (file_of _ _) as [info_n fv_n]. simpl.
  destruct (dict_set_around l1 l2 bad info name info_n Hne)
    as (l1' & l2' & -> & -> & H1 & H2).
  rewrite fmap_app, not_elem_of_app in Hk. destruct Hk as [Hk1 Hk2].
  exists l1', l2', p1, (p2 ++ [match errors info_n with
                                | [] => Log_analyzed name (total_rows info_n)
                                          (length (headers info_n))
                                | errs => Log_errors name errs
                                end]).
  repeat split; try done.
  - rewrite fmap_app, not_elem_of_app. auto.
  - by rewrite <- app_assoc.
  - by rewrite app_assoc.
  - rewrite app_assoc. apply Forall_app. split; [done|].
    constructor; [|done]. by destruct (errors info_n).
Qed.

Lemma skipped_all dir bad info line files :
  bad ∉ files ->
  forall a a',
  skipped bad info line a a' ->
  skipped bad info line (all dir a files) (all dir a' files).
Proof.
  induction files as [|f files IH]; intros Hbad a a' Hs; simpl; [done|].
  apply not_elem_of_cons in Hbad as [Hne Hbad].
  apply IH; [done|]. apply skipped_step; [done|congruence].
Qed.

Lemma skipped_quality bad info line a a' :
  skipped bad info line a a' -> field_completion info = [] ->
  analyze_data_quality a = analyze_data_quality a' /\
  forall field e, e ∈ completeness_entries (file_structures a) field -> c_file e <> bad.
Proof.
  intros (l1 & l2 & p1 & p2 & Hs & Hs' & Hk & _) Hfc. split.
  - rewrite !analyze_data_quality_val, Hs, Hs', !foldl_app. simpl. by rewrite Hfc.
  - intros field e (name & info' & filled & Hfile & Hitem & _ & ->)%completeness_entries_inv.
    simpl. intros ->. rewrite Hs in Hfile.
    apply elem_of_app in Hfile as [Hfile|Hfile].
    + apply Hk. rewrite fmap_app, elem_of_app. left.
      apply list_elem_of_fmap. by exists (bad, info').
    + apply elem_of_cons in Hfile as [[= <-]|Hfile].
      * rewrite Hfc in Hitem. by apply elem_of_nil in Hitem.
      * apply Hk. rewrite fmap_app, elem_of_app. right.
        apply list_elem_of_fmap. by exists (bad, info').
Qed.

End Batch.

(** * The statements of the specification *)

(** C1, as the specification states it, fails for [detect_date_format],
    the classifier of the trustees script, which the claim cites beside
    the date check of the societies script: it validates nothing.
    "1954-20-20" (month 20), "2001-02-28" and "2001-02-28T10:00" all get
    the same tag, the name of the ISO pattern, so no tag of this
    classifier tells a date out of range or a malformed one from a valid
    one. *)
Lemma detect_date_format_validates_nothing :
  detect_date_format "1954-20-20" = Val (Some "format_3_^\d{4}-\d{2}-\d{2}") /\
  detect_date_format "2001-02-28" = Val (Some "format_3_^\d{4}-\d{2}-\d{2}") /\
  detect_date_format "2001-02-28T10:00" = Val (Some "format_3_^\d{4}-\d{2}-\d{2}") /\
  ~ (exists invalid valid,
       invalid <> valid /\
       detect_date_format "1954-20-20" = Val (Some invalid) /\
       detect_date_format "2001-02-28" = Val (Some valid)).
Proof.
  split; [reflexivity|]. split; [reflexivity|]. split; [reflexivity|].
  intros (invalid & valid & Hne & Hinvalid & Hvalid).
  apply Hne.
  assert (detect_date_format "1954-20-20" = detect_date_format "2001-02-28") as Heq
    by reflexivity.
  rewrite Hinvalid, Hvalid in Heq. by injection Heq.
Qed.

(** C1, amended.  The validation is that of the date check of
    [analyze_societies_simple.py].  A value whose stripped text has the
    ISO shape (four digits, a dash, two digits, a dash, two digits, then
    anything) has at least three dash-separated groups, and the date check
    validates them.  The year and month groups are the digits matched and
    always parse.  When the third group (the day digits and what follows
    them up to the next dash) is not an integer literal, the finding is
    iso_date_malformed; otherwise it is iso_date_invalid_range when the
    month is outside 1..12 or the day outside 1..31, and iso_date when
    both are in range.  "1954-20-20" is out of range, "2001-02-28" is a
    valid date.  [detect_date_format] of [analyze_trustees_csv.py] does
    not validate: it names every such value by pattern 3, whatever the
    numbers. *)
Theorem check_date_iso :
  (forall value,
     Py.strip value <> "" ->
     Re.matches "\d{4}-\d{2}-\d{2}" (Py.strip value) = Val true ->
     exists g1 g2 g3 rest year month,
       Py.split_on "-" (Py.strip value) = g1 :: g2 :: g3 :: rest /\
       Py.int g1 = Val year /\ Py.int g2 = Val month /\
       ((exists day,
           Py.int g3 = Val day /\
           Societies.check_date value =
             Val (if decide (month < 1 \/ 12 < month \/ day < 1 \/ 31 < day)%Z
                  then Societies.iso_date_invalid_range
                  else Societies.iso_date)) \/
        (Py.int g3 = Exc ValueError /\
         Societies.check_date value = Val Societies.iso_date_malformed))) /\
  Societies.check_date "1954-20-20" = Val Societies.iso_date_invalid_range /\
  Societies.check_date "2001-02-28" = Val Societies.iso_date /\
  (forall value,
     Py.strip value <> "" ->
     Re.matches "\d{4}-\d{2}-\d{2}" (Py.strip value) = Val true ->
     detect_date_format value = Val (Some "format_3_^\d{4}-\d{2}-\d{2}")).
Proof.
  split; [|split; [reflexivity|split; [reflexivity|]]].
  2:{ intros value Hnb Hiso. exact (iso_shape_named value Hnb Hiso). }
  intros value Hnb Hiso.
  destruct (iso_shape_parts _ Hiso)
    as (g1 & g2 & g3 & rest & Hparts & Hg1 & Hl1 & Hg2 & Hl2).
  destruct (int_of_digits g1 Hg1) as [year Hyear]; [by destruct g1|].
  destruct (int_of_digits g2 Hg2) as [month Hmonth]; [by destruct g2|].
  exists g1, g2, g3, rest, year, month. split; [done|]. split; [done|]. split; [done|].
  apply truthy_true in Hnb.
  unfold Societies.check_date.
  rewrite (truthy_strip _ Hnb), Hnb, Hiso, Hparts. simpl.
  unfold Societies.parse_parts. simpl. rewrite Hyear, Hmonth. simpl.
  destruct (int_cases g3) as [[day ->]| ->]; simpl; [|right; auto].
  left. exists day. split; [done|].
  destruct (decide _) as [Hout|Hin].
  - assert ((month >? 12)%Z || (day >? 31)%Z || (month <? 1)%Z || (day <? 1)%Z = true)
      as -> ; [|done].
    rewrite !orb_true_iff, !Z.gtb_gt, !Z.ltb_lt. lia.
  - assert ((month >? 12)%Z || (day >? 31)%Z || (month <? 1)%Z || (day <? 1)%Z = false)
      as -> ; [|done].
    apply not_true_is_false. rewrite !orb_true_iff, !Z.gtb_gt, !Z.ltb_lt. lia.
Qed.

Lemma check_date_iso_witness :
  (exists g1 g2 g3 rest year month,
     Py.split_on "-" (Py.strip " 2024-02-30T08:15 ") = g1 :: g2 :: g3 :: rest /\
     Py.int g1 = Val year /\ Py.int g2 = Val month /\
     ((exists day,
         Py.int g3 = Val day /\
         Societies.check_date " 2024-02-30T08:15 " =
           Val (if decide (month < 1 \/ 12 < month \/ day < 1 \/ 31 < day)%Z
                then Societies.iso_date_invalid_range
                else Societies.iso_date)) \/
      (Py.int g3 = Exc ValueError /\
       Societies.check_date " 2024-02-30T08:15 " = Val Societies.iso_date_malformed))) /\
  detect_date_format " 2024-02-30T08:15 " = Val (Some "format_3_^\d{4}-\d{2}-\d{2}").
Proof.
  split.
  - apply (proj1 check_date_iso " 2024-02-30T08:15 "); [done|reflexivity].
  - apply (proj2 (proj2 (proj2 check_date_iso)) " 2024-02-30T08:15 ");
      [done|reflexivity].
Defined.

(** C2.  [detect_date_format] tries the patterns of [date_formats] in
    their order and names the first one that matches the stripped value.
    For "4/4/24/23" that is pattern 9 (four numeric groups; the
    specification's malformed_multi_part), none of the patterns 0 to 8
    matching, and for "25/6/" it is pattern 7 (the specification's
    incomplete). *)
Theorem detect_date_format_first_match :
  (forall value i pattern,
     Py.strip value <> "" ->
     date_formats !! i = Some pattern ->
     Re.matches pattern (Py.strip value) = Val true ->
     (forall j q, j < i -> date_formats !! j = Some q ->
                  Re.matches q (Py.strip value) = Val false) ->
     detect_date_format value = Val (Some (format_name i pattern))) /\
  detect_date_format "4/4/24/23" =
    Val (Some "format_9_^\d{1,2}/\d{1,2}/\d{2}/\d{2}$") /\
  (forall j q, j < 9 -> date_formats !! j = Some q ->
               Re.matches q "4/4/24/23" = Val false) /\
  detect_date_format "25/6/" = Val (Some "format_7_^\d{1,2}/\d{1,2}/$").
Proof.
  split; [|split; [reflexivity|split; [|reflexivity]]].
  - intros value i pattern Hnb Hi Hm Hbefore.
    rewrite (detect_nonblank _ Hnb).
    destruct (first_format_cases date_formats (Py.strip value) date_formats_compile 0)
      as [(k & p & Hk & Hmk & Hbk & ->)|[Hnone _]].
    + destruct (Nat.lt_trichotomy k i) as [Hlt|[->|Hgt]].
      * rewrite (Hbefore k p Hlt Hk) in Hmk. discriminate.
      * rewrite Hi in Hk. by injection Hk as ->.
      * rewrite (Hbk i pattern Hgt Hi) in Hm. discriminate.
    + rewrite (Hnone i pattern Hi) in Hm. discriminate.
  - intros j q Hj Hq.
    do 9 (destruct j as [|j]; [injection Hq as <-; reflexivity|]). lia.
Qed.

Lemma detect_date_format_first_match_witness :
  detect_date_format " 06/11/00 " = Val (Some (format_name 0 "^\d{1,2}/\d{1,2}/\d{2,4}$")) /\
  detect_date_format "2001-02-28" = Val (Some (format_name 3 "^\d{4}-\d{2}-\d{2}")).
Proof.
  split.
  - apply (proj1 detect_date_format_first_match); [done|reflexivity|reflexivity|].
    intros j q Hj. lia.
  - apply (proj1 detect_date_format_first_match); [done|reflexivity|reflexivity|].
    intros j q Hj Hq.
    do 3 (destruct j as [|j]; [injection Hq as <-; reflexivity|]). lia.
Defined.

(** C3.  Header normalisation is idempotent and blind to case and to the
    amount of whitespace.  On every ASCII string [x] the result is the
    lower-cased words of [x] joined by single spaces (so leading and
    trailing whitespace is trimmed, inner runs collapse and case is
    folded), normalising it again changes nothing, the empty string is
    mapped to itself, and " PT Cause No " and "pt   cause   no" have the
    same normal form.  The repertoire is ASCII, where NFKD decomposition is
    the identity. *)
Theorem normalize_text_idempotent (nfkd_ext : string -> string) :
  (forall x, Py.isascii x = true ->
     normalize_text nfkd_ext x = Py.join " " (map Py.lower (Py.split x)) /\
     normalize_text nfkd_ext (normalize_text nfkd_ext x) = normalize_text nfkd_ext x) /\
  normalize_text nfkd_ext "" = "" /\
  normalize_text nfkd_ext " PT Cause No " = normalize_text nfkd_ext "pt   cause   no" /\
  normalize_text nfkd_ext " PT Cause No " = "pt cause no".
Proof.
  split; [|by repeat split].
  intros x Hx. split.
  - by apply normalize_text_ascii.
  - by apply normalize_text_idem.
Qed.

Lemma normalize_text_idempotent_witness :
  Py.isascii "  Date  Of DEATH " = true /\
  normalize_text (fun s => s) "  Date  Of DEATH " = "date of death" /\
  normalize_text (fun s => s) (normalize_text (fun s => s) "  Date  Of DEATH ") =
    normalize_text (fun s => s) "  Date  Of DEATH ".
Proof.
  split; [reflexivity|].
  split; [reflexivity|].
  apply (proj1 (normalize_text_idempotent (fun s => s)) "  Date  Of DEATH ").
  reflexivity.
Defined.

(** C4, as the specification states it, fails: with the aliases
    "pt cause no" and "cause no" the header "pt_cause_no_(station)" is not
    matched to pt_cause_no.  Its underscores keep both aliases from being
    substrings of it, and it is a single word that shares nothing with
    the words of the aliases. *)
Lemma example_mapping_misses_station :
  ~ (exists matched,
       create_field_mapping_of (fun s => s) example_registry example_headers =
         Val [("pt_cause_no", matched)] /\
       "pt cause no" ∈ matched /\
       "pt_cause_no_(station)" ∈ matched /\
       "folio no" ∉ matched).
Proof.
  intros (matched & Hm & _ & Hstation & _).
  vm_compute in Hm. injection Hm as <-.
  apply elem_of_cons in Hstation as [?|Hnil]; [discriminate|].
  by apply elem_of_nil in Hnil.
Qed.

(** C4, amended.  Over the observed headers "pt cause no",
    "pt_cause_no_(station)" and "folio no", in whatever order the set is
    iterated, the field pt_cause_no with the aliases "pt cause no" and
    "cause no" is mapped to exactly "pt cause no", found by the exact
    pass.  The fuzzy pass adds nothing: for "pt_cause_no_(station)" and
    for "folio no" no alias contains the header or is contained in it, and
    the token overlap stays below the threshold. *)
Theorem example_mapping_exact_only (nfkd_ext : string -> string)
    (all_fields : list string) :
  all_fields ≡ₚ example_headers ->
  create_field_mapping_of nfkd_ext example_registry all_fields =
    Val [("pt_cause_no", ["pt cause no"])] /\
  "pt cause no" ∈ map (normalize_text nfkd_ext) ["pt cause no"; "cause no"] /\
  some_variation nfkd_ext "pt_cause_no_(station)" ["pt cause no"; "cause no"] = Val false /\
  some_variation nfkd_ext "folio no" ["pt cause no"; "cause no"] = Val false /\
  (forall alias, alias ∈ ["pt cause no"; "cause no"] ->
     Py.contains alias "pt_cause_no_(station)" = false /\
     Py.contains "pt_cause_no_(station)" alias = false /\
     (token_overlap "pt_cause_no_(station)" alias == 0)%Q).
Proof.
  intros Hp. split; [by apply example_mapping|].
  split; [by left|]. split; [by vm_compute|]. split; [by vm_compute|].
  intros alias Ha.
  repeat (apply elem_of_cons in Ha as [->|Ha]; [by vm_compute|]).
  by apply elem_of_nil in Ha.
Qed.

Lemma example_mapping_exact_only_witness :
  create_field_mapping_of (fun s => s) example_registry
    ["folio no"; "pt_cause_no_(station)"; "pt cause no"] =
  Val [("pt_cause_no", ["pt cause no"])].
Proof.
  apply (example_mapping_exact_only (fun s => s)).
  apply permutations_Permutation.
  apply (bool_decide_unpack (_ ∈ _)). by vm_compute.
Defined.

(** C5.  [fuzzy_match] never raises and answers whether the token overlap
    of the two names reaches the threshold 0.7, the overlap being the
    number of common words over the number of all words, counted on the
    whitespace-separated words without the stop words; when one of the two
    names has no word left the overlap is 0 and the answer is no. *)
Theorem fuzzy_match_token_overlap (field1 field2 : string) :
  stop_words =
    list_to_set ["of"; "the"; "and"; "or"; "in"; "on"; "at"; "to"; "for"; "with"; "by"] /\
  fuzzy_match field1 field2 default_threshold =
    Val (Qle_bool (7 # 10) (token_overlap field1 field2)) /\
  (fuzzy_match field1 field2 default_threshold = Val true <->
   (7 # 10 <= token_overlap field1 field2)%Q) /\
  (key_words field1 = ∅ \/ key_words field2 = ∅ ->
   (token_overlap field1 field2 == 0)%Q /\
   fuzzy_match field1 field2 default_threshold = Val false) /\
  (key_words field1 ≠ ∅ -> key_words field2 ≠ ∅ ->
   (token_overlap field1 field2 ==
      inject_Z (Z.of_nat (size (key_words field1 ∩ key_words field2))) /
      inject_Z (Z.of_nat (size (key_words field1 ∪ key_words field2))))%Q).
Proof.
  assert (Hm := fuzzy_match_overlap field1 field2 default_threshold eq_refl).
  unfold default_threshold in *.
  split; [reflexivity|]. split; [exact Hm|]. split; [|split].
  - rewrite Hm. rewrite <- Qle_bool_iff. split; [by intros [= ->]|by intros ->].
  - intros He. rewrite Hm. unfold token_overlap.
    by rewrite (bool_decide_eq_true_2 _ He).
  - intros H1 H2. unfold token_overlap.
    rewrite bool_decide_eq_false_2 by tauto. reflexivity.
Qed.

Lemma fuzzy_match_token_overlap_witness :
  fuzzy_match "of the" "date of death" default_threshold = Val false /\
  fuzzy_match "name of the deceased" "deceased name" default_threshold = Val true /\
  fuzzy_match "folio no" "cause no" default_threshold = Val false.
Proof.
  split; [|split].
  - apply (proj2 (proj2 (proj2 (fuzzy_match_token_overlap "of the" "date of death")))).
    left. by vm_compute.
  - apply (proj1 (proj2 (proj2 (fuzzy_match_token_overlap _ _)))). by vm_compute.
  - by vm_compute.
Defined.

(** C6, as the specification states it, fails for a file in which two
    headers have the same normal form: they share one entry of
    [field_completion], and the count of the later column replaces that of
    the earlier one.  In [twin_frame] the column "Name" is filled in both
    rows, yet the record of the field "name" says 0 of 2. *)
Lemma twin_headers_share_a_record :
  let info := (analyze_file (fun s => s) (fun _ _ => Val twin_frame) (fun p => p)
                 ∅ "twin.csv").1 in
  index_of "Name" (df_columns twin_frame) = Some 0 /\
  normalize_text (fun s => s) "Name" = "name" /\
  filled_rows twin_frame 0 = 2 /\
  non_empty_rows info = 2 /\
  dict_get (field_completion info) (normalize_text (fun s => s) "Name") = Some 0 /\
  dict_get (field_completion info) (normalize_text (fun s => s) "Name") <>
    Some (filled_rows twin_frame 0) /\
  analyze_data_quality (Analyzer 1 2 ∅ [("twin.csv", info)] []) =
    Val {["name" := [completeness_of "twin.csv" 0 2]]}.
Proof. repeat split; try discriminate; by vm_compute. Qed.

(** C6, amended.  Field completeness of a file.  For a file that was
    read, [non_empty_rows] is the number of rows that are not entirely
    blank, and for every header with a non-empty normal form
    [field_completion] holds, under that normal form, the number of rows
    with a value in the column of the last header of that normal form:
    no header after it in the header row has that normal form, and it is
    the header itself when no other header of the file shares its normal
    form.  (The column is the one at the position of that header, unless
    an earlier column carries the very same label.)  A cell counts as
    filled when pandas holds a value for it, so a cell of blanks only is
    filled and a row of such cells is not blank.
    [analyze_data_quality] never raises, and what it lists for a field
    is, file after file, the record (file, filled / total * 100, filled,
    total) of each file that has a row which is not blank; a file without
    such a row contributes no record, so that nothing is ever divided by
    zero.  A file with ten non-blank rows and a field filled in seven of
    them is reported as filled 7, total 10, 70 percent. *)
Theorem field_completeness :
  (forall nfkd_ext read_csv basename fv file_path df errs,
     read_any read_csv file_path encodings [] = (Some df, errs) ->
     let info := (analyze_file nfkd_ext read_csv basename fv file_path).1 in
     non_empty_rows info = non_blank_rows df /\
     forall header,
       header ∈ df_columns df ->
       normalize_text nfkd_ext header <> "" ->
       exists i pre last post,
         df_columns df = pre ++ last :: post /\
         normalize_text nfkd_ext last = normalize_text nfkd_ext header /\
         (forall later, later ∈ post ->
            normalize_text nfkd_ext later <> normalize_text nfkd_ext header) /\
         index_of last (df_columns df) = Some i /\
         (last ∉ pre -> i = length pre) /\
         dict_get (field_completion info) (normalize_text nfkd_ext header) =
           Some (filled_rows df i) /\
         ((forall other, other ∈ df_columns df ->
             normalize_text nfkd_ext other = normalize_text nfkd_ext header ->
             other = header) ->
          last = header)) /\
  (forall a, exists by_field,
     analyze_data_quality a = Val by_field /\
     forall field,
       default [] (by_field !! field) = completeness_entries (file_structures a) field) /\
  (let a := analyze_all (fun s => s) example_read_csv example_join example_basename
              "trustees" new_analyzer ["2019.csv"] in
   exists by_field e,
     analyze_data_quality a = Val by_field /\
     by_field !! "name" = Some [e] /\
     c_file e = "2019.csv" /\ c_filled_records e = 7 /\ c_total_records e = 10 /\
     (c_completeness e == 70)%Q) /\
  (let a := analyze_all (fun s => s) example_read_csv example_join example_basename
              "trustees" new_analyzer ["2021.csv"] in
   (exists info, file_structures a = [("2021.csv", info)] /\
                 non_empty_rows info = 0 /\
                 field_completion info = [("name", 0); ("folio no", 0)]) /\
   analyze_data_quality a = Val ∅) /\
  (let df := Frame ["Name"] [[Some " "]; [Some "Achieng"]; [None]] in
   let info := (analyze_file (fun s => s) (fun _ _ => Val df) (fun p => p)
                  ∅ "blanks.csv").1 in
   field_completion info = [("name", 2)] /\ non_empty_rows info = 2).
Proof.
  split; [|split; [|split; [|split]]].
  - intros nfkd_ext read_csv basename fv file_path df errs Hread.
    rewrite (analyze_file_read _ _ _ _ _ _ _ Hread). simpl. split; [done|].
    intros header Hin Hnh.
    destruct (last_with_normal_form nfkd_ext (normalize_text nfkd_ext header)
                (df_columns df)) as (pre & last & post & Hcols & Hlast & Hpost);
      [by exists header|].
    assert (Hlin : last ∈ df_columns df).
    { rewrite Hcols, elem_of_app, elem_of_cons. auto. }
    destruct (index_of_elem _ _ Hlin) as [i Hi].
    exists i, pre, last, post. split; [done|]. split; [done|].
    split; [done|]. split; [done|]. split.
    { intros Hfresh. rewrite Hcols, (index_of_app_fresh _ _ _ Hfresh) in Hi.
      by injection Hi as <-. }
    split; [|by auto].
    rewrite Hcols at 1. rewrite <- Hlast.
    apply header_steps_get_last; [done|by rewrite Hlast|by rewrite Hlast].
  - apply analyze_data_quality_entries.
  - eexists _, _. split; [by vm_compute|]. split; [by vm_compute|].
    by repeat split.
  - split; [|by vm_compute]. eexists. split; [by vm_compute|]. by split.
  - split; by vm_compute.
Qed.

Lemma field_completeness_witness :
  exists i pre last post,
    df_columns example_frame = pre ++ last :: post /\
    normalize_text (fun s => s) last = normalize_text (fun s => s) "Name" /\
    (forall later, later ∈ post ->
       normalize_text (fun s => s) later <> normalize_text (fun s => s) "Name") /\
    index_of last (df_columns example_frame) = Some i /\
    (last ∉ pre -> i = length pre) /\
    dict_get
      (field_completion
         (analyze_file (fun s => s) example_read_csv example_basename ∅
            "trustees/2019.csv").1)
      (normalize_text (fun s => s) "Name") = Some (filled_rows example_frame i) /\
    ((forall other, other ∈ df_columns example_frame ->
        normalize_text (fun s => s) other = normalize_text (fun s => s) "Name" ->
        other = "Name") ->
     last = "Name").
Proof.
  apply (proj2 (proj1 field_completeness (fun s => s) example_read_csv
                  example_basename ∅ "trustees/2019.csv" example_frame []
                  eq_refl) "Name").
  - by left.
  - done.
Defined.

(** C7, as the specification states it, fails on the empty string:
    [detect_date_format] answers [None] there, not the unknown tag. *)
Lemma detect_date_format_empty_not_unknown :
  detect_date_format "" = Val None /\
  detect_date_format "" <> Val (Some "unknown_format").
Proof. split; [reflexivity|discriminate]. Qed.

(** C7, amended.  [detect_date_format] never raises.  It answers [None]
    on a value that is empty or all whitespace, and "unknown_format" on
    any other value that none of the patterns matches. *)
Theorem detect_date_format_total :
  (forall value, exists r, detect_date_format value = Val r) /\
  (forall value, Py.strip value = "" -> detect_date_format value = Val None) /\
  (forall value,
     Py.strip value <> "" ->
     (forall pattern, pattern ∈ date_formats ->
                      Re.matches pattern (Py.strip value) = Val false) ->
     detect_date_format value = Val (Some "unknown_format")).
Proof.
  split; [|split].
  - intros value. destruct (decide (Py.strip value = "")) as [Hb|Hnb].
    + exists None. by apply detect_blank.
    + rewrite (detect_nonblank _ Hnb).
      destruct (first_format_cases date_formats (Py.strip value) date_formats_compile 0)
        as [(k & p & _ & _ & _ & ->)|[_ ->]]; by eexists.
  - apply detect_blank.
  - intros value Hnb Hnone. rewrite (detect_nonblank _ Hnb).
    destruct (first_format_cases date_formats (Py.strip value) date_formats_compile 0)
      as [(k & p & Hk & Hmk & _)|[_ ->]]; [|done].
    rewrite (Hnone p) in Hmk; [discriminate|].
    by apply list_elem_of_lookup_2 in Hk.
Qed.

Lemma detect_date_format_total_witness :
  detect_date_format "   " = Val None /\
  detect_date_format "n/a" = Val (Some "unknown_format").
Proof.
  split.
  - by apply (proj1 (proj2 detect_date_format_total)).
  - apply (proj2 (proj2 detect_date_format_total)); [done|].
    intros pattern Hp. unfold date_formats in Hp.
    repeat (apply elem_of_cons in Hp as [->|Hp]; [reflexivity|]).
    by apply elem_of_nil in Hp.
Defined.

(** C8.  A file that cannot be read with any encoding does not disturb
    the batch.  The run over the batch with the file differs from the run
    over the batch without it only in this: [file_structures] has exactly
    one more entry, under the file's name, with no headers, no completion
    counts and an error list that ends with the note that the file could
    not be read, and the progress report has exactly one more line, the
    error line of that file.  The field-variation index is the same, the
    completeness records are the same, and none of them names the file.
    The entries and lines of all other files are unchanged and stay in
    their order. *)
Theorem failed_file_is_isolated nfkd_ext read_csv path_join basename
    (csv_directory : string) (before : list string) (bad : string)
    (after : list string) :
  (forall encoding df, encoding ∈ encodings ->
     read_csv (path_join csv_directory bad) encoding <> Val df) ->
  bad ∉ before -> bad ∉ after ->
  let a := analyze_all nfkd_ext read_csv path_join basename csv_directory
             new_analyzer (before ++ bad :: after) in
  let a' := analyze_all nfkd_ext read_csv path_join basename csv_directory
              new_analyzer (before ++ after) in
  exists errs l1 l2 p1 p2,
    let info := File_info (basename (path_join csv_directory bad)) [] [] 0 0 []
                  (errs ++ [Could_not_read]) in
    file_structures a = l1 ++ (bad, info) :: l2 /\
    file_structures a' = l1 ++ l2 /\
    (bad ∉ (l1 ++ l2).*1) /\
    printed a = p1 ++ Log_errors bad (errs ++ [Could_not_read]) :: p2 /\
    printed a' = p1 ++ p2 /\
    Forall (fun line => log_name line <> bad) (p1 ++ p2) /\
    field_variations a = field_variations a' /\
    analyze_data_quality a = analyze_data_quality a' /\
    (forall field e,
       e ∈ completeness_entries (file_structures a) field -> c_file e <> bad) /\
    total_records a = total_records a' /\
    files_analyzed a = S (files_analyzed a').
Proof.
  intros Hbad Hbefore Hafter a a'. subst a a'.
  unfold analyze_all. rewrite !foldl_app. simpl.
  fold (analyze_all nfkd_ext read_csv path_join basename).
  set (a1 := analyze_all nfkd_ext read_csv path_join basename csv_directory
               new_analyzer before).
  destruct (skipped_init nfkd_ext read_csv path_join basename csv_directory a1 bad Hbad)
    as [errs Hinit].
  - intros [Hin|Hin]%analyze_all_keys; [by apply elem_of_nil in Hin|done].
  - apply analyze_all_printed; [|constructor].
    intros line Hl Heq. by rewrite Heq in Hl.
  - pose proof (skipped_all nfkd_ext read_csv path_join basename csv_directory
                  _ _ _ after Hafter _ _ Hinit) as Hs.
    destruct (skipped_quality _ _ _ _ _ Hs eq_refl) as [Hq Hnone].
    destruct Hs as (l1 & l2 & p1 & p2 & Hs & Hs' & Hk & Hp & Hp' & Hlog & Hfv & Ht & Hn).
    exists errs, l1, l2, p1, p2. simpl. repeat split; done.
Qed.

Lemma failed_file_is_isolated_witness :
  let a := analyze_all (fun s => s) example_read_csv example_join example_basename
             "trustees" new_analyzer (["2019.csv"] ++ "2020.csv" :: ["2021.csv"]) in
  let a' := analyze_all (fun s => s) example_read_csv example_join example_basename
              "trustees" new_analyzer (["2019.csv"] ++ ["2021.csv"]) in
  exists errs l1 l2 p1 p2,
    let info := File_info (example_basename (example_join "trustees" "2020.csv"))
                  [] [] 0 0 [] (errs ++ [Could_not_read]) in
    file_structures a = l1 ++ ("2020.csv", info) :: l2 /\
    file_structures a' = l1 ++ l2 /\
    ("2020.csv" ∉ (l1 ++ l2).*1) /\
    printed a = p1 ++ Log_errors "2020.csv" (errs ++ [Could_not_read]) :: p2 /\
    printed a' = p1 ++ p2 /\
    Forall (fun line => log_name line <> "2020.csv") (p1 ++ p2) /\
    field_variations a = field_variations a' /\
    analyze_data_quality a = analyze_data_quality a' /\
    (forall field e,
       e ∈ completeness_entries (file_structures a) field -> c_file e <> "2020.csv") /\
    total_records a = total_records a' /\
    files_analyzed a = S (files_analyzed a').
Proof.
  apply (failed_file_is_isolated (fun s => s) example_read_csv example_join
           example_basename "trustees" ["2019.csv"] "2020.csv" ["2021.csv"]).
  - intros encoding df Henc. unfold encodings in Henc.
    repeat (apply elem_of_cons in Henc as [->|Henc]; [by vm_compute|]).
    by apply elem_of_nil in Henc.
  - by intros [[=]|?%elem_of_nil]%elem_of_cons.
  - by intros [[=]|?%elem_of_nil]%elem_of_cons.
Defined.

(** C9.  Reading a column of a table whose rows may be shorter than the
    header row never raises: the cell of row [r] in column [i] is [r[i]]
    when [i < len(r)] and the empty string otherwise. *)
Theorem column_values_short_rows (data_rows : list (list string)) (col_idx : nat) :
  Societies.column_values data_rows col_idx =
    Val (map (fun row => default "" (row !! col_idx)) data_rows) /\
  (forall row,
     (col_idx < length row ->
      exists v, row !! col_idx = Some v /\ Societies.cell row col_idx = Val v) /\
     (length row <= col_idx -> Societies.cell row col_idx = Val "")).
Proof.
  assert (Hcell : forall row,
    Societies.cell row col_idx = Val (default "" (row !! col_idx))).
  { intros row. unfold Societies.cell, Py.getitem.
    destruct (Nat.ltb_spec col_idx (length row)) as [Hlt|Hge].
    - by destruct (lookup_lt_is_Some_2 row col_idx Hlt) as [v ->].
    - by rewrite lookup_ge_None_2. }
  split.
  - unfold Societies.column_values.
    induction data_rows as [|row rows IH]; [done|].
    simpl. by rewrite Hcell, IH.
  - intros row. split.
    + intros Hlt. destruct (lookup_lt_is_Some_2 row col_idx Hlt) as [v Hv].
      exists v. split; [done|]. by rewrite Hcell, Hv.
    + intros Hge. by rewrite Hcell, lookup_ge_None_2.
Qed.

Lemma column_values_short_rows_witness :
  Societies.column_values [["a"; "b"; "c"]; ["d"]; []; ["e"; "f"]] 1 =
    Val ["b"; ""; ""; "f"] /\
  Societies.cell ["d"] 1 = Val "".
Proof.
  split.
  - exact (proj1 (column_values_short_rows [["a"; "b"; "c"]; ["d"]; []; ["e"; "f"]] 1)).
  - apply (proj2 (column_values_short_rows [] 1)). simpl. lia.
Defined.

(** C10.  A row with a value in some column is never counted as blank,
    so in every completeness record that [analyze_data_quality] produces
    after a run over any batch of files the number of filled records is at
    most the number of total records, and the percentage lies between 0
    and 100. *)
Theorem completeness_in_range :
  (forall df i, filled_rows df i <= non_blank_rows df) /\
  (forall nfkd_ext read_csv path_join basename csv_directory csv_files
          by_field field entries e,
     analyze_data_quality
       (analyze_all nfkd_ext read_csv path_join basename csv_directory
          new_analyzer csv_files) = Val by_field ->
     by_field !! field = Some entries ->
     e ∈ entries ->
     0 <= c_filled_records e <= c_total_records e /\
     (0 <= c_completeness e /\ c_completeness e <= 100)%Q).
Proof.
  split; [apply filled_le_non_blank|].
  intros nfkd_ext read_csv path_join basename dir files by_field field entries e
    Hq Hfield He.
  destruct (analyze_data_quality_entries
              (analyze_all nfkd_ext read_csv path_join basename dir new_analyzer files))
    as (by_field' & Hq' & Hentries).
  rewrite Hq in Hq'. injection Hq' as <-.
  specialize (Hentries field). rewrite Hfield in Hentries. simpl in Hentries.
  rewrite Hentries in He.
  apply completeness_entries_bounded in He as [Hle Hpct].
  - split; [lia|done].
  - apply analyze_all_bounded. constructor.
Qed.

Lemma completeness_in_range_witness :
  exists by_field entries e,
    analyze_data_quality
      (analyze_all (fun s => s) example_read_csv example_join example_basename
         "trustees" new_analyzer ["2019.csv"; "2020.csv"; "2021.csv"]) = Val by_field /\
    by_field !! "name" = Some entries /\ e ∈ entries /\
    (0 <= c_filled_records e <= c_total_records e /\
     (0 <= c_completeness e /\ c_completeness e <= 100)%Q).
Proof.
  eexists _, _, _.
  split; [by vm_compute|]. split; [by vm_compute|]. split; [by left|].
  eapply (proj2 completeness_in_range (fun s => s) example_read_csv example_join
            example_basename "trustees" ["2019.csv"; "2020.csv"; "2021.csv"]
            _ "name").
  - by vm_compute.
  - by vm_compute.
  - by left.
Defined.

(** * Further properties of the scripts *)

(** ** More on strings *)

Lemma sapp_assoc (a b c : string) : (a +:+ b) +:+ c = a +:+ (b +:+ c).
Proof. induction a as [|x a IH]; [done|]. by rewrite !sapp_cons, IH. Qed.

Lemma startswith_iff p s : Py.startswith p s = true <-> exists post, s = p +:+ post.
Proof.
  revert s. induction p as [|a p IH]; intros s; simpl.
  - split; [by exists s|done].
  - destruct s as [|b s]; [split; [done|by intros [? ?]]|].
    rewrite andb_true_iff, Ascii.eqb_eq, IH. split.
    + intros [-> [post ->]]. by exists post.
    + intros [post Hpost]. rewrite sapp_cons in Hpost. injection Hpost as -> ->.
      split; [done|by exists post].
Qed.

Lemma contains_iff sub s :
  Py.contains sub s = true <-> exists pre post, s = pre +:+ sub +:+ post.
Proof.
  induction s as [|c s IH]; simpl.
  - rewrite orb_false_r, startswith_iff. split.
    + intros [post ->]. by exists "", post.
    + intros (pre & post & H). destruct pre; [by exists post|done].
  - rewrite orb_true_iff, startswith_iff, IH. split.
    + intros [[post ->]|(pre & post & ->)]; [by exists "", post|].
      by exists (String c pre), post.
    + intros (pre & post & H). destruct pre as [|c' pre].
      * left. by exists post.
      * right. rewrite sapp_cons in H. injection H as -> ->. by exists pre, post.
Qed.

Lemma contains_refl s : Py.contains s s = true.
Proof. apply contains_iff. exists "", "". by rewrite app_empty_r. Qed.

Lemma contains_trans a b c :
  Py.contains a b = true -> Py.contains b c = true -> Py.contains a c = true.
Proof.
  rewrite !contains_iff. intros (p1 & q1 & ->) (p2 & q2 & ->).
  exists (p2 +:+ p1), (q1 +:+ q2). by rewrite !sapp_assoc.
Qed.

Lemma contains_app_r sub a b : Py.contains sub b = true -> Py.contains sub (a +:+ b) = true.
Proof.
  rewrite !contains_iff. intros (p & q & ->). exists (a +:+ p), q. by rewrite !sapp_assoc.
Qed.

Lemma contains_app_l sub a b : Py.contains sub a = true -> Py.contains sub (a +:+ b) = true.
Proof.
  rewrite !contains_iff. intros (p & q & ->). exists p, (q +:+ b). by rewrite !sapp_assoc.
Qed.

Lemma lstrip_fixed p s :
  match s with "" => true | String c _ => negb (p c) end = true ->
  Py.lstrip_by p s = s.
Proof. destruct s as [|c s]; [done|]. simpl. by intros ->%negb_true_iff. Qed.

Lemma rstrip_idem p s : Py.rstrip_by p (Py.rstrip_by p s) = Py.rstrip_by p s.
Proof.
  induction s as [|c s IH]; [done|]. simpl.
  destruct (Py.rstrip_by p s) as [|c' t] eqn:Ht.
  - destruct (p c) eqn:Hc; [done|]. simpl. by rewrite Hc.
  - simpl in *. rewrite IH. reflexivity.
Qed.

Lemma rstrip_head p s :
  match Py.rstrip_by p s with
  | "" => True
  | String c _ => exists s', s = String c s'
  end.
Proof.
  destruct s as [|c s]; [done|]. simpl.
  destruct (Py.rstrip_by p s); [destruct (p c)|]; eauto.
Qed.

Lemma lstrip_head p s :
  match Py.lstrip_by p s with "" => true | String c _ => negb (p c) end = true.
Proof.
  induction s as [|c s IH]; [done|]. simpl.
  destruct (p c) eqn:Hc; [done|]. simpl. by rewrite Hc.
Qed.

Lemma strip_idem s : Py.strip (Py.strip s) = Py.strip s.
Proof.
  unfold Py.strip. set (u := Py.lstrip_by Py.isspace s).
  assert (Hu : match u with "" => true | String c _ => negb (Py.isspace c) end = true)
    by apply lstrip_head.
  rewrite (lstrip_fixed _ (Py.rstrip_by Py.isspace u)); [apply rstrip_idem|].
  pose proof (rstrip_head Py.isspace u) as Hh.
  destruct (Py.rstrip_by Py.isspace u) as [|c t]; [done|].
  destruct Hh as [s' ->]. exact Hu.
Qed.

(** ** The two passes of the field mapping *)

Section Mapping.

Variable nfkd_ext : string -> string.

Lemma some_variation_val field known :
  some_variation nfkd_ext field known = Val (fuzzy_ok nfkd_ext known field).
Proof.
  induction known as [|v known IH]; [done|].
  simpl. unfold fuzzy_ok in *. simpl. unfold accepts_alias at 1.
  destruct (Py.contains (normalize_text nfkd_ext v) field
            || Py.contains field (normalize_text nfkd_ext v)); [done|].
  rewrite fuzzy_match_overlap by done. simpl.
  destruct (Qle_bool _ _); [done|]. exact IH.
Qed.

Lemma filter_In_bool {A} (p : A -> bool) l x :
  x ∈ List.filter p l <-> x ∈ l /\ p x = true.
Proof. by rewrite !list_elem_of_In, filter_In. Qed.

Lemma fuzzy_pass known l :
  NoDup l ->
  forall matched,
  (forall f, f ∈ l -> (f ∈ matched <-> exact_ok nfkd_ext known f = true)) ->
  res_fold
    (fun matched field =>
       if bool_decide (field ∈ matched) then Val matched
       else
         found ← some_variation nfkd_ext field known;
         Val (if found : bool then matched ++ [field] else matched))
    matched l =
  Val (matched ++
       List.filter (fun f => negb (exact_ok nfkd_ext known f) && fuzzy_ok nfkd_ext known f) l).
Proof.
  induction 1 as [|f l Hf Hl IH]; intros matched Hm; simpl.
  { by rewrite app_nil_r. }
  destruct (decide (f ∈ matched)) as [Hin|Hnin].
  - rewrite bool_decide_eq_true_2 by done.
    rewrite (proj1 (Hm f ltac:(by left)) Hin). simpl.
    apply IH. intros g Hg. apply Hm. by right.
  - rewrite bool_decide_eq_false_2 by done.
    rewrite some_variation_val. simpl.
    assert (He : exact_ok nfkd_ext known f = false).
    { apply not_true_is_false. intros He. apply Hnin, Hm; [by left|done]. }
    rewrite He. simpl. destruct (fuzzy_ok nfkd_ext known f).
    + rewrite IH.
      * by rewrite <- app_assoc.
      * intros g Hg. rewrite elem_of_app, list_elem_of_singleton.
        rewrite <- (Hm g) by (by right).
        split; [intros [?|Heq]; [done|by subst g]|by left].
    + apply IH. intros g Hg. apply Hm. by right.
Qed.

Lemma map_field_val all_fields known :
  NoDup all_fields ->
  map_field nfkd_ext all_fields known = Val (matched_for nfkd_ext all_fields known).
Proof.
  intros Hnd. unfold map_field, matched_for.
  apply fuzzy_pass; [done|].
  intros f Hf. rewrite filter_In_bool. unfold exact_ok. tauto.
Qed.

(** Without the assumption on the iteration: the passes never raise, and
    keep observed headers only. *)
Lemma fuzzy_pass_total known l :
  forall matched, exists matched',
  res_fold
    (fun matched field =>
       if bool_decide (field ∈ matched) then Val matched
       else
         found ← some_variation nfkd_ext field known;
         Val (if found : bool then matched ++ [field] else matched))
    matched l = Val matched' /\
  forall f, f ∈ matched' -> f ∈ matched \/ f ∈ l.
Proof.
  induction l as [|f l IH]; intros matched; simpl.
  { eexists. split; [done|]. by left. }
  destruct (bool_decide (f ∈ matched)); simpl.
  - destruct (IH matched) as (m' & Hm' & Hsub). exists m'. split; [done|].
    intros g Hg. destruct (Hsub g Hg); [by left|right; by right].
  - rewrite some_variation_val. simpl.
    destruct (fuzzy_ok nfkd_ext known f).
    + destruct (IH (matched ++ [f])) as (m' & Hm' & Hsub). exists m'. split; [done|].
      intros g Hg. destruct (Hsub g Hg) as [Hin|Hin]; [|right; by right].
      apply elem_of_app in Hin as [?|Heq%list_elem_of_singleton];
        [by left|subst g; right; by left].
    + destruct (IH matched) as (m' & Hm' & Hsub). exists m'. split; [done|].
      intros g Hg. destruct (Hsub g Hg); [by left|right; by right].
Qed.

Lemma map_field_total all_fields known :
  exists matched,
    map_field nfkd_ext all_fields known = Val matched /\
    forall f, f ∈ matched -> f ∈ all_fields.
Proof.
  unfold map_field.
  destruct (fuzzy_pass_total known all_fields
              (List.filter
                 (fun field => bool_decide (field ∈ map (normalize_text nfkd_ext) known))
                 all_fields)) as (m & Hm & Hsub).
  exists m. split; [done|]. intros f Hf.
  destruct (Hsub f Hf) as [Hin|Hin]; [|done].
  by apply filter_In_bool in Hin as [? _].
Qed.

Lemma mapping_loop (matched_of : list string -> list string) all_fields registry :
  (forall entry, entry ∈ registry ->
     map_field nfkd_ext all_fields entry.2 = Val (matched_of entry.2)) ->
  NoDup registry.*1 ->
  forall mapping,
  (forall k, k ∈ registry.*1 -> k ∉ mapping.*1) ->
  res_fold
    (fun mapping (entry : string * list string) =>
       matched ← map_field nfkd_ext all_fields entry.2;
       Val (dict_set mapping entry.1 matched))
    mapping registry =
  Val (mapping ++ map (fun entry => (entry.1, matched_of entry.2)) registry).
Proof.
  induction registry as [|[k vs] registry IH]; intros Hval Hnd mapping Hfresh; simpl.
  { by rewrite app_nil_r. }
  apply NoDup_cons in Hnd as [Hk Hnd].
  pose proof (Hval (k, vs) ltac:(by left)) as Hkv. simpl in Hkv.
  rewrite Hkv. simpl.
  rewrite dict_set_fresh by (apply Hfresh; by left).
  rewrite IH; [by rewrite <- app_assoc|intros e He; apply Hval; by right|done|].
  intros k' Hk'. rewrite fmap_app, not_elem_of_app. split.
  - apply Hfresh. by right.
  - simpl. rewrite list_elem_of_singleton. intros ->. done.
Qed.

Lemma exact_is_fuzzy known f :
  exact_ok nfkd_ext known f = true -> fuzzy_ok nfkd_ext known f = true.
Proof.
  unfold exact_ok, fuzzy_ok. intros Hin%bool_decide_eq_true.
  apply list_elem_of_fmap in Hin as (v & -> & Hv).
  apply existsb_exists. exists v. split; [by apply list_elem_of_In|].
  unfold accepts_alias. by rewrite contains_refl.
Qed.

Lemma matched_for_elem all_fields known f :
  f ∈ matched_for nfkd_ext all_fields known <->
  f ∈ all_fields /\ fuzzy_ok nfkd_ext known f = true.
Proof.
  unfold matched_for. rewrite elem_of_app, !filter_In_bool, andb_true_iff, negb_true_iff.
  pose proof (exact_is_fuzzy known f).
  destruct (exact_ok nfkd_ext known f); intuition congruence.
Qed.

Lemma filter_NoDup {A} (p : A -> bool) (l : list A) : NoDup l -> NoDup (List.filter p l).
Proof.
  induction 1 as [|x l Hx Hl IH]; simpl; [constructor|].
  destruct (p x); [|done]. constructor; [|done].
  rewrite filter_In_bool. tauto.
Qed.

Lemma matched_for_NoDup all_fields known :
  NoDup all_fields -> NoDup (matched_for nfkd_ext all_fields known).
Proof.
  intros Hnd. unfold matched_for. apply NoDup_app. split; [by apply filter_NoDup|].
  split; [|by apply filter_NoDup].
  intros f [_ He]%filter_In_bool [_ Hf]%filter_In_bool.
  rewrite He in Hf. done.
Qed.

Lemma dict_get_map {A B} (g : A -> B) (d : odict A) k :
  dict_get (map (fun entry => (entry.1, g entry.2)) d) k = g <$> dict_get d k.
Proof.
  induction d as [|[k' v] d IH]; [done|]. simpl. by destruct (String.eqb k' k).
Qed.

Lemma field_mapping_closed_form_aux registry all_fields :
  NoDup all_fields -> NoDup registry.*1 ->
  create_field_mapping_of nfkd_ext registry all_fields =
    Val (map (fun entry => (entry.1, matched_for nfkd_ext all_fields entry.2)) registry) /\
  forall entry, entry ∈ registry ->
    NoDup (matched_for nfkd_ext all_fields entry.2).
Proof.
  intros Hall Hreg. split.
  - unfold create_field_mapping_of.
    rewrite (mapping_loop (matched_for nfkd_ext all_fields)); [done| |done|].
    + intros entry _. by apply map_field_val.
    + intros k _. apply not_elem_of_nil.
  - intros entry _. by apply matched_for_NoDup.
Qed.

End Mapping.

(** ** The societies script *)

Lemma cell_val row col_idx :
  Societies.cell row col_idx = Val (cell_text row col_idx).
Proof.
  unfold Societies.cell, Py.getitem, cell_text.
  destruct (Nat.ltb_spec col_idx (length row)) as [Hlt|Hge].
  - by destruct (lookup_lt_is_Some_2 row col_idx Hlt) as [v ->].
  - by rewrite lookup_ge_None_2.
Qed.

Lemma column_values_val data_rows col_idx :
  Societies.column_values data_rows col_idx =
    Val (map (fun row => cell_text row col_idx) data_rows).
Proof.
  unfold Societies.column_values.
  induction data_rows as [|row rows IH]; [done|].
  simpl. by rewrite cell_val, IH.
Qed.

Lemma parse_parts_cases p0 p1 p2 rest :
  (exists y m d, Societies.parse_parts (p0 :: p1 :: p2 :: rest) = Val (y, m, d)) \/
  Societies.parse_parts (p0 :: p1 :: p2 :: rest) = Exc ValueError.
Proof.
  unfold Societies.parse_parts. simpl.
  destruct (int_cases p0) as [[y ->]| ->]; [|by right]. simpl.
  destruct (int_cases p1) as [[m ->]| ->]; [|by right]. simpl.
  destruct (int_cases p2) as [[d ->]| ->]; [|by right]. simpl.
  left. by exists y, m, d.
Qed.

Lemma bind_val {A B} (a : A) (k : A -> res B) : (Val a ≫= k) = k a.
Proof. reflexivity. Qed.

Lemma matches_val pattern value r :
  Re.compile pattern = Val r -> exists b, Re.matches pattern value = Val b.
Proof. intros H. rewrite (matches_compiled _ _ _ H). by eexists. Qed.

Ltac decide_match pattern value :=
  let c := eval vm_compute in (Re.compile pattern) in
  match c with
  | Val ?r =>
      let b := fresh "b" in
      let Hb := fresh "Hb" in
      destruct (matches_val pattern value r eq_refl) as [b Hb];
      rewrite Hb, bind_val; destruct b
  end.

Lemma check_date_val value : Societies.check_date value = Val (finding_of value).
Proof.
  unfold finding_of.
  cut (exists f, Societies.check_date value = Val f); [by intros [f ->]|].
  unfold Societies.check_date.
  destruct (Py.truthy value && Py.truthy (Py.strip value)); [|by eexists].
  decide_match "\d{4}-\d{2}-\d{2}" (Py.strip value).
  - destruct (Nat.leb_spec 3 (length (Py.split_on "-" (Py.strip value)))) as [Hlen|Hlen];
      [|by eexists].
    destruct (Py.split_on "-" (Py.strip value)) as [|p0 [|p1 [|p2 rest]]];
      simpl in Hlen; try lia.
    destruct (parse_parts_cases p0 p1 p2 rest) as [(y & m & d & ->)| ->]; [|by eexists].
    destruct (_ || _); by eexists.
  - decide_match "\d{1,2}/\d{1,2}/\d{2,4}" (Py.strip value); [by eexists|].
    decide_match "\d{1,2}-\d{1,2}-\d{2,4}" (Py.strip value); by eexists.
Qed.

Lemma check_values_val col_name values :
  forall row_idx acc,
  Societies.check_values col_name row_idx values acc =
    Val (acc ++ concat (imap (fun k value =>
                                Societies.report (row_idx + k) col_name value
                                  (finding_of value)) values)).
Proof.
  induction values as [|v vs IH]; intros row_idx acc; simpl.
  - by rewrite app_nil_r.
  - rewrite check_date_val. simpl. rewrite IH, <- app_assoc, Nat.add_0_r.
    do 4 f_equal. apply imap_ext. intros k x _. simpl. f_equal. lia.
Qed.

Lemma analyze_column_val data_rows acc col_idx col_name :
  Societies.analyze_column data_rows acc (col_idx, col_name) =
    Val (acc.1 ++ column_issues data_rows col_idx col_name,
         dict_set acc.2 col_name (stat_of data_rows col_idx)).
Proof.
  unfold Societies.analyze_column, column_issues, stat_of.
  rewrite column_values_val, bind_val.
  destruct (Societies.is_date_column col_name).
  - rewrite check_values_val, bind_val. do 3 f_equal.
    rewrite imap_fmap. by f_equal.
  - by rewrite bind_val, app_nil_r.
Qed.

Lemma analyze_columns_val data_rows cols :
  forall acc,
  res_fold (Societies.analyze_column data_rows) acc cols =
    Val (acc.1 ++ flat_map (fun col : nat * string =>
                              column_issues data_rows col.1 col.2) cols,
         foldl (fun stats (col : nat * string) =>
                  dict_set stats col.2 (stat_of data_rows col.1)) acc.2 cols).
Proof.
  induction cols as [|[i h] cols IH]; intros acc; cbn [res_fold].
  - simpl. by rewrite app_nil_r; destruct acc.
  - rewrite analyze_column_val, bind_val, IH. simpl. by rewrite <- app_assoc.
Qed.

(** Sets of strings *)
Lemma size_list_to_set_le (l : list string) :
  size (list_to_set l : gset string) <= length l.
Proof.
  induction l as [|x l IH]; simpl.
  - done.
  - destruct (decide (x ∈ (list_to_set l : gset string))) as [Hin|Hout].
    + rewrite (subseteq_union_1_L {[x]} (list_to_set l))
        by (by apply singleton_subseteq_l).
      lia.
    + rewrite size_union by set_solver. rewrite size_singleton. lia.
Qed.

Lemma size_list_to_set_pos (l : list string) :
  0 < length l -> 0 < size (list_to_set l : gset string).
Proof.
  destruct l as [|x l]; simpl; [lia|]. intros _.
  apply Nat.neq_0_lt_0. apply size_non_empty_iff. set_solver.
Qed.

Lemma dict_set_NoDup {V} (d : odict V) k v :
  NoDup d.*1 -> NoDup (dict_set d k v).*1.
Proof.
  induction d as [|[k' v'] d IH]; simpl; intros Hnd.
  - apply NoDup_singleton.
  - apply NoDup_cons in Hnd as [Hk' Hnd].
    rewrite string_eqb_decide. case_bool_decide as Hk; simpl.
    + subst. by apply NoDup_cons.
    + apply NoDup_cons. split; [|by apply IH].
      rewrite dict_set_keys. intros [->|Hin]; [done|]. by apply Hk'.
Qed.

Lemma dict_set_elem {V} (d : odict V) k v k' v' :
  NoDup d.*1 ->
  (k', v') ∈ dict_set d k v ->
  (k' = k /\ v' = v) \/ (k' <> k /\ (k', v') ∈ d).
Proof.
  induction d as [|[k0 v0] d IH]; simpl; intros Hnd Hin.
  - apply list_elem_of_singleton in Hin. injection Hin as -> ->. by left.
  - apply NoDup_cons in Hnd as [Hk0 Hnd].
    rewrite string_eqb_decide in Hin. case_bool_decide as Hk; simpl in Hin.
    + subst k0. apply elem_of_cons in Hin as [Heq|Hin].
      * injection Heq as -> ->. by left.
      * right. split; [|by right]. intros ->. apply Hk0.
        apply list_elem_of_fmap. by exists (k, v').
    + apply elem_of_cons in Hin as [Heq|Hin].
      * injection Heq as -> ->. right. split; [done|by left].
      * destruct (IH Hnd Hin) as [?|[? ?]]; [by left|]. right. split; [done|by right].
Qed.

Lemma flat_map_imap {A B} (F : nat * A -> list B) (l : list A) :
  forall g : nat -> nat,
  flat_map F (imap (fun i h => (g i, h)) l) = concat (imap (fun i h => F (g i, h)) l).
Proof.
  induction l as [|x l IH]; intros g; simpl; [done|].
  f_equal. apply (IH (g ∘ S)).
Qed.

(** The table [column_stats] after the column loop. *)
Lemma stats_snoc (data_rows : list (list string)) headers h :
  foldl (fun stats (col : nat * string) =>
           dict_set stats col.2 (stat_of data_rows col.1)) []
    (imap (fun i h => (i, h)) (headers ++ [h])) =
  dict_set
    (foldl (fun stats (col : nat * string) =>
              dict_set stats col.2 (stat_of data_rows col.1)) []
       (imap (fun i h => (i, h)) headers))
    h (stat_of data_rows (length headers)).
Proof.
  rewrite imap_app, foldl_app. simpl. by rewrite Nat.add_0_r.
Qed.

Lemma stats_entries (data_rows : list (list string)) headers :
  let stats :=
    foldl (fun stats (col : nat * string) =>
             dict_set stats col.2 (stat_of data_rows col.1)) []
      (imap (fun i h => (i, h)) headers) in
  NoDup stats.*1 /\
  (forall h, h ∈ stats.*1 <-> h ∈ headers) /\
  forall h st, (h, st) ∈ stats ->
    exists col_idx,
      headers !! col_idx = Some h /\ st = stat_of data_rows col_idx /\
      forall j, col_idx < j -> headers !! j <> Some h.
Proof.
  induction headers as [|x headers IH] using rev_ind.
  - simpl. split; [apply NoDup_nil_2|]. split.
    + intros h. split; intros H; by apply elem_of_nil in H.
    + intros h st H. by apply elem_of_nil in H.
  - rewrite stats_snoc. destruct IH as (Hnd & Hkeys & Hent).
    split; [by apply dict_set_NoDup|]. split.
    + intros h. rewrite dict_set_keys, Hkeys, elem_of_app, list_elem_of_singleton.
      tauto.
    + intros h st Hin.
      apply dict_set_elem in Hin; [|done].
      destruct Hin as [[Hh Hst]|[Hne Hin]].
      * subst h st. exists (length headers). split; [|split; [done|]].
        -- by rewrite lookup_app_r, Nat.sub_diag by lia.
        -- intros j Hj. rewrite lookup_ge_None_2; [done|].
           rewrite length_app. simpl. lia.
      * destruct (Hent h st Hin) as (i & Hi & -> & Hlast).
        exists i. split; [|split; [done|]].
        -- by apply lookup_app_l_Some.
        -- intros j Hj Hlk. apply lookup_app_Some in Hlk as [Hlk|[_ Hlk]].
           ++ by apply (Hlast j).
           ++ apply list_lookup_singleton_Some in Hlk as [_ ->]. done.
Qed.

Lemma stat_of_invariants data_rows col_idx :
  let st := stat_of data_rows col_idx in
  Societies.stat_non_empty st + Societies.stat_empty st = length data_rows /\
  Societies.stat_unique st <= Societies.stat_non_empty st /\
  (0 < Societies.stat_non_empty st -> 0 < Societies.stat_unique st) /\
  length (Societies.stat_sample st) = min 3 (Societies.stat_non_empty st) /\
  Societies.stat_sample st `prefix_of`
    Societies.non_empty (map (fun row => cell_text row col_idx) data_rows).
Proof.
  unfold stat_of.
  cbn [Societies.stat_non_empty Societies.stat_empty Societies.stat_unique
       Societies.stat_sample].
  set (values := map (fun row => cell_text row col_idx) data_rows).
  assert (length (Societies.non_empty values) <= length values) as Hle
    by apply List.filter_length_le.
  assert (length values = length data_rows) as Hlen by apply length_map.
  split; [lia|]. split; [apply size_list_to_set_le|].
  split; [apply size_list_to_set_pos|].
  split; [apply length_take|apply prefix_take].
Qed.

Lemma elem_of_concat_imap {A B} (f : nat -> A -> list B) (l : list A) (x : B) :
  x ∈ concat (imap f l) <-> exists i y, l !! i = Some y /\ x ∈ f i y.
Proof.
  rewrite list_elem_of_In, in_concat. split.
  - intros (ys & Hys & Hx).
    apply list_elem_of_In, elem_of_lookup_imap in Hys as (i & y & -> & Hi).
    exists i, y. by rewrite list_elem_of_In.
  - intros (i & y & Hi & Hx). exists (f i y). split.
    + apply list_elem_of_In, elem_of_lookup_imap. by exists i, y.
    + by apply list_elem_of_In.
Qed.

Lemma length_concat_imap {A B} (p : A -> bool) (n : nat) (l : list A) :
  forall f : nat -> A -> list B,
  (forall i x, length (f i x) <= if p x then n else 0) ->
  length (concat (imap f l)) <= length (List.filter p l) * n.
Proof.
  induction l as [|x l IH]; intros f Hf; simpl; [lia|].
  rewrite length_app. specialize (IH (f ∘ S) (fun i y => Hf (S i) y)).
  specialize (Hf 0 x). destruct (p x); simpl; lia.
Qed.

Lemma analyze_rows_val headers row data_rows file_name :
  Societies.analyze_rows (headers :: row :: data_rows) file_name =
    Some (Societies.Analysis file_name
            (length (row :: data_rows), length headers) headers
            (concat (imap (column_issues (row :: data_rows)) headers))
            (foldl (fun stats (col : nat * string) =>
                      dict_set stats col.2 (stat_of (row :: data_rows) col.1)) []
               (imap (fun i h => (i, h)) headers))
            (take 3 (row :: data_rows))).
Proof.
  unfold Societies.analyze_rows.
  rewrite analyze_columns_val.
  cbn [fst snd app].
  by rewrite (flat_map_imap
                (fun col : nat * string => column_issues (row :: data_rows) col.1 col.2)
                headers (fun i => i)).
Qed.

Lemma report_elem row_idx col_name value f issue :
  issue ∈ Societies.report row_idx col_name value f <->
  Societies.issue_column issue = col_name /\
  Societies.issue_row issue = row_idx + 2 /\
  Societies.issue_value issue = Py.strip value /\
  f = match Societies.issue_kind_of issue with
      | Societies.Invalid_date => Societies.iso_date_invalid_range
      | Societies.Malformed_date => Societies.iso_date_malformed
      end.
Proof.
  destruct issue as [r k v c]. simpl. split.
  - destruct f; simpl; intros H;
      try (by apply elem_of_nil in H);
      apply list_elem_of_singleton in H; by injection H as -> -> -> ->.
  - intros (-> & -> & -> & ->). destruct k; simpl; by left.
Qed.

Lemma length_report row_idx col_name value f :
  length (Societies.report row_idx col_name value f) <= 1.
Proof. destruct f; simpl; lia. Qed.

Lemma length_concat_imap_1 {A B} (l : list A) :
  forall f : nat -> A -> list B,
  (forall i x, length (f i x) <= 1) -> length (concat (imap f l)) <= length l.
Proof.
  induction l as [|x l IH]; intros f Hf; simpl; [lia|].
  rewrite length_app. specialize (IH (f ∘ S) (fun i y => Hf (S i) y)).
  specialize (Hf 0 x). lia.
Qed.

(** Substrings across a character that the substring does not have. *)
Lemma startswith_before sub c :
  Py.all_chars (fun d => negb (Ascii.eqb d c)) sub = true ->
  forall a b, Py.startswith sub (a +:+ String c b) = Py.startswith sub a.
Proof.
  induction sub as [|s sub IH]; intros Hsub a b; [by destruct a|].
  simpl in Hsub. apply andb_prop in Hsub as [Hs Hsub].
  destruct a as [|x a].
  - rewrite sapp_nil. simpl. apply negb_true_iff in Hs. by rewrite Hs.
  - rewrite sapp_cons. simpl. by rewrite IH.
Qed.

Lemma contains_around sub c a b :
  Py.all_chars (fun d => negb (Ascii.eqb d c)) sub = true ->
  Py.contains sub (a +:+ String c b) = Py.contains sub a || Py.contains sub b.
Proof.
  intros Hsub. induction a as [|x a IH].
  - rewrite sapp_nil.
    change (Py.contains sub (String c b))
      with (Py.startswith sub (String c b) || Py.contains sub b).
    rewrite <- (sapp_nil (String c b)), (startswith_before sub c Hsub "" b).
    by destruct sub.
  - rewrite sapp_cons.
    change (Py.contains sub (String x (a +:+ String c b)))
      with (Py.startswith sub (String x (a +:+ String c b)) ||
            Py.contains sub (a +:+ String c b)).
    rewrite <- sapp_cons, (startswith_before sub c Hsub), IH.
    change (Py.contains sub (String x a))
      with (Py.startswith sub (String x a) || Py.contains sub a).
    by rewrite orb_assoc.
Qed.

Lemma contains_no_head c sub s :
  Py.all_chars (fun d => negb (Ascii.eqb c d)) s = true ->
  Py.contains (String c sub) s = false.
Proof.
  induction s as [|x s IH]; [done|]. simpl. intros H.
  apply andb_prop in H as [Hx Hs]. apply negb_true_iff in Hx.
  rewrite Hx. simpl. by apply IH.
Qed.

Lemma string_of_uint_digits d :
  Py.all_chars Py.isdigit (NilEmpty.string_of_uint d) = true.
Proof. induction d; simpl; by try rewrite IHd. Qed.

Lemma str_of_nat_digits n : Py.all_chars Py.isdigit (Py.str_of_nat n) = true.
Proof. apply string_of_uint_digits. Qed.

Lemma digits_without (c : ascii) s :
  Py.isdigit c = false ->
  Py.all_chars Py.isdigit s = true ->
  Py.all_chars (fun d => negb (Ascii.eqb c d)) s = true.
Proof.
  intros Hc. apply all_chars_impl. intros d Hd.
  destruct (Ascii.eqb_spec c d) as [<-|]; [congruence|done].
Qed.

Lemma message_contains_invalid (i : Societies.date_issue) :
  Py.contains "Invalid date" (message i) =
    match Societies.issue_kind_of i with
    | Societies.Invalid_date => true
    | Societies.Malformed_date =>
        Py.contains "Invalid date" (Societies.issue_value i) ||
        Py.contains "Invalid date" (Societies.issue_column i)
    end.
Proof.
  destruct i as [r k v c]. unfold message. simpl.
  destruct k; simpl kind_text.
  - apply contains_app_r, contains_app_r, contains_app_r, contains_app_l.
    reflexivity.
  - change (": " +:+ "Malformed date" +:+ " '" +:+ v +:+ "' in column '" +:+ c +:+ "'")
      with (String ":" (" Malformed date " +:+
              String "'" (v +:+ String "'" (" in column " +:+ String "'" (c +:+ String "'" ""))))).
    rewrite <- sapp_assoc.
    rewrite (contains_around _ ":") by reflexivity.
    rewrite (contains_around _ "'" " Malformed date ") by reflexivity.
    rewrite (contains_around _ "'" v) by reflexivity.
    rewrite (contains_around _ "'" " in column ") by reflexivity.
    rewrite (contains_around _ "'" c) by reflexivity.
    rewrite contains_no_head.
    + change (Py.contains "Invalid date" " Malformed date ") with false.
      change (Py.contains "Invalid date" " in column ") with false.
      change (Py.contains "Invalid date" "") with false.
      simpl. by rewrite orb_false_r.
    + rewrite all_chars_app. apply andb_true_intro. split; [reflexivity|].
      apply digits_without; [reflexivity|apply str_of_nat_digits].
Qed.

Lemma message_contains_malformed (i : Societies.date_issue) :
  Societies.issue_kind_of i = Societies.Malformed_date ->
  Py.contains "Malformed date" (message i) = true.
Proof.
  intros Hk. unfold message. rewrite Hk. simpl kind_text.
  apply contains_app_r, contains_app_r, contains_app_r, contains_app_l.
  reflexivity.
Qed.

Lemma issue_pattern_message_eq (i : Societies.date_issue) :
  issue_pattern (message i) =
    match Societies.issue_kind_of i with
    | Societies.Invalid_date => "Invalid date format"
    | Societies.Malformed_date =>
        if Py.contains "Invalid date" (Societies.issue_value i) ||
           Py.contains "Invalid date" (Societies.issue_column i)
        then "Invalid date format" else "Malformed date"
    end.
Proof.
  unfold issue_pattern. rewrite message_contains_invalid.
  destruct (Societies.issue_kind_of i) eqn:Hk; [done|].
  destruct (_ || _); [done|]. by rewrite message_contains_malformed.
Qed.

Lemma count_patterns_lookup (issues : list string) (pattern : string) :
  forall m : gmap string nat,
  default 0
    (foldl (fun issue_patterns issue =>
              <[issue_pattern issue :=
                  S (default 0 (issue_patterns !! issue_pattern issue))]> issue_patterns)
       m issues !! pattern) =
  default 0 (m !! pattern) +
  length (List.filter (fun issue => String.eqb (issue_pattern issue) pattern) issues).
Proof.
  induction issues as [|issue issues IH]; intros m; simpl; [lia|].
  rewrite IH. rewrite string_eqb_decide. case_bool_decide as Hp; simpl.
  - rewrite Hp, lookup_insert_eq. simpl. lia.
  - by rewrite lookup_insert_ne.
Qed.

Lemma count_patterns_keys (issues : list string) (pattern : string) :
  forall m : gmap string nat,
  is_Some
    (foldl (fun issue_patterns issue =>
              <[issue_pattern issue :=
                  S (default 0 (issue_patterns !! issue_pattern issue))]> issue_patterns)
       m issues !! pattern) ->
  is_Some (m !! pattern) \/ exists issue, issue ∈ issues /\ issue_pattern issue = pattern.
Proof.
  induction issues as [|issue issues IH]; intros m; simpl; [by left|].
  intros H. apply IH in H as [H|(x & Hx & Hp)].
  - destruct (decide (issue_pattern issue = pattern)) as [Heq|Hne].
    + right. exists issue. split; [by left|done].
    + left. by rewrite lookup_insert_ne in H.
  - right. exists x. split; [by right|done].
Qed.

Lemma pattern_counts (issues : list Societies.date_issue) :
  length (List.filter (fun issue => String.eqb (issue_pattern issue) "Invalid date format")
            (map message issues)) +
  length (List.filter (fun issue => String.eqb (issue_pattern issue) "Malformed date")
            (map message issues)) = length issues /\
  length (List.filter
            (fun i => match Societies.issue_kind_of i with
                      | Societies.Invalid_date => true
                      | Societies.Malformed_date => false
                      end) issues) <=
  length (List.filter (fun issue => String.eqb (issue_pattern issue) "Invalid date format")
            (map message issues)).
Proof.
  induction issues as [|i issues [IH1 IH2]]; [done|].
  cbn [map List.filter]. rewrite issue_pattern_message_eq.
  destruct (Societies.issue_kind_of i); [simpl; lia|].
  destruct (_ || _); simpl; lia.
Qed.

(** ** The trustees script: matching, batches and reading *)

Lemma token_overlap_comm field1 field2 :
  token_overlap field1 field2 = token_overlap field2 field1.
Proof.
  unfold token_overlap.
  rewrite (bool_decide_ext (key_words field1 = ∅ \/ key_words field2 = ∅)
             (key_words field2 = ∅ \/ key_words field1 = ∅)) by tauto.
  by rewrite (comm_L (∩) (key_words field1)), (comm_L (∪) (key_words field1)).
Qed.

Lemma token_overlap_self field :
  key_words field <> ∅ -> (token_overlap field field == 1)%Q.
Proof.
  intros Hne. unfold token_overlap.
  rewrite bool_decide_eq_false_2 by tauto.
  rewrite (idemp_L (∩)), (idemp_L (∪)).
  assert (size (key_words field) <> 0) as Hs.
  { rewrite size_non_empty_iff. by intros ?%leibniz_equiv. }
  apply Qmult_inv_r. unfold Qeq. simpl. lia.
Qed.

Lemma split_normalized nfkd_ext x :
  Py.isascii x = true ->
  Py.split (normalize_text nfkd_ext x) = map Py.lower (Py.split x).
Proof.
  intros Hx. rewrite normalize_text_ascii by done.
  apply split_join. apply Forall_forall. intros w Hw.
  apply list_elem_of_fmap in Hw as (w' & -> & Hw').
  rewrite word_lower. revert w' Hw'. apply Forall_forall, split_words.
Qed.

Section Counters.

Variable nfkd_ext : string -> string.
Variable read_csv : string -> string -> res DataFrame.
Variable path_join : string -> string -> string.
Variable basename : string -> string.

Lemma analyze_file_rows fv file_path :
  total_rows (analyze_file nfkd_ext read_csv basename fv file_path).1 =
    rows_read read_csv file_path.
Proof.
  unfold rows_read.
  destruct (read_any read_csv file_path encodings []) as [[df|] errs] eqn:Hread.
  - by rewrite (analyze_file_read _ _ _ _ _ _ _ Hread).
  - by rewrite (analyze_file_unread _ _ _ _ _ _ Hread).
Qed.

Lemma analyze_one_counters dir a name :
  files_analyzed (analyze_one nfkd_ext read_csv path_join basename dir a name) =
    S (files_analyzed a) /\
  total_records (analyze_one nfkd_ext read_csv path_join basename dir a name) =
    total_records a + rows_read read_csv (path_join dir name) /\
  field_variations (analyze_one nfkd_ext read_csv path_join basename dir a name) =
    (analyze_file nfkd_ext read_csv basename (field_variations a) (path_join dir name)).2.
Proof.
  rewrite <- (analyze_file_rows (field_variations a)).
  unfold analyze_one. by destruct (analyze_file _ _ _ _ _).
Qed.

Lemma analyze_all_counters dir files :
  forall a,
  files_analyzed (analyze_all nfkd_ext read_csv path_join basename dir a files) =
    files_analyzed a + length files /\
  total_records (analyze_all nfkd_ext read_csv path_join basename dir a files) =
    total_records a +
    sum_list (map (fun name => rows_read read_csv (path_join dir name)) files).
Proof.
  induction files as [|name files IH]; intros a; simpl; [lia|].
  destruct (IH (analyze_one nfkd_ext read_csv path_join basename dir a name))
    as [-> ->].
  destruct (analyze_one_counters dir a name) as (-> & -> & _). lia.
Qed.

Lemma analyze_all_structures dir files :
  forall a,
  NoDup (file_structures a).*1 ->
  NoDup (file_structures
           (analyze_all nfkd_ext read_csv path_join basename dir a files)).*1 /\
  forall name,
    name ∈ (file_structures
              (analyze_all nfkd_ext read_csv path_join basename dir a files)).*1 <->
    name ∈ (file_structures a).*1 \/ name ∈ files.
Proof.
  induction files as [|name files IH]; intros a Ha; simpl.
  - split; [done|]. intros name. rewrite elem_of_nil. tauto.
  - destruct (IH (analyze_one nfkd_ext read_csv path_join basename dir a name))
      as [Hnd Hkeys].
    { rewrite analyze_one_structures. by apply dict_set_NoDup. }
    split; [done|]. intros name'.
    rewrite Hkeys, analyze_one_structures, dict_set_keys, elem_of_cons. tauto.
Qed.

End Counters.

Lemma create_field_mapping_of_total (nfkd_ext : string -> string)
    (registry : odict (list string)) (all_fields : list string) :
  NoDup registry.*1 ->
  exists mapping,
    create_field_mapping_of nfkd_ext registry all_fields = Val mapping /\
    mapping.*1 = registry.*1 /\
    forall field matched header,
      (field, matched) ∈ mapping -> header ∈ matched -> header ∈ all_fields.
Proof.
  intros Hreg.
  set (matched_of := fun known =>
         match map_field nfkd_ext all_fields known with
         | Val m => m
         | Exc _ => []
         end).
  assert (Hval : forall known,
            map_field nfkd_ext all_fields known = Val (matched_of known) /\
            forall f, f ∈ matched_of known -> f ∈ all_fields).
  { intros known. unfold matched_of.
    destruct (map_field_total nfkd_ext all_fields known) as (m & -> & Hsub). done. }
  exists (map (fun entry => (entry.1, matched_of entry.2)) registry).
  split; [|split].
  - unfold create_field_mapping_of.
    rewrite (mapping_loop nfkd_ext matched_of); [done| |done|].
    + intros entry _. apply Hval.
    + intros k _. apply not_elem_of_nil.
  - rewrite <- list_fmap_compose. by apply list_fmap_ext.
  - intros field matched header Hin Hh.
    apply list_elem_of_fmap in Hin as ([k known] & [= -> ->] & _).
    by apply (Hval known).
Qed.

Lemma standard_fields_NoDup : NoDup standard_fields.*1.
Proof. apply (bool_decide_unpack (NoDup _)). by vm_compute. Qed.

Section Variations.

Variable nfkd_ext : string -> string.
Variable read_csv : string -> string -> res DataFrame.
Variable path_join : string -> string -> string.
Variable basename : string -> string.

Lemma header_steps_variations df name hs :
  (forall h, h ∈ hs -> h ∈ df_columns df) ->
  forall st nh file,
  file ∈ default ∅ ((foldl (header_step nfkd_ext df name) st hs).2 !! nh) <->
  file ∈ default ∅ (st.2 !! nh) \/
  (file = name /\ nh <> "" /\ exists h, h ∈ hs /\ normalize_text nfkd_ext h = nh).
Proof.
  induction hs as [|h hs IH]; intros Hcols st nh file; simpl.
  - split; [by left|]. intros [H|(_ & _ & h & Hh & _)]; [done|].
    by apply elem_of_nil in Hh.
  - rewrite IH by (intros h' Hh'; apply Hcols; by right).
    assert (Hstep :
      file ∈ default ∅ ((header_step nfkd_ext df name st h).2 !! nh) <->
      file ∈ default ∅ (st.2 !! nh) \/
      (file = name /\ nh <> "" /\ normalize_text nfkd_ext h = nh)).
    { unfold header_step.
      destruct (Py.truthy (normalize_text nfkd_ext h)) eqn:Ht; simpl.
      - destruct (index_of_elem h (df_columns df)) as [i ->];
          [apply Hcols; by left|]. simpl.
        apply truthy_true in Ht.
        destruct (decide (normalize_text nfkd_ext h = nh)) as [<-|Hne].
        + rewrite lookup_insert_eq. simpl. rewrite elem_of_union, elem_of_singleton.
          tauto.
        + rewrite lookup_insert_ne by done. tauto.
      - apply truthy_false in Ht. rewrite Ht. split; [by left|].
        intros [H|(_ & Hne & Heq)]; [done|]. by subst nh. }
    rewrite Hstep. split.
    + intros [[H|(-> & Hne & Heq)]|(-> & Hne & h' & Hh' & Heq)].
      * by left.
      * right. split; [done|]. split; [done|]. exists h. split; [by left|done].
      * right. split; [done|]. split; [done|]. exists h'. split; [by right|done].
    + intros [H|(-> & Hne & h' & Hh' & Heq)]; [by left; left|].
      apply elem_of_cons in Hh' as [->|Hh'].
      * left. right. done.
      * right. split; [done|]. split; [done|]. by exists h'.
Qed.

Lemma analyze_file_variations fv file_path nh file :
  file ∈ default ∅ ((analyze_file nfkd_ext read_csv basename fv file_path).2 !! nh) <->
  file ∈ default ∅ (fv !! nh) \/
  (file = basename file_path /\ nh <> "" /\
   exists df errs header,
     read_any read_csv file_path encodings [] = (Some df, errs) /\
     header ∈ df_columns df /\ normalize_text nfkd_ext header = nh).
Proof.
  destruct (read_any read_csv file_path encodings []) as [[df|] errs] eqn:Hread.
  - rewrite (analyze_file_read _ _ _ _ _ _ _ Hread). cbn [snd].
    rewrite header_steps_variations by done. cbn [snd]. split.
    + intros [H|(-> & Hne & h & Hh & Heq)]; [by left|].
      right. split; [done|]. split; [done|]. by exists df, errs, h.
    + intros [H|(-> & Hne & df' & errs' & h & [= <- <-] & Hh & Heq)]; [by left|].
      right. split; [done|]. split; [done|]. by exists h.
  - rewrite (analyze_file_unread _ _ _ _ _ _ Hread). cbn [snd]. split; [by left|].
    intros [H|(_ & _ & df' & errs' & h & Hread' & _)]; [done|]. discriminate Hread'.
Qed.

Lemma analyze_all_variations dir files nh file :
  forall a,
  file ∈ default ∅
    (field_variations (analyze_all nfkd_ext read_csv path_join basename dir a files)
       !! nh) <->
  file ∈ default ∅ (field_variations a !! nh) \/
  (nh <> "" /\
   exists name df errs header,
     name ∈ files /\
     read_any read_csv (path_join dir name) encodings [] = (Some df, errs) /\
     header ∈ df_columns df /\ normalize_text nfkd_ext header = nh /\
     file = basename (path_join dir name)).
Proof.
  induction files as [|name files IH]; intros a.
  - cbn [analyze_all foldl]. split; [by left|]. intros [H|(_ & name & df & errs & h & Hin & _)]; [done|].
    by apply elem_of_nil in Hin.
  - change (analyze_all nfkd_ext read_csv path_join basename dir a (name :: files))
      with (analyze_all nfkd_ext read_csv path_join basename dir
              (analyze_one nfkd_ext read_csv path_join basename dir a name) files).
    rewrite IH.
    destruct (analyze_one_counters nfkd_ext read_csv path_join basename dir a name)
      as (_ & _ & ->).
    rewrite analyze_file_variations. split.
    + intros [[H|(-> & Hne & df & errs & h & Hread & Hh & Heq)]|
              (Hne & name' & df & errs & h & Hin & Hread & Hh & Heq & Hf)].
      * by left.
      * right. split; [done|]. exists name, df, errs, h.
        split; [by left|done].
      * right. split; [done|]. exists name', df, errs, h.
        split; [by right|done].
    + intros [H|(Hne & name' & df & errs & h & Hin & Hread & Hh & Heq & Hf)];
        [by left; left|].
      apply elem_of_cons in Hin as [->|Hin].
      * left. right. split; [done|]. split; [done|]. by exists df, errs, h.
      * right. split; [done|]. by exists name', df, errs, h.
Qed.

Lemma keyed_empty : keyed ∅.
Proof. intros k files Hk. by rewrite lookup_empty in Hk. Qed.

Lemma header_step_keyed df name st h :
  keyed st.2 -> keyed (header_step nfkd_ext df name st h).2.
Proof.
  intros Hst. unfold header_step.
  destruct (Py.truthy (normalize_text nfkd_ext h)) eqn:Ht; simpl; [|done].
  destruct (index_of h (df_columns df)); [|done]. simpl.
  intros k files Hk. destruct (decide (normalize_text nfkd_ext h = k)) as [<-|Hne].
  - rewrite lookup_insert_eq in Hk. injection Hk as <-.
    split; [by apply truthy_true|]. set_solver.
  - rewrite lookup_insert_ne in Hk by done. by apply Hst.
Qed.

Lemma header_steps_keyed df name hs :
  forall st, keyed st.2 -> keyed (foldl (header_step nfkd_ext df name) st hs).2.
Proof.
  induction hs as [|h hs IH]; intros st Hst; simpl; [done|].
  by apply IH, header_step_keyed.
Qed.

Lemma analyze_file_keyed fv file_path :
  keyed fv -> keyed (analyze_file nfkd_ext read_csv basename fv file_path).2.
Proof.
  intros Hfv.
  destruct (read_any read_csv file_path encodings []) as [[df|] errs] eqn:Hread.
  - rewrite (analyze_file_read _ _ _ _ _ _ _ Hread). cbn [snd].
    by apply header_steps_keyed.
  - by rewrite (analyze_file_unread _ _ _ _ _ _ Hread).
Qed.

Lemma analyze_all_keyed dir files :
  forall a,
  keyed (field_variations a) ->
  keyed (field_variations (analyze_all nfkd_ext read_csv path_join basename dir a files)).
Proof.
  induction files as [|name files IH]; intros a Ha; simpl; [done|].
  apply IH.
  destruct (analyze_one_counters nfkd_ext read_csv path_join basename dir a name)
    as (_ & _ & ->).
  by apply analyze_file_keyed.
Qed.

End Variations.

Section Reading.

Variable read_csv : string -> string -> res DataFrame.

Lemma read_any_fail file_path pre rest :
  unreadable read_csv file_path pre ->
  forall errs,
  read_any read_csv file_path (pre ++ rest) errs =
    read_any read_csv file_path rest (errs ++ encoding_notes read_csv file_path pre).
Proof.
  induction pre as [|e pre IH]; intros Hpre errs; simpl.
  - by rewrite app_nil_r.
  - assert (unreadable read_csv file_path pre) as Hpre'
      by (intros e' He'; apply Hpre; by right).
    destruct (read_csv file_path e) as [df|x] eqn:He.
    + exfalso. by apply (Hpre e (list_elem_of_here _ _) df).
    + destruct x; rewrite IH by done; by rewrite <- ?app_assoc.
Qed.

Lemma read_any_cases file_path encs :
  (exists pre encoding post df,
     encs = pre ++ encoding :: post /\ read_csv file_path encoding = Val df /\
     unreadable read_csv file_path pre) \/
  unreadable read_csv file_path encs.
Proof.
  induction encs as [|e encs IH].
  - right. intros e He. by apply elem_of_nil in He.
  - destruct (read_csv file_path e) as [df|x] eqn:He.
    + left. exists [], e, encs, df. split; [done|]. split; [done|].
      intros e' He'. by apply elem_of_nil in He'.
    + destruct IH as [(pre & enc & post & df & -> & Henc & Hpre)|Hall].
      * left. exists (e :: pre), enc, post, df. split; [done|]. split; [done|].
        intros e' He' df'. apply elem_of_cons in He' as [->|He'].
        -- by rewrite He.
        -- by apply Hpre.
      * right. intros e' He' df'. apply elem_of_cons in He' as [->|He'].
        -- by rewrite He.
        -- by apply Hall.
Qed.

End Reading.

Section Report.

Variable nfkd_ext : string -> string.
Variable read_csv : string -> string -> res DataFrame.
Variable path_join : string -> string -> string.
Variable basename : string -> string.

Lemma analyze_one_line dir a name :
  printed (analyze_one nfkd_ext read_csv path_join basename dir a name) =
    printed a ++ [line_of read_csv (path_join dir name) name].
Proof.
  unfold analyze_one, line_of.
  destruct (read_any read_csv (path_join dir name) encodings []) as [[df|] errs]
    eqn:Hread.
  - rewrite (analyze_file_read _ _ _ _ _ _ _ Hread). cbn zeta. simpl.
    by destruct errs.
  - rewrite (analyze_file_unread _ _ _ _ _ _ Hread). simpl.
    by destruct errs.
Qed.

Lemma analyze_all_lines dir files :
  forall a,
  printed (analyze_all nfkd_ext read_csv path_join basename dir a files) =
    printed a ++ map (fun name => line_of read_csv (path_join dir name) name) files.
Proof.
  induction files as [|name files IH]; intros a; simpl.
  - by rewrite app_nil_r.
  - by rewrite IH, analyze_one_line, <- app_assoc.
Qed.

End Report.

(** ** The trustees script: schema, value tables and dates *)

(** ** The schema *)

Lemma schema_loop (mapping : odict (list string)) :
  NoDup mapping.*1 ->
  forall schema : odict string,
  (forall k, k ∈ mapping.*1 -> k ∉ schema.*1) ->
  foldl
    (fun schema (entry : string * list string) =>
       match entry.2 with
       | [] => schema
       | _ :: _ => dict_set schema entry.1 (column_type entry.1)
       end)
    schema mapping =
  schema ++
  map (fun entry : string * list string => (entry.1, column_type entry.1))
    (List.filter
       (fun entry : string * list string =>
          match entry.2 with [] => false | _ :: _ => true end)
       mapping).
Proof.
  induction mapping as [|[k [|h matched]] mapping IH]; intros Hnd schema Hfresh.
  - simpl. by rewrite app_nil_r.
  - apply NoDup_cons in Hnd as [_ Hnd]. simpl. apply IH; [done|].
    intros k' Hk'. apply Hfresh. by right.
  - apply NoDup_cons in Hnd as [Hk Hnd]. cbn [foldl List.filter map fst snd].
    rewrite IH; [|done|].
    + rewrite dict_set_fresh by (apply Hfresh; by left).
      by rewrite <- app_assoc.
    + intros k' Hk'. rewrite dict_set_keys. intros [->|Hin]; [done|].
      revert Hin. apply Hfresh. by right.
Qed.

Lemma standard_column_types :
  Forall
    (fun field =>
       column_type field =
         if bool_decide (field ∈ ["file_year"; "serial_number"]) then "INTEGER"
         else "TEXT")
    standard_fields.*1.
Proof. repeat constructor. Qed.

(** ** Date samples *)

Lemma format_name_head i pattern : exists rest, format_name i pattern = String "f" rest.
Proof. unfold format_name. rewrite sapp_cons. by eexists. Qed.

Lemma no_format_for_blank value :
  Py.strip value = "" -> some_format_matches value = false.
Proof. intros H. unfold some_format_matches. rewrite H. by vm_compute. Qed.

Lemma date_sample_step (val : string) :
  (if Py.truthy val && Py.truthy (Py.strip val) then
     date_format ← detect_date_format val;
     match date_format with
     | Some f =>
         if Py.truthy f && negb (String.eqb f "unknown_format")
         then Val [Date_sample val f]
         else Val []
     | None => Val []
     end
   else Val []) =
  Val (if some_format_matches val then [Date_sample val (format_of val)] else []) /\
  (some_format_matches val = true ->
   exists i pattern,
     date_formats !! i = Some pattern /\
     format_of val = format_name i pattern /\
     Re.matches pattern (Py.strip val) = Val true /\
     forall j q, j < i -> date_formats !! j = Some q ->
                 Re.matches q (Py.strip val) = Val false).
Proof.
  destruct (Py.truthy val && Py.truthy (Py.strip val)) eqn:Ht.
  - apply andb_prop in Ht as [_ Ht]. apply truthy_true in Ht.
    unfold format_of. rewrite (detect_nonblank val Ht).
    destruct (first_format_cases date_formats (Py.strip val) date_formats_compile 0)
      as [(k & pattern & Hk & Hm & Hfirst & ->)|[Hnone ->]].
    + change (0 + k) with k.
      assert (Hsome : some_format_matches val = true).
      { apply existsb_exists. exists pattern. rewrite Hm. split; [|done].
        apply list_elem_of_In, list_elem_of_lookup. by exists k. }
      rewrite Hsome. destruct (format_name_head k pattern) as [rest Hrest].
      split.
      * simpl. by rewrite Hrest.
      * intros _. exists k, pattern. by repeat split.
    + assert (Hsome : some_format_matches val = false).
      { apply not_true_is_false. intros H. apply existsb_exists in H as (q & Hq & Hm).
        apply list_elem_of_In, list_elem_of_lookup in Hq as [j Hj].
        by rewrite (Hnone j q Hj) in Hm. }
      rewrite Hsome. split; [done|]. intros H. discriminate H.
  - assert (Hblank : Py.strip val = "").
    { apply andb_false_iff in Ht as [Ht|Ht].
      - apply truthy_false in Ht. by subst val.
      - by apply truthy_false in Ht. }
    rewrite (no_format_for_blank val Hblank). split; [done|]. intros H. discriminate H.
Qed.

Lemma date_samples_of_val (sample_values : list string) :
  date_samples_of sample_values =
    Val (map (fun v => Date_sample v (format_of v))
           (List.filter some_format_matches sample_values)).
Proof.
  induction sample_values as [|val rest IH]; [done|].
  cbn [date_samples_of]. rewrite (proj1 (date_sample_step val)), bind_val, IH, bind_val.
  cbn [List.filter]. by destruct (some_format_matches val).
Qed.

(** ** The value tables of a file *)

Lemma dict_set_elem_weak {V} (d : odict V) k v k' v' :
  (k', v') ∈ dict_set d k v -> (k' = k /\ v' = v) \/ (k', v') ∈ d.
Proof.
  induction d as [|[k0 v0] d IH]; simpl; intros Hin.
  - apply list_elem_of_singleton in Hin. injection Hin as -> ->. by left.
  - rewrite string_eqb_decide in Hin. case_bool_decide as Hk; simpl in Hin.
    + apply elem_of_cons in Hin as [Heq|Hin].
      * injection Heq as -> ->. by left.
      * right. by right.
    + apply elem_of_cons in Hin as [Heq|Hin].
      * injection Heq as -> ->. right. by left.
      * destruct (IH Hin) as [?|?]; [by left|]. right. by right.
Qed.

Section Values.

Variable nfkd_ext : string -> string.

Lemma sample_header_ok df name t header :
  header ∈ df_columns df ->
  exists t',
    sample_header nfkd_ext df name t header = (t', None) /\
    (t_field_completion t', t_field_variations t') =
      header_step nfkd_ext df name (t_field_completion t, t_field_variations t) header /\
    (tables_of nfkd_ext df (t_field_samples t) (t_unique_values t) (t_date_fields t) ->
     tables_of nfkd_ext df (t_field_samples t') (t_unique_values t') (t_date_fields t')).
Proof.
  intros Hin.
  pose proof (analyze_header_ok nfkd_ext df name
                (t_field_completion t, t_field_variations t) header Hin) as Hstep.
  unfold analyze_header in Hstep. unfold sample_header.
  destruct (negb (Py.truthy (normalize_text nfkd_ext header))) eqn:Ht.
  { exists t. split; [done|]. split; [|done]. by injection Hstep as <-. }
  assert (Htexts : forall col, df_getitem df header = Val col ->
            texts (dropna col) = column_texts df header).
  { intros col Hcol. unfold column_texts. by rewrite Hcol. }
  destruct (df_getitem df header) as [col|e] eqn:Hcol; [|discriminate Hstep].
  rewrite date_samples_of_val, (Htexts col eq_refl).
  eexists. split; [reflexivity|]. split; [by injection Hstep as <-|].
  cbn [t_field_samples t_unique_values t_date_fields].
  intros (Hs & Hu & Hd). split; [|split].
  - intros nh values Hnh. apply dict_set_elem_weak in Hnh as [[-> ->]|Hnh].
    + by exists header.
    + by apply Hs.
  - intros nh values.
    destruct (Nat.leb_spec (length (unique ∅ (column_texts df header))) 50)
      as [Hle|Hgt]; [|by apply Hu].
    intros Hnh. apply dict_set_elem_weak in Hnh as [[-> ->]|Hnh].
    + by exists header.
    + by apply Hu.
  - intros nh found.
    destruct (map _ (List.filter some_format_matches _)) as [|s found'] eqn:Hfound;
      [by apply Hd|].
    intros Hnh. apply dict_set_elem_weak in Hnh as [[-> ->]|Hnh].
    + split; [done|]. exists header. by rewrite Hfound.
    + by apply Hd.
Qed.

Lemma sample_headers_ok df name hs :
  (forall h, h ∈ hs -> h ∈ df_columns df) ->
  forall t,
  exists t',
    sample_headers nfkd_ext df name t hs = (t', None) /\
    (t_field_completion t', t_field_variations t') =
      foldl (header_step nfkd_ext df name)
        (t_field_completion t, t_field_variations t) hs /\
    (tables_of nfkd_ext df (t_field_samples t) (t_unique_values t) (t_date_fields t) ->
     tables_of nfkd_ext df (t_field_samples t') (t_unique_values t') (t_date_fields t')).
Proof.
  induction hs as [|h hs IH]; intros Hcols t.
  - exists t. split; [done|]. by split.
  - destruct (sample_header_ok df name t h) as (t1 & H1 & Hstep & Hinv);
      [apply Hcols; by left|].
    destruct (IH (fun h' Hh' => Hcols h' (list_elem_of_further _ _ _ Hh')) t1)
      as (t' & H' & Hsteps & Hinv').
    exists t'. cbn [sample_headers foldl]. rewrite H1, H', <- Hstep.
    split; [done|]. split; [done|]. tauto.
Qed.

End Values.

(** ** Date patterns across files *)

Lemma foldl_flat_map {A B C} (f : A -> C -> A) (g : B -> list C) (l : list B) :
  forall a, foldl f a (flat_map g l) = foldl (fun a x => foldl f a (g x)) a l.
Proof.
  induction l as [|x l IH]; intros a; simpl; [done|].
  by rewrite foldl_app, IH.
Qed.

Lemma foldl_map {A B C} (f : A -> C -> A) (g : B -> C) (l : list B) :
  forall a, foldl f a (map g l) = foldl (fun a x => f a (g x)) a l.
Proof. induction l as [|x l IH]; intros a; simpl; [done|]. by rewrite IH. Qed.

Lemma foldl_same {A B} (f g : A -> B -> A) (l : list B) :
  (forall a x, f a x = g a x) -> forall a, foldl f a l = foldl g a l.
Proof.
  intros Hfg. induction l as [|x l IH]; intros a; simpl; [done|].
  by rewrite Hfg, IH.
Qed.

Lemma analyze_date_patterns_flat (files : odict full_info) :
  analyze_date_patterns files =
    foldl (fun d (s : string * date_sample) => count_sample s.1 d s.2)
      (Date_analysis ∅ ∅) (all_samples files).
Proof.
  unfold analyze_date_patterns, all_samples.
  rewrite foldl_flat_map. apply foldl_same. intros d entry.
  rewrite foldl_flat_map. apply foldl_same. intros d' field.
  by rewrite foldl_map.
Qed.

Lemma count_samples_lookup (samples : list (string * date_sample)) :
  forall d,
  let d' := foldl (fun d (s : string * date_sample) => count_sample s.1 d s.2)
              d samples in
  (forall f,
     default 0 (formats_found d' !! f) =
       default 0 (formats_found d !! f) +
       length (List.filter (fun s : string * date_sample =>
                              String.eqb (sample_format s.2) f) samples)) /\
  (forall t,
     default [] (date_fields_by_type d' !! t) =
       default [] (date_fields_by_type d !! t) ++
       map snd (List.filter (fun s : string * date_sample =>
                               String.eqb (date_type s.1) t) samples)).
Proof.
  induction samples as [|[field s] samples IH]; intros d; cbn zeta.
  - split; intros; simpl; [lia|by rewrite app_nil_r].
  - cbn [foldl]. destruct (IH (count_sample field d s)) as [IHf IHt]. split.
    + intros f. rewrite IHf. cbn [List.filter fst snd count_sample formats_found].
      rewrite string_eqb_decide. case_bool_decide as Hf.
      * subst f. rewrite lookup_insert_eq. simpl. lia.
      * rewrite lookup_insert_ne by done. simpl. lia.
    + intros t. rewrite IHt. cbn [List.filter fst snd count_sample date_fields_by_type].
      rewrite string_eqb_decide. case_bool_decide as Ht.
      * subst t. rewrite lookup_insert_eq. simpl. by rewrite <- app_assoc.
      * by rewrite lookup_insert_ne by done.
Qed.

Lemma count_samples_keys (samples : list (string * date_sample)) :
  forall d,
  let d' := foldl (fun d (s : string * date_sample) => count_sample s.1 d s.2)
              d samples in
  (forall f n, formats_found d' !! f = Some n ->
     formats_found d !! f = Some n \/ 0 < n) /\
  (forall t, is_Some (date_fields_by_type d' !! t) ->
     is_Some (date_fields_by_type d !! t) \/ t ∈ date_types).
Proof.
  induction samples as [|[field s] samples IH]; intros d; cbn zeta.
  - split; intros; by left.
  - cbn [foldl]. destruct (IH (count_sample field d s)) as [IHf IHt]. split.
    + intros f n Hn. apply IHf in Hn as [Hn|Hn]; [|by right].
      cbn [count_sample formats_found fst snd] in Hn.
      destruct (decide (sample_format s = f)) as [<-|Hf].
      * rewrite lookup_insert_eq in Hn. injection Hn as <-. right. lia.
      * rewrite lookup_insert_ne in Hn by done. by left.
    + intros t Ht. apply IHt in Ht as [Ht|Ht]; [|by right].
      cbn [count_sample date_fields_by_type fst snd] in Ht.
      destruct (decide (date_type field = t)) as [<-|Hne].
      * right. unfold date_type, date_types.
        repeat (destruct (Py.contains _ field);
                [apply (bool_decide_unpack (_ ∈ _)); by vm_compute|]).
        apply (bool_decide_unpack (_ ∈ _)). by vm_compute.
      * rewrite lookup_insert_ne in Ht by done. by left.
Qed.

(** ** [convert_sets] *)

Lemma obj_nested_ind (P : obj -> Prop) :
  (forall text, P (O_leaf text)) ->
  (forall elements, P (O_set elements)) ->
  (forall items, Forall (fun kv : string * obj => P kv.2) items -> P (O_dict items)) ->
  (forall items, Forall P items -> P (O_list items)) ->
  forall o, P o.
Proof.
  intros Hleaf Hset Hdict Hlist.
  refine (fix IH (o : obj) : P o :=
            match o with
            | O_leaf text => Hleaf text
            | O_set elements => Hset elements
            | O_dict items =>
                Hdict items
                  ((fix go (l : list (string * obj))
                      : Forall (fun kv : string * obj => P kv.2) l :=
                      match l with
                      | [] => List.Forall_nil _
                      | kv :: l' => @List.Forall_cons _ _ kv l' (IH kv.2) (go l')
                      end) items)
            | O_list items =>
                Hlist items
                  ((fix go (l : list obj) : Forall P l :=
                      match l with
                      | [] => List.Forall_nil _
                      | x :: l' => @List.Forall_cons _ _ x l' (IH x) (go l')
                      end) items)
            end).
Qed.

Lemma existsb_leaves (elements : list string) :
  existsb has_set (map O_leaf elements) = false.
Proof. induction elements as [|e es IH]; simpl; [done|]. exact IH. Qed.

Lemma convert_leaves (elements : list string) :
  map convert_sets (map O_leaf elements) = map O_leaf elements.
Proof. induction elements as [|e es IH]; simpl; [done|]. by rewrite IH. Qed.

(** ** Completeness records *)

Lemma dict_get_elem {V} (d : odict V) k v :
  NoDup d.*1 -> (k, v) ∈ d -> dict_get d k = Some v.
Proof.
  induction d as [|[k0 v0] d IH]; simpl; intros Hnd Hin.
  - by apply elem_of_nil in Hin.
  - apply NoDup_cons in Hnd as [Hk0 Hnd]. rewrite string_eqb_decide.
    apply elem_of_cons in Hin as [Heq|Hin].
    + injection Heq as -> ->. by rewrite bool_decide_eq_true_2.
    + rewrite bool_decide_eq_false_2; [by apply IH|].
      intros ->. apply Hk0. apply list_elem_of_fmap. by exists (k, v).
Qed.

Lemma items_of_field (name : string) (total : nat) (field : string)
    (items : odict nat) :
  NoDup items.*1 ->
  flat_map
    (fun item : string * nat =>
       if (0 <? total)%nat && String.eqb item.1 field
       then [completeness_of name item.2 total] else [])
    items =
  match dict_get items field with
  | Some filled => if (0 <? total)%nat then [completeness_of name filled total] else []
  | None => []
  end.
Proof.
  induction items as [|[k n] items IH]; intros Hnd; [done|].
  apply NoDup_cons in Hnd as [Hk Hnd]. cbn [flat_map dict_get fst snd].
  rewrite IH by done. rewrite string_eqb_decide. case_bool_decide as Hf.
  - subst k. destruct (dict_get items field) as [n'|] eqn:Hget.
    + exfalso. apply Hk. clear -Hget.
      induction items as [|[k0 v0] items IH]; [done|]. simpl in Hget.
      rewrite string_eqb_decide in Hget. case_bool_decide as Hk0.
      * subst. by left.
      * right. by apply IH.
    + rewrite app_nil_r. by destruct (0 <? total)%nat.
  - by rewrite andb_false_r.
Qed.

Lemma entries_of_files (files : odict file_info) (field : string) :
  Forall (fun entry : string * file_info => NoDup (field_completion entry.2).*1) files ->
  map c_file (completeness_entries files field) `sublist_of` files.*1 /\
  forall e, e ∈ completeness_entries files field ->
    exists info,
      (c_file e, info) ∈ files /\
      dict_get (field_completion info) field = Some (c_filled_records e) /\
      c_total_records e = non_empty_rows info /\ 0 < non_empty_rows info.
Proof.
  induction files as [|[name info] files IH]; intros Hfiles.
  - split; [done|]. intros e He. by apply elem_of_nil in He.
  - apply Forall_cons in Hfiles as [Hinfo Hfiles]. destruct (IH Hfiles) as [IH1 IH2].
    cbn [snd] in Hinfo.
    unfold completeness_entries. cbn [flat_map fst snd].
    fold (completeness_entries files field).
    rewrite (items_of_field name (non_empty_rows info) field _ Hinfo).
    destruct (dict_get (field_completion info) field) as [filled|] eqn:Hget.
    + destruct (Nat.ltb_spec 0 (non_empty_rows info)) as [Hpos|Hzero].
      * split.
        -- simpl. by apply sublist_skip.
        -- intros e He. apply elem_of_cons in He as [->|He].
           ++ exists info. simpl. split; [by left|done].
           ++ destruct (IH2 e He) as (info' & Hin & Hrest).
              exists info'. split; [by right|done].
      * split.
        -- simpl. by apply sublist_cons.
        -- intros e He. destruct (IH2 e He) as (info' & Hin & Hrest).
           exists info'. split; [by right|done].
    + split.
      * simpl. by apply sublist_cons.
      * intros e He. destruct (IH2 e He) as (info' & Hin & Hrest).
        exists info'. split; [by right|done].
Qed.

Section Records.

Variable nfkd_ext : string -> string.
Variable read_csv : string -> string -> res DataFrame.
Variable path_join : string -> string -> string.
Variable basename : string -> string.

Lemma header_steps_NoDup df name hs :
  forall st, NoDup st.1.*1 -> NoDup (foldl (header_step nfkd_ext df name) st hs).1.*1.
Proof.
  induction hs as [|h hs IH]; intros st Hst; simpl; [done|].
  apply IH. unfold header_step.
  destruct (negb (Py.truthy (normalize_text nfkd_ext h))); [done|].
  destruct (index_of h (df_columns df)); [|done]. simpl. by apply dict_set_NoDup.
Qed.

Lemma analyze_file_NoDup fv file_path :
  NoDup (field_completion (analyze_file nfkd_ext read_csv basename fv file_path).1).*1.
Proof.
  destruct (read_any read_csv file_path encodings []) as [[df|] errs] eqn:Hread.
  - rewrite (analyze_file_read _ _ _ _ _ _ _ Hread). cbn [fst field_completion].
    apply header_steps_NoDup. apply NoDup_nil_2.
  - rewrite (analyze_file_unread _ _ _ _ _ _ Hread). apply NoDup_nil_2.
Qed.

Lemma analyze_all_NoDup dir files :
  forall a,
  Forall (fun entry : string * file_info => NoDup (field_completion entry.2).*1)
    (file_structures a) ->
  Forall (fun entry : string * file_info => NoDup (field_completion entry.2).*1)
    (file_structures (analyze_all nfkd_ext read_csv path_join basename dir a files)).
Proof.
  induction files as [|name files IH]; intros a Ha; simpl; [done|].
  apply IH. rewrite analyze_one_structures.
  apply dict_set_Forall; [done|]. apply analyze_file_NoDup.
Qed.

End Records.

(** ** The findings of the date check *)

Lemma check_date_unfold (value : string) :
  Py.strip value <> "" ->
  exists iso slash dash,
    Re.matches "\d{4}-\d{2}-\d{2}" (Py.strip value) = Val iso /\
    Re.matches "\d{1,2}/\d{1,2}/\d{2,4}" (Py.strip value) = Val slash /\
    Re.matches "\d{1,2}-\d{1,2}-\d{2,4}" (Py.strip value) = Val dash /\
    (iso = true -> slash = false /\ dash = false) /\
    (slash = true -> dash = false) /\
    match finding_of value with
    | Societies.iso_date | Societies.iso_date_invalid_range
    | Societies.iso_date_malformed => iso = true
    | Societies.slash_pattern => iso = false /\ slash = true
    | Societies.dash_pattern => iso = false /\ slash = false /\ dash = true
    | Societies.no_pattern => iso = false /\ slash = false /\ dash = false
    | Societies.blank | Societies.iso_too_few_parts => False
    end.
Proof.
  intros Hne.
  destruct (matches_val "\d{4}-\d{2}-\d{2}" (Py.strip value) _ eq_refl) as [iso Hiso].
  destruct (matches_val "\d{1,2}/\d{1,2}/\d{2,4}" (Py.strip value) _ eq_refl)
    as [slash Hslash].
  destruct (matches_val "\d{1,2}-\d{1,2}-\d{2,4}" (Py.strip value) _ eq_refl)
    as [dash Hdash].
  exists iso, slash, dash. split; [done|]. split; [done|]. split; [done|].
  assert (Hexcl1 : iso = true -> slash = false /\ dash = false).
  { intros ->. split.
    - destruct slash; [exfalso|done]. compiled_in Hiso; compiled_in Hslash.
      revert Hiso Hslash. generalize (Py.strip value). intros s. go_with by_space_loop.
    - destruct dash; [exfalso|done]. compiled_in Hiso; compiled_in Hdash.
      revert Hiso Hdash. generalize (Py.strip value). intros s. go_with by_space_loop. }
  assert (Hexcl2 : slash = true -> dash = false).
  { intros ->. destruct dash; [exfalso|done]. compiled_in Hslash; compiled_in Hdash.
    revert Hslash Hdash. generalize (Py.strip value). intros s.
    go_with by_space_loop. }
  split; [done|]. split; [done|].
  unfold finding_of, Societies.check_date.
  assert (Py.truthy value && Py.truthy (Py.strip value) = true) as ->.
  { apply andb_true_intro. split.
    - apply truthy_strip. by apply truthy_true.
    - by apply truthy_true. }
  rewrite Hiso, bind_val. destruct iso.
  - destruct (iso_shape_parts (Py.strip value) Hiso) as (g1 & g2 & g3 & rest & -> & _).
    cbn [length Nat.leb].
    destruct (parse_parts_cases g1 g2 g3 rest) as [(y & m & d & ->)| ->]; [|done].
    by destruct (_ || _).
  - rewrite Hslash, bind_val. destruct slash; [done|].
    rewrite Hdash, bind_val. by destruct dash.
Qed.

(** * Further statements *)

(** X1.  The field mapping in closed form.  When the observed headers
    are iterated without repetition and the registry names each field
    once, [create_field_mapping] never raises and lists the fields in
    registry order, each with the observed headers that are the normal
    form of one of its aliases, followed by the other observed headers
    that an alias accepts in the fuzzy pass, both in iteration order; no
    header occurs twice in the list of a field. *)
Theorem field_mapping_closed_form (nfkd_ext : string -> string)
    (registry : odict (list string)) (all_fields : list string) :
  NoDup all_fields -> NoDup registry.*1 ->
  create_field_mapping_of nfkd_ext registry all_fields =
    Val (map (fun entry => (entry.1, matched_for nfkd_ext all_fields entry.2)) registry) /\
  forall entry, entry ∈ registry ->
    NoDup (matched_for nfkd_ext all_fields entry.2).
Proof.
  intros Hall Hreg. by apply field_mapping_closed_form_aux.
Qed.

Lemma field_mapping_closed_form_witness :
  create_field_mapping_of (fun s => s)
    [("folio_no", ["Folio No"; "folio"]); ("file_year", ["year"])]
    ["folio no"; "folio number"; "year of file"; "gender"] =
  Val [("folio_no", ["folio no"; "folio number"]); ("file_year", ["year of file"])].
Proof.
  refine (proj1 (field_mapping_closed_form (fun s => s)
                   [("folio_no", ["Folio No"; "folio"]); ("file_year", ["year"])]
                   ["folio no"; "folio number"; "year of file"; "gender"] _ _)).
  - apply (bool_decide_unpack (NoDup _)). by vm_compute.
  - apply (bool_decide_unpack (NoDup _)). by vm_compute.
Defined.

(** X2.  Which headers a field gets is decided by the fuzzy test alone:
    an observed header is mapped to a field exactly when one of the
    field's aliases, normalised, contains it, is contained in it, or
    shares at least 0.7 of its words with it.  A header that equals a
    normalised alias passes this test too, so the exact pass only moves
    such headers to the front of the list. *)
Theorem field_mapping_membership (nfkd_ext : string -> string)
    (all_fields known : list string) (field : string) :
  NoDup all_fields ->
  exists matched,
    map_field nfkd_ext all_fields known = Val matched /\
    (field ∈ matched <->
     field ∈ all_fields /\
     exists alias, alias ∈ known /\
       (Py.contains (normalize_text nfkd_ext alias) field = true \/
        Py.contains field (normalize_text nfkd_ext alias) = true \/
        (7 # 10 <= token_overlap field (normalize_text nfkd_ext alias))%Q)).
Proof.
  intros Hnd. exists (matched_for nfkd_ext all_fields known).
  split; [by apply map_field_val|].
  rewrite matched_for_elem. unfold fuzzy_ok. rewrite existsb_exists.
  split; intros [Hin [alias Ha]]; (split; [done|]); exists alias.
  - destruct Ha as [Ha Hacc]. split; [by apply list_elem_of_In|].
    unfold accepts_alias in Hacc.
    rewrite !orb_true_iff, Qle_bool_iff in Hacc. tauto.
  - destruct Ha as [Ha Hacc]. split; [by apply list_elem_of_In|].
    unfold accepts_alias. rewrite !orb_true_iff, Qle_bool_iff. tauto.
Qed.

Lemma field_mapping_membership_witness :
  exists matched,
    map_field (fun s => s) ["date of death"; "folio no"; "death date"]
      ["Date of Death"; "died"] = Val matched /\
    ("death date" ∈ matched <->
     "death date" ∈ ["date of death"; "folio no"; "death date"] /\
     exists alias, alias ∈ ["Date of Death"; "died"] /\
       (Py.contains (normalize_text (fun s => s) alias) "death date" = true \/
        Py.contains "death date" (normalize_text (fun s => s) alias) = true \/
        (7 # 10 <= token_overlap "death date" (normalize_text (fun s => s) alias))%Q)).
Proof.
  apply (field_mapping_membership (fun s => s)).
  apply (bool_decide_unpack (NoDup _)). by vm_compute.
Defined.

(** X3.  Whatever was observed and in whatever order it is iterated,
    [create_field_mapping] does not raise; its result has one entry for
    each of the eighteen standard fields, in the order of
    [standard_fields] (fields without a match keep an empty list), and
    every header it lists is one of the observed ones. *)
Theorem create_field_mapping_total (nfkd_ext : string -> string)
    (iter_order : gset string -> list string) (a : analyzer) :
  exists mapping,
    create_field_mapping nfkd_ext iter_order a = Val mapping /\
    mapping.*1 = standard_fields.*1 /\
    length mapping = 18 /\
    forall field matched header,
      (field, matched) ∈ mapping -> header ∈ matched ->
      header ∈ iter_order (dom (field_variations a)).
Proof.
  destruct (create_field_mapping_of_total nfkd_ext standard_fields
              (iter_order (dom (field_variations a))) standard_fields_NoDup)
    as (mapping & Hmap & Hkeys & Hsub).
  exists mapping. split; [exact Hmap|]. split; [exact Hkeys|]. split; [|exact Hsub].
  by rewrite <- (length_fmap fst), Hkeys.
Qed.

(** X4.  The alias "no" of serial_number is a substring test like any
    other: with the standard registry every observed header that contains
    the letters "no" ("folio no", "pt cause no", "telephone no", "notes",
    ...) is listed under serial_number, whatever else it is listed
    under. *)
Theorem serial_number_takes_every_no (nfkd_ext : string -> string)
    (all_fields : list string) (header : string) :
  NoDup all_fields ->
  header ∈ all_fields ->
  Py.contains "no" header = true ->
  exists mapping matched,
    create_field_mapping_of nfkd_ext standard_fields all_fields = Val mapping /\
    dict_get mapping "serial_number" = Some matched /\
    header ∈ matched.
Proof.
  intros Hnd Hin Hno.
  destruct (field_mapping_closed_form_aux nfkd_ext standard_fields all_fields Hnd)
    as [Hmap _].
  { apply standard_fields_NoDup. }
  eexists _, _. split; [exact Hmap|]. split.
  - rewrite (dict_get_map (matched_for nfkd_ext all_fields)). reflexivity.
  - apply matched_for_elem. split; [done|].
    apply existsb_exists. exists "no". split; [simpl; tauto|].
    unfold accepts_alias.
    assert (normalize_text nfkd_ext "no" = "no") as -> by reflexivity.
    by rewrite Hno.
Qed.

Lemma serial_number_takes_every_no_witness :
  exists mapping matched,
    create_field_mapping_of (fun s => s) standard_fields
      ["folio no"; "name of the deceased"; "notes"] = Val mapping /\
    dict_get mapping "serial_number" = Some matched /\
    "folio no" ∈ matched.
Proof.
  apply (serial_number_takes_every_no (fun s => s)).
  - apply (bool_decide_unpack (NoDup _)). by vm_compute.
  - by left.
  - reflexivity.
Defined.

(** X5.  [analyze_csv_file] of the societies script returns [None] in
    exactly two cases: reading the file raised an exception (the file
    could not be opened, or the delimiter could not be determined), or
    the file was read and has fewer than two rows.  No exception escapes
    the column loop.  In every other case the analysis carries the file
    name, the first row as the columns, the shape (rows minus one, number
    of columns), the first three data rows as the sample, and as date
    issues the issues of the columns, column after column and row after
    row within a column. *)
Theorem analyze_csv_file_result (read_rows : string -> res (list (list string)))
    (file_path file_name : string) :
  (Societies.analyze_csv_file read_rows file_path file_name = None <->
   (exists e, read_rows file_path = Exc e) \/
   (exists rows, read_rows file_path = Val rows /\ length rows < 2)) /\
  forall a, Societies.analyze_csv_file read_rows file_path file_name = Some a ->
    exists rows,
      read_rows file_path = Val rows /\
      rows = Societies.columns a :: tail rows /\
      Societies.file_name a = file_name /\
      Societies.shape a = (length rows - 1, length (Societies.columns a)) /\
      Societies.sample_data a = take 3 (tail rows) /\
      Societies.date_issues a =
        concat (imap (column_issues (tail rows)) (Societies.columns a)).
Proof.
  unfold Societies.analyze_csv_file.
  destruct (read_rows file_path) as [rows|e]; [|split].
  - destruct rows as [|headers [|row data_rows]].
    + split; [|intros a H; discriminate H].
      split; [|done]. intros _. right. exists []. split; [done|]. simpl. lia.
    + split; [|intros a H; discriminate H].
      split; [|done]. intros _. right. exists [headers]. split; [done|]. simpl. lia.
    + rewrite analyze_rows_val. split.
      * split; [done|]. intros [[e He]|(rows & [= <-] & Hlen)]; [done|].
        simpl in Hlen. lia.
      * intros a [= <-]. exists (headers :: row :: data_rows).
        cbn [Societies.columns Societies.file_name Societies.shape
             Societies.sample_data Societies.date_issues tail].
        by repeat split.
  - split; [|done]. intros _. left. by exists e.
  - intros a H. discriminate H.
Qed.

Lemma analyze_csv_file_result_witness :
  let read_rows := fun path : string =>
    if String.eqb path "societies/names.csv"
    then Exc (OtherError "Could not determine delimiter")
    else Val [["name"; "reg_date"]; ["a"; "1954-20-20"]; ["b"];
              ["c"; "2001-02-28x"; "-"]] in
  Societies.analyze_csv_file read_rows "societies/names.csv" "names.csv" = None /\
  exists a,
    Societies.analyze_csv_file read_rows "societies/list.csv" "list.csv" = Some a /\
    Societies.shape a = (3, 2) /\
    Societies.date_issues a =
      [Societies.Date_issue 2 Societies.Invalid_date "1954-20-20" "reg_date";
       Societies.Date_issue 4 Societies.Malformed_date "2001-02-28x" "reg_date"].
Proof.
  intros read_rows. split.
  - apply (proj1 (analyze_csv_file_result read_rows "societies/names.csv" "names.csv")).
    left. by eexists.
  - eexists. split; [reflexivity|].
    destruct (proj2 (analyze_csv_file_result read_rows "societies/list.csv" "list.csv")
                _ eq_refl)
      as (rows & Hread & _ & _ & Hshape & _ & Hissues).
    injection Hread as <-.
    split; [exact Hshape|exact Hissues].
Defined.

(** X6.  For a file that was read and analysed, the table
    [column_stats] has one entry per distinct column name.  When a name occurs more than once, the entry describes the
    last column of that name.  In every entry the non-empty and the empty
    count add up to the number of data rows, the number of distinct
    values is at most the number of non-empty values and is positive when
    there is one, and the sample has three values or all there are. *)
Theorem column_stats_invariants (read_rows : string -> res (list (list string)))
    (file_path file_name : string) (rows : list (list string))
    (a : Societies.analysis) :
  read_rows file_path = Val rows ->
  Societies.analyze_csv_file read_rows file_path file_name = Some a ->
  NoDup (Societies.column_stats a).*1 /\
  (forall h, h ∈ (Societies.column_stats a).*1 <-> h ∈ Societies.columns a) /\
  forall h st, (h, st) ∈ Societies.column_stats a ->
    (exists col_idx,
       Societies.columns a !! col_idx = Some h /\
       st = stat_of (tail rows) col_idx /\
       forall j, col_idx < j -> Societies.columns a !! j <> Some h) /\
    Societies.stat_non_empty st + Societies.stat_empty st = length rows - 1 /\
    Societies.stat_unique st <= Societies.stat_non_empty st /\
    (0 < Societies.stat_non_empty st -> 0 < Societies.stat_unique st) /\
    length (Societies.stat_sample st) = min 3 (Societies.stat_non_empty st).
Proof.
  intros Hread. unfold Societies.analyze_csv_file. rewrite Hread.
  destruct rows as [|headers [|row data_rows]]; [done|done|].
  rewrite analyze_rows_val. intros [= <-].
  cbn [Societies.column_stats Societies.columns tail].
  destruct (stats_entries (row :: data_rows) headers) as (Hnd & Hkeys & Hent).
  split; [done|]. split; [done|].
  intros h st Hin. destruct (Hent h st Hin) as (i & Hi & -> & Hlast).
  split; [by exists i|].
  destruct (stat_of_invariants (row :: data_rows) i) as (H1 & H2 & H3 & H4 & _).
  split; [|done]. rewrite H1. simpl. lia.
Qed.

Lemma column_stats_invariants_witness :
  exists a st,
    Societies.analyze_csv_file
      (fun _ => Val [["date"; "name"; "date"]; ["2001-02-28"; "a"; ""];
                     ["2001-02-28"; "b"]])
      "societies/twice.csv" "twice.csv" = Some a /\
    (("date", st) ∈ Societies.column_stats a) /\
    Societies.stat_non_empty st + Societies.stat_empty st = 2 /\
    Societies.stat_unique st <= Societies.stat_non_empty st.
Proof.
  eexists _, (Societies.Column_stat 0 2 0 []).
  split; [reflexivity|].
  assert (Hin : ("date", Societies.Column_stat 0 2 0 []) ∈
                [("date", Societies.Column_stat 0 2 0 []);
                 ("name", Societies.Column_stat 2 0 2 ["a"; "b"])]) by left.
  split; [exact Hin|].
  destruct (proj2 (proj2 (column_stats_invariants
                     (fun _ => Val [["date"; "name"; "date"]; ["2001-02-28"; "a"; ""];
                                    ["2001-02-28"; "b"]])
                     "societies/twice.csv" "twice.csv" _ _ eq_refl eq_refl)) _ _ Hin)
    as (_ & Hsum & Huniq & _).
  split; [exact Hsum|exact Huniq].
Defined.

(** X7.  What is reported as a date issue of a file that was read and
    analysed.  An issue is in [date_issues] exactly when it names a column whose name marks it as a
    date column, a data row (numbered from 2, the header being row 1) and
    the stripped text of the cell of that row in that column, and the
    date check of that cell found a date out of range (an Invalid issue)
    or a group that is not a number (a Malformed issue).  A file has at
    most one issue per data row and date column. *)
Theorem date_issues_membership (read_rows : string -> res (list (list string)))
    (file_path file_name : string) (rows : list (list string))
    (a : Societies.analysis) :
  read_rows file_path = Val rows ->
  Societies.analyze_csv_file read_rows file_path file_name = Some a ->
  (forall issue,
     issue ∈ Societies.date_issues a <->
     exists col_idx row_idx row,
       Societies.columns a !! col_idx = Some (Societies.issue_column issue) /\
       Societies.is_date_column (Societies.issue_column issue) = true /\
       tail rows !! row_idx = Some row /\
       Societies.issue_row issue = row_idx + 2 /\
       Societies.issue_value issue = Py.strip (cell_text row col_idx) /\
       Societies.check_date (cell_text row col_idx) =
         Val (match Societies.issue_kind_of issue with
              | Societies.Invalid_date => Societies.iso_date_invalid_range
              | Societies.Malformed_date => Societies.iso_date_malformed
              end)) /\
  length (Societies.date_issues a) <=
    length (List.filter Societies.is_date_column (Societies.columns a)) *
    (length rows - 1).
Proof.
  intros Hread. unfold Societies.analyze_csv_file. rewrite Hread.
  destruct rows as [|headers [|row data_rows]]; [done|done|].
  rewrite analyze_rows_val. intros [= <-].
  cbn [Societies.date_issues Societies.columns tail].
  split.
  - intros issue. rewrite elem_of_concat_imap. split.
    + intros (i & h & Hi & Hin). unfold column_issues in Hin.
      destruct (Societies.is_date_column h) eqn:Hdate; [|by apply elem_of_nil in Hin].
      apply elem_of_concat_imap in Hin as (r & cells & Hr & Hin).
      apply report_elem in Hin as (Hc & Hrow & Hv & Hf).
      exists i, r, cells. rewrite Hc, check_date_val, Hf. by rewrite Hdate.
    + intros (i & r & cells & Hi & Hdate & Hr & Hrow & Hv & Hf).
      exists i, (Societies.issue_column issue). split; [done|].
      unfold column_issues. rewrite Hdate.
      apply elem_of_concat_imap. exists r, cells. split; [done|].
      apply report_elem. rewrite check_date_val in Hf. by injection Hf as ->.
  - replace (length (headers :: row :: data_rows) - 1)
      with (length (row :: data_rows)) by (simpl; lia).
    apply length_concat_imap. intros i h. unfold column_issues.
    destruct (Societies.is_date_column h); [|simpl; lia].
    apply length_concat_imap_1. intros. apply length_report.
Qed.

Lemma date_issues_membership_witness :
  exists a,
    Societies.analyze_csv_file
      (fun _ => Val [["name"; "reg_date"]; ["a"; "1954-20-20"]; ["b"];
                     ["c"; "2001-02-28x"; "-"]])
      "societies/societies.csv" "societies.csv" = Some a /\
    (Societies.Date_issue 4 Societies.Malformed_date "2001-02-28x" "reg_date"
       ∈ Societies.date_issues a) /\
    length (Societies.date_issues a) <= 1 * 3.
Proof.
  eexists. split; [reflexivity|].
  destruct (date_issues_membership
              (fun _ => Val [["name"; "reg_date"]; ["a"; "1954-20-20"]; ["b"];
                             ["c"; "2001-02-28x"; "-"]])
              "societies/societies.csv" "societies.csv" _ _ eq_refl eq_refl)
    as [Hmem Hlen].
  split; [|exact Hlen].
  apply Hmem. exists 1, 2, ["c"; "2001-02-28x"; "-"]. by repeat split.
Defined.

(** X8.  Of the four keywords that make a column a date column only
    "date" matters: a column is checked for dates exactly when its name
    in lower case contains "date", the other three keywords containing
    it. *)
Theorem is_date_column_date (col_name : string) :
  Societies.is_date_column col_name = Py.contains "date" (Py.lower col_name) /\
  (Societies.is_date_column col_name = true <->
   exists pre post, Py.lower col_name = pre +:+ "date" +:+ post).
Proof.
  assert (Heq : Societies.is_date_column col_name =
                Py.contains "date" (Py.lower col_name)).
  { unfold Societies.is_date_column, Societies.date_keywords. cbn [existsb].
    destruct (Py.contains "date" (Py.lower col_name)) eqn:Hdate; [done|].
    assert (Hno : forall keyword,
              Py.contains "date" keyword = true ->
              Py.contains keyword (Py.lower col_name) = false).
    { intros keyword Hk.
      destruct (Py.contains keyword (Py.lower col_name)) eqn:Hc; [|done].
      by rewrite (contains_trans _ _ _ Hk Hc) in Hdate. }
    by rewrite !Hno. }
  split; [done|]. rewrite Heq. apply contains_iff.
Qed.

(** X9.  The summary of [main] classifies an issue by searching its
    text.  An Invalid issue always counts as "Invalid date format".  A
    Malformed issue counts as "Malformed date" unless its value or its
    column name contains the words "Invalid date", in which case it
    counts as "Invalid date format" as well.  "Other date issue" never
    gets an entry, and the two counts add up to the number of issues. *)
Theorem issue_patterns_by_text (issues : list Societies.date_issue) :
  (forall i,
     issue_pattern (message i) =
       match Societies.issue_kind_of i with
       | Societies.Invalid_date => "Invalid date format"
       | Societies.Malformed_date =>
           if Py.contains "Invalid date" (Societies.issue_value i) ||
              Py.contains "Invalid date" (Societies.issue_column i)
           then "Invalid date format" else "Malformed date"
       end) /\
  let issue_patterns := count_patterns (map message issues) in
  issue_patterns !! "Other date issue" = None /\
  default 0 (issue_patterns !! "Invalid date format") +
    default 0 (issue_patterns !! "Malformed date") = length issues /\
  length (List.filter
            (fun i => match Societies.issue_kind_of i with
                      | Societies.Invalid_date => true
                      | Societies.Malformed_date => false
                      end) issues) <=
    default 0 (issue_patterns !! "Invalid date format").
Proof.
  split; [apply issue_pattern_message_eq|].
  unfold count_patterns. cbv zeta. split; [|rewrite !count_patterns_lookup,
    !lookup_empty; simpl; apply pattern_counts].
  apply eq_None_not_Some. intros H.
  apply count_patterns_keys in H as [H|(text & Hin & Hp)].
  - rewrite lookup_empty in H. by destruct H.
  - apply list_elem_of_fmap in Hin as (i & -> & _).
    rewrite issue_pattern_message_eq in Hp.
    destruct (Societies.issue_kind_of i); [done|]. by destruct (_ || _).
Qed.

(** X10.  [fuzzy_match] with a positive threshold is symmetric in its
    two names, and it sees a name only through its set of words without
    the stop words: the order of the words, repeated words and stop words
    make no difference.  With a threshold of at most 1 a name matches
    itself exactly when it has a word that is not a stop word. *)
Theorem fuzzy_match_symmetric (field1 field2 : string) (threshold : Q) :
  (0 < threshold)%Q ->
  fuzzy_match field1 field2 threshold = fuzzy_match field2 field1 threshold /\
  (forall other1 other2,
     key_words other1 = key_words field1 -> key_words other2 = key_words field2 ->
     fuzzy_match other1 other2 threshold = fuzzy_match field1 field2 threshold) /\
  ((threshold <= 1)%Q ->
   fuzzy_match field1 field1 threshold = Val (bool_decide (key_words field1 <> ∅))).
Proof.
  intros Hthr. rewrite !fuzzy_match_overlap by done.
  split; [by rewrite token_overlap_comm|]. split.
  - intros other1 other2 H1 H2. rewrite fuzzy_match_overlap by done.
    unfold token_overlap. by rewrite H1, H2.
  - intros Hle. f_equal. case_bool_decide as Hne.
    + apply Qle_bool_iff. by rewrite token_overlap_self.
    + apply not_true_is_false. rewrite Qle_bool_iff.
      unfold token_overlap. rewrite bool_decide_eq_true_2.
      * by apply Qlt_not_le.
      * left. by destruct (decide (key_words field1 = ∅)).
Qed.

Lemma fuzzy_match_symmetric_witness :
  fuzzy_match "date of death" "death date" (7 # 10) =
    fuzzy_match "death date" "date of death" (7 # 10) /\
  fuzzy_match "of the" "of the" (7 # 10) = Val false.
Proof.
  destruct (fuzzy_match_symmetric "date of death" "death date" (7 # 10) eq_refl)
    as [Hsym _].
  destruct (fuzzy_match_symmetric "of the" "of the" (7 # 10) eq_refl)
    as (_ & _ & Hself).
  split; [exact Hsym|].
  rewrite Hself; [|discriminate]. reflexivity.
Defined.

(** X11.  On ASCII text the words of a normalised header are the
    lower-cased words of the header.  Two headers have the same normal
    form exactly when their lower-cased word lists are equal, and the
    normal form is empty exactly when the header has no word. *)
Theorem normalize_text_equal (nfkd_ext : string -> string) (x y : string) :
  Py.isascii x = true -> Py.isascii y = true ->
  Py.split (normalize_text nfkd_ext x) = map Py.lower (Py.split x) /\
  (normalize_text nfkd_ext x = normalize_text nfkd_ext y <->
   map Py.lower (Py.split x) = map Py.lower (Py.split y)) /\
  (normalize_text nfkd_ext x = "" <-> Py.split x = []).
Proof.
  intros Hx Hy. split; [by apply split_normalized|]. split.
  - split.
    + intros Heq. rewrite <- !(split_normalized nfkd_ext) by done. by rewrite Heq.
    + intros Heq. rewrite !normalize_text_ascii by done. by rewrite Heq.
  - split.
    + intros Heq. pose proof (split_normalized nfkd_ext x Hx) as Hs.
      rewrite Heq in Hs. simpl in Hs. symmetry in Hs.
      by apply map_eq_nil in Hs.
    + intros Heq. rewrite normalize_text_ascii by done. by rewrite Heq.
Qed.

Lemma normalize_text_equal_witness :
  normalize_text (fun s => s) "  Date of   DEATH " =
    normalize_text (fun s => s) "date of death" /\
  Py.split "   " = [].
Proof.
  destruct (normalize_text_equal (fun s => s) "  Date of   DEATH " "date of death"
              eq_refl eq_refl) as (_ & Heq & _).
  destruct (normalize_text_equal (fun s => s) "   " "" eq_refl eq_refl)
    as (_ & _ & Hblank).
  split; [by apply Heq|by apply Hblank].
Defined.

(** X12.  [run_analysis] raises exactly when listing the directory
    raises, and then with that exception; nothing after the listing can
    raise.  When the directory is listed, the summary counts every file
    of the listing whose name ends in .csv in any letter case, readable
    or not, and adds up the rows of the frames that were read; the file
    table has exactly one entry for each such name, and the field mapping
    has the standard fields as its keys. *)
Theorem run_analysis_summary (nfkd_ext : string -> string)
    (read_csv : string -> string -> res DataFrame)
    (path_join : string -> string -> string) (basename : string -> string)
    (iter_order : gset string -> list string)
    (listdir : string -> res (list string)) (csv_directory : string) :
  (forall e,
     listdir csv_directory = Exc e ->
     run_analysis nfkd_ext read_csv path_join basename iter_order listdir
       csv_directory = Exc e) /\
  (forall listing,
     listdir csv_directory = Val listing ->
     exists r,
       run_analysis nfkd_ext read_csv path_join basename iter_order listdir
         csv_directory = Val r /\
       s_files_analyzed (r_summary r) = length (csv_files_of listing) /\
       s_total_records (r_summary r) =
         sum_list (map (fun name => rows_read read_csv (path_join csv_directory name))
                     (csv_files_of listing)) /\
       NoDup (r_file_structures r).*1 /\
       (forall name,
          name ∈ (r_file_structures r).*1 <-> name ∈ csv_files_of listing) /\
       (r_field_mapping r).*1 = standard_fields.*1).
Proof.
  unfold run_analysis. split.
  - intros e ->. reflexivity.
  - intros listing ->. rewrite bind_val.
    set (a := analyze_all nfkd_ext read_csv path_join basename csv_directory
                new_analyzer (csv_files_of listing)).
    destruct (create_field_mapping_of_total nfkd_ext standard_fields
                (iter_order (dom (field_variations a))) standard_fields_NoDup)
      as (mapping & Hmap & Hkeys & _).
    destruct (analyze_data_quality_entries a) as (quality & Hq & _).
    unfold create_field_mapping. cbv zeta. fold a. rewrite Hmap, bind_val, Hq.
    eexists. split; [reflexivity|].
    cbn [r_summary s_files_analyzed s_total_records r_file_structures r_field_mapping].
    destruct (analyze_all_counters nfkd_ext read_csv path_join basename csv_directory
                (csv_files_of listing) new_analyzer) as [Hn Hrows].
    destruct (analyze_all_structures nfkd_ext read_csv path_join basename csv_directory
                (csv_files_of listing) new_analyzer) as [Hnd Hnames];
      [apply NoDup_nil_2|].
    fold a in Hn, Hrows, Hnd, Hnames.
    split; [by rewrite Hn|]. split; [by rewrite Hrows|]. split; [done|].
    split; [|done]. intros name. rewrite Hnames.
    change (file_structures new_analyzer) with (@nil (string * file_info)).
    rewrite fmap_nil, elem_of_nil. tauto.
Qed.

Lemma run_analysis_summary_witness :
  run_analysis (fun s => s) example_read_csv example_join example_basename elements
    (fun _ => Exc (OtherError "No such file or directory")) "missing" =
    Exc (OtherError "No such file or directory") /\
  exists r,
    run_analysis (fun s => s) example_read_csv example_join example_basename elements
      (fun _ => Val ["2019.csv"; "notes.txt"; "2020.CSV"]) "trustees" = Val r /\
    s_files_analyzed (r_summary r) = 2.
Proof.
  split.
  - apply (proj1 (run_analysis_summary (fun s => s) example_read_csv example_join
                    example_basename elements
                    (fun _ => Exc (OtherError "No such file or directory")) "missing")).
    reflexivity.
  - destruct (proj2 (run_analysis_summary (fun s => s) example_read_csv example_join
                       example_basename elements
                       (fun _ => Val ["2019.csv"; "notes.txt"; "2020.CSV"]) "trustees")
                _ eq_refl) as (r & Hr & Hn & _).
    exists r. split; [exact Hr|exact Hn].
Defined.

(** X13.  The field-variation index after a batch.  A file name is
    recorded under a normalised header exactly when the header is not
    empty and the batch has a readable file, of that base name, one of
    whose column labels normalises to it.  The empty name is never a key,
    and no key stands for an empty set of files. *)
Theorem field_variations_membership (nfkd_ext : string -> string)
    (read_csv : string -> string -> res DataFrame)
    (path_join : string -> string -> string) (basename : string -> string)
    (csv_directory : string) (csv_files : list string) (nh file : string) :
  let a := analyze_all nfkd_ext read_csv path_join basename csv_directory
             new_analyzer csv_files in
  (file ∈ default ∅ (field_variations a !! nh) <->
   nh <> "" /\
   exists name df errs header,
     name ∈ csv_files /\
     read_any read_csv (path_join csv_directory name) encodings [] = (Some df, errs) /\
     header ∈ df_columns df /\ normalize_text nfkd_ext header = nh /\
     file = basename (path_join csv_directory name)) /\
  field_variations a !! "" = None /\
  (forall files, field_variations a !! nh = Some files -> files <> ∅).
Proof.
  intros a. subst a.
  assert (Hmem : forall nh' file',
    file' ∈ default ∅
      (field_variations
         (analyze_all nfkd_ext read_csv path_join basename csv_directory
            new_analyzer csv_files) !! nh') <->
    nh' <> "" /\
    exists name df errs header,
      name ∈ csv_files /\
      read_any read_csv (path_join csv_directory name) encodings [] = (Some df, errs) /\
      header ∈ df_columns df /\ normalize_text nfkd_ext header = nh' /\
      file' = basename (path_join csv_directory name)).
  { intros nh' file'. rewrite analyze_all_variations.
    change (field_variations new_analyzer) with (∅ : gmap string (gset string)).
    rewrite lookup_empty. cbn [from_option]. rewrite elem_of_empty. tauto. }
  split; [apply Hmem|].
  assert (Hkeyed := analyze_all_keyed nfkd_ext read_csv path_join basename
                      csv_directory csv_files new_analyzer).
  split.
  - apply eq_None_not_Some. intros [files Hfiles].
    apply Hkeyed in Hfiles as [Hne _]; [done|apply keyed_empty].
  - intros files Hfiles.
    apply Hkeyed in Hfiles as [_ Hne]; [done|apply keyed_empty].
Qed.

Lemma field_variations_membership_witness :
  "2019.csv" ∈
    default ∅
      (field_variations
         (analyze_all (fun s => s) example_read_csv example_join example_basename
            "trustees" new_analyzer ["2019.csv"; "2020.csv"]) !! "folio no").
Proof.
  apply (proj1 (field_variations_membership (fun s => s) example_read_csv example_join
                  example_basename "trustees" ["2019.csv"; "2020.csv"]
                  "folio no" "2019.csv")).
  split; [done|].
  exists "2019.csv", example_frame, [], "Folio No".
  split; [by left|]. split; [reflexivity|]. split; [by right; left|].
  split; reflexivity.
Defined.

(** X14.  The encoding loop of [analyze_file] returns the frame of the
    first encoding that reads the file, and no frame exactly when no
    encoding reads it.  The error notes it leaves are those of the
    attempts made before, one for each failure other than a decoding
    error, in the order of the attempts. *)
Theorem read_any_first_success (read_csv : string -> string -> res DataFrame)
    (file_path : string) (encs : list string) (errs : list file_error) :
  (forall df errs',
     read_any read_csv file_path encs errs = (Some df, errs') <->
     exists pre encoding post,
       encs = pre ++ encoding :: post /\
       read_csv file_path encoding = Val df /\
       unreadable read_csv file_path pre /\
       errs' = errs ++ encoding_notes read_csv file_path pre) /\
  (forall errs',
     read_any read_csv file_path encs errs = (None, errs') <->
     unreadable read_csv file_path encs /\
     errs' = errs ++ encoding_notes read_csv file_path encs).
Proof.
  assert (Hfound : forall pre encoding post df,
            encs = pre ++ encoding :: post ->
            read_csv file_path encoding = Val df ->
            unreadable read_csv file_path pre ->
            read_any read_csv file_path encs errs =
              (Some df, errs ++ encoding_notes read_csv file_path pre)).
  { intros pre encoding post df -> Henc Hpre.
    rewrite read_any_fail by done. simpl. by rewrite Henc. }
  assert (Hnone : unreadable read_csv file_path encs ->
            read_any read_csv file_path encs errs =
              (None, errs ++ encoding_notes read_csv file_path encs)).
  { intros Hall. rewrite <- (app_nil_r encs) at 1. by rewrite read_any_fail. }
  split.
  - intros df errs'. split.
    + intros Hread.
      destruct (read_any_cases read_csv file_path encs)
        as [(pre & encoding & post & df' & Hencs & Henc & Hpre)|Hall].
      * rewrite (Hfound _ _ _ _ Hencs Henc Hpre) in Hread.
        injection Hread as -> <-. by exists pre, encoding, post.
      * rewrite (Hnone Hall) in Hread. discriminate Hread.
    + intros (pre & encoding & post & Hencs & Henc & Hpre & ->).
      by apply (Hfound pre encoding post).
  - intros errs'. split.
    + intros Hread.
      destruct (read_any_cases read_csv file_path encs)
        as [(pre & encoding & post & df' & Hencs & Henc & Hpre)|Hall].
      * rewrite (Hfound _ _ _ _ Hencs Henc Hpre) in Hread. discriminate Hread.
      * rewrite (Hnone Hall) in Hread. by injection Hread as <-.
    + intros [Hall ->]. by apply Hnone.
Qed.

Lemma read_any_first_success_witness :
  read_any example_read_csv "trustees/2020.csv" encodings [] =
    (None, [Encoding_error "latin-1" (OtherError "Error tokenizing data");
            Encoding_error "cp1252" (OtherError "Error tokenizing data");
            Encoding_error "iso-8859-1" (OtherError "Error tokenizing data")]).
Proof.
  apply (proj2 (read_any_first_success example_read_csv "trustees/2020.csv"
                  encodings [])).
  split; [|reflexivity].
  intros encoding _ df. unfold example_read_csv. simpl.
  by destruct (String.eqb encoding "utf-8").
Defined.

(** X15.  The progress report of a batch has one line per file, in the
    order of the batch.  The line reports the file as analysed, with its
    numbers of rows and columns, exactly when the file was read without
    any error note; a file read at a later attempt after a failure other
    than a decoding error is reported under its errors, although its
    analysis is complete. *)
Theorem progress_report (nfkd_ext : string -> string)
    (read_csv : string -> string -> res DataFrame)
    (path_join : string -> string -> string) (basename : string -> string)
    (csv_directory : string) (csv_files : list string) :
  let a := analyze_all nfkd_ext read_csv path_join basename csv_directory
             new_analyzer csv_files in
  printed a =
    map (fun name => line_of read_csv (path_join csv_directory name) name) csv_files /\
  map log_name (printed a) = csv_files /\
  (forall name rows columns,
     Log_analyzed name rows columns ∈ printed a <->
     name ∈ csv_files /\
     exists df,
       read_any read_csv (path_join csv_directory name) encodings [] = (Some df, []) /\
       rows = length (df_rows df) /\ columns = length (df_columns df)).
Proof.
  intros a. subst a. rewrite analyze_all_lines.
  change (printed new_analyzer) with (@nil log_line). rewrite app_nil_l.
  split; [done|]. split.
  - rewrite <- list_fmap_compose. rewrite <- (list_fmap_id csv_files) at 2.
    apply list_fmap_ext. intros _ name _. simpl. unfold line_of.
    destruct (read_any _ _ _ _) as [[df|] [|e errs]]; done.
  - intros name rows columns. rewrite list_elem_of_fmap. split.
    + intros (name' & Hline & Hin). unfold line_of in Hline.
      destruct (read_any read_csv (path_join csv_directory name') encodings [])
        as [[df|] [|e errs]] eqn:Hread; try discriminate Hline.
      injection Hline as -> -> ->. split; [done|]. by exists df.
    + intros (Hin & df & Hread & -> & ->). exists name. split; [|done].
      unfold line_of. by rewrite Hread.
Qed.

(** X16.  The schema that [generate_schema_recommendations] proposes
    lists, in the order of the standard fields, exactly the fields to
    which some observed header was mapped.  file_year and serial_number
    are typed INTEGER and every other field TEXT: with the standard
    fields the DECIMAL and JSONB branches are never taken. *)
Theorem database_schema_types (nfkd_ext : string -> string)
    (iter_order : gset string -> list string) (a : analyzer)
    (mapping : odict (list string)) :
  create_field_mapping nfkd_ext iter_order a = Val mapping ->
  database_schema mapping =
    map (fun entry : string * list string =>
           (entry.1,
            if bool_decide (entry.1 ∈ ["file_year"; "serial_number"]) then "INTEGER"
            else "TEXT"))
      (List.filter
         (fun entry : string * list string =>
            match entry.2 with [] => false | _ :: _ => true end)
         mapping) /\
  forall field type,
    (field, type) ∈ database_schema mapping ->
    (type = "INTEGER" \/ type = "TEXT") /\
    exists header matched,
      (field, matched) ∈ mapping /\ header ∈ matched /\
      header ∈ iter_order (dom (field_variations a)).
Proof.
  intros Hmap.
  destruct (create_field_mapping_of_total nfkd_ext standard_fields
              (iter_order (dom (field_variations a))) standard_fields_NoDup)
    as (mapping' & Hmap' & Hkeys & Hsub).
  unfold create_field_mapping in Hmap. rewrite Hmap' in Hmap. injection Hmap as ->.
  assert (Hschema : database_schema mapping =
    map (fun entry : string * list string =>
           (entry.1,
            if bool_decide (entry.1 ∈ ["file_year"; "serial_number"]) then "INTEGER"
            else "TEXT"))
      (List.filter
         (fun entry : string * list string =>
            match entry.2 with [] => false | _ :: _ => true end)
         mapping)).
  { unfold database_schema. rewrite schema_loop.
    - cbn [app]. apply map_ext_in. intros [k matched] Hin. cbn [fst]. f_equal.
      apply filter_In in Hin as [Hin _].
      pose proof standard_column_types as Htypes. rewrite <- Hkeys in Htypes.
      rewrite Forall_forall in Htypes. apply Htypes.
      apply list_elem_of_fmap. exists (k, matched). split; [done|].
      by apply list_elem_of_In.
    - rewrite Hkeys. apply standard_fields_NoDup.
    - intros k _. apply not_elem_of_nil. }
  split; [done|]. intros field type Hin. rewrite Hschema in Hin.
  apply list_elem_of_fmap in Hin as ([k matched] & [= -> ->] & Hin).
  apply list_elem_of_In, filter_In in Hin as [Hin Hne]. apply list_elem_of_In in Hin.
  cbn [fst snd] in *. split; [case_bool_decide; tauto|].
  destruct matched as [|header matched]; [done|].
  exists header, (header :: matched). split; [done|]. split; [by left|].
  apply (Hsub k (header :: matched)); [done|by left].
Qed.

Lemma database_schema_types_witness :
  exists mapping,
    create_field_mapping (fun s => s) (fun _ => ["year"; "name"]) new_analyzer =
      Val mapping /\
    database_schema mapping = [("deceased_name", "TEXT"); ("file_year", "INTEGER")].
Proof.
  eexists. split; [by vm_compute|].
  match goal with
  | |- database_schema ?m = _ =>
      assert (Hmap : create_field_mapping (fun s => s) (fun _ => ["year"; "name"])
                       new_analyzer = Val m) by (by vm_compute);
      rewrite (proj1 (database_schema_types _ _ _ _ Hmap))
  end.
  by vm_compute.
Defined.

(** X17.  The date samples of a column are, in order, exactly the
    sample values whose stripped text some pattern of [date_formats]
    matches, each with the name of the first pattern that matches it.  A
    blank value is never a sample, and no sample carries the unknown
    tag. *)
Theorem date_samples_found (sample_values : list string) :
  date_samples_of sample_values =
    Val (map (fun v => Date_sample v (format_of v))
           (List.filter some_format_matches sample_values)) /\
  (forall v, Py.strip v = "" -> some_format_matches v = false) /\
  (forall v, some_format_matches v = true ->
     format_of v <> "unknown_format" /\
     exists i pattern,
       date_formats !! i = Some pattern /\
       format_of v = format_name i pattern /\
       Re.matches pattern (Py.strip v) = Val true /\
       forall j q, j < i -> date_formats !! j = Some q ->
                   Re.matches q (Py.strip v) = Val false).
Proof.
  split; [apply date_samples_of_val|]. split; [apply no_format_for_blank|].
  intros v Hv. destruct (proj2 (date_sample_step v) Hv) as (i & pattern & Hi & Hf & Hm).
  split; [|by exists i, pattern].
  rewrite Hf. destruct (format_name_head i pattern) as [rest ->]. discriminate.
Qed.

Lemma date_samples_found_witness :
  date_samples_of ["12/05/1998"; "  "; "unknown"; " 2001-02-28 "] =
    Val [Date_sample "12/05/1998" "format_0_^\d{1,2}/\d{1,2}/\d{2,4}$";
         Date_sample " 2001-02-28 " "format_3_^\d{4}-\d{2}-\d{2}"] /\
  format_of "4/4/24/23" <> "unknown_format".
Proof.
  destruct (date_samples_found ["12/05/1998"; "  "; "unknown"; " 2001-02-28 "])
    as (Hval & _ & _).
  destruct (date_samples_found []) as (_ & _ & Hname).
  split; [exact Hval|]. apply (Hname "4/4/24/23"). reflexivity.
Defined.

(** X18.  The value tables of [analyze_file].  The definition that
    carries the tables, [analyze_file_full], agrees with [analyze_file] on
    the counts, the headers, the errors and the field-variation index.
    For a file that was read, every entry of [field_samples],
    [unique_values] and [date_fields] belongs to a column whose label
    normalises to the entry's key: the sample holds the values among the
    first ten of the column that are not blank, the unique values are
    recorded only for a column of at most fifty distinct values, and the
    date samples are recorded only when there is one.  For a file that
    was not read the three tables are empty. *)
Theorem analyze_file_full_tables (nfkd_ext : string -> string)
    (read_csv : string -> string -> res DataFrame) (basename : string -> string)
    (fv : gmap string (gset string)) (file_path : string) :
  let full := analyze_file_full nfkd_ext read_csv basename fv file_path in
  (fi_info full.1, full.2) = analyze_file nfkd_ext read_csv basename fv file_path /\
  (forall df errs,
     read_any read_csv file_path encodings [] = (Some df, errs) ->
     tables_of nfkd_ext df (fi_field_samples full.1) (fi_unique_values full.1)
       (fi_date_fields full.1)) /\
  (forall errs,
     read_any read_csv file_path encodings [] = (None, errs) ->
     fi_field_samples full.1 = [] /\ fi_unique_values full.1 = [] /\
     fi_date_fields full.1 = []).
Proof.
  intros full. subst full. unfold analyze_file_full.
  destruct (read_any read_csv file_path encodings []) as [[df|] errs] eqn:Hread.
  - rewrite (analyze_file_read _ _ _ _ _ _ _ Hread).
    destruct (sample_headers_ok nfkd_ext df (basename file_path) (df_columns df)
                (fun h Hh => Hh) (Tables [] [] [] [] fv))
      as (t' & -> & Hsteps & Hinv).
    cbn [t_field_completion t_field_variations t_field_samples t_unique_values
         t_date_fields] in Hsteps, Hinv.
    cbn [fst snd fi_info fi_field_samples fi_unique_values fi_date_fields].
    split; [|split].
    + cbv zeta. assert (H1 := f_equal fst Hsteps). assert (H2 := f_equal snd Hsteps).
      cbn [fst snd] in H1, H2. rewrite H1, H2. reflexivity.
    + intros df' errs' [= <- <-]. apply Hinv.
      split; [|split]; intros nh x Hx; by apply elem_of_nil in Hx.
    + intros errs' H. discriminate H.
  - rewrite (analyze_file_unread _ _ _ _ _ _ Hread). split; [done|]. split.
    + intros df' errs' H. discriminate H.
    + done.
Qed.

Lemma analyze_file_full_tables_witness :
  let full := analyze_file_full (fun s => s) example_read_csv example_basename ∅
                "trustees/2019.csv" in
  tables_of (fun s => s) example_frame (fi_field_samples full.1)
    (fi_unique_values full.1) (fi_date_fields full.1).
Proof.
  exact (proj1 (proj2 (analyze_file_full_tables (fun s => s) example_read_csv
                         example_basename ∅ "trustees/2019.csv"))
           example_frame [] eq_refl).
Defined.

(** X19.  [analyze_date_patterns] loses and invents nothing.  The count
    of a format is the number of date samples of all files that carry it,
    and the list of a date type holds, in the order of the files and
    fields, the samples of the fields whose name selects that type (the
    first of death, advertisement, confirmation, payment, account that
    the name contains, other_dates without one).  No format is recorded
    with a count of zero, and no other type than these six occurs. *)
Theorem analyze_date_patterns_counts (files : odict full_info) :
  let d := analyze_date_patterns files in
  (forall f,
     default 0 (formats_found d !! f) =
       length (List.filter (fun s : string * date_sample =>
                              String.eqb (sample_format s.2) f) (all_samples files))) /\
  (forall t,
     default [] (date_fields_by_type d !! t) =
       map snd (List.filter (fun s : string * date_sample =>
                               String.eqb (date_type s.1) t) (all_samples files))) /\
  (forall f, formats_found d !! f <> Some 0) /\
  (forall t, is_Some (date_fields_by_type d !! t) -> t ∈ date_types).
Proof.
  intros d. subst d. rewrite analyze_date_patterns_flat.
  destruct (count_samples_lookup (all_samples files) (Date_analysis ∅ ∅)) as [Hf Ht].
  destruct (count_samples_keys (all_samples files) (Date_analysis ∅ ∅)) as [Kf Kt].
  cbn zeta in Hf, Ht, Kf, Kt. split; [|split; [|split]].
  - intros f. rewrite Hf. simpl. by rewrite lookup_empty.
  - intros t. rewrite Ht. simpl. by rewrite lookup_empty.
  - intros f H0. apply Kf in H0 as [H0|H0]; [|lia].
    simpl in H0. by rewrite lookup_empty in H0.
  - intros t Hsome. apply Kt in Hsome as [Hsome|Hin]; [|done].
    simpl in Hsome. rewrite lookup_empty in Hsome. by destruct Hsome.
Qed.

(** X20.  [convert_sets] of [save_results] leaves no set at any depth
    of dictionaries and lists, converting a second time changes nothing,
    and a value without sets is returned as it is. *)
Theorem convert_sets_no_set (o : obj) :
  has_set (convert_sets o) = false /\
  convert_sets (convert_sets o) = convert_sets o /\
  (has_set o = false -> convert_sets o = o).
Proof.
  induction o as [text|elements|items IH|items IH] using obj_nested_ind.
  - done.
  - simpl. split; [apply existsb_leaves|]. split; [|done].
    by rewrite convert_leaves.
  - cbn [convert_sets has_set]. induction IH as [|[k v] items (Hv1 & Hv2 & Hv3) _ IHitems].
    + done.
    + destruct IHitems as (H1 & H2 & H3). cbn [fst snd] in *. simpl. split; [|split].
      * rewrite Hv1. exact H1.
      * rewrite Hv2. by injection H2 as ->.
      * intros Hno. apply orb_false_elim in Hno as [Hv Hitems].
        rewrite (Hv3 Hv). by injection (H3 Hitems) as ->.
  - cbn [convert_sets has_set]. induction IH as [|v items (Hv1 & Hv2 & Hv3) _ IHitems].
    + done.
    + destruct IHitems as (H1 & H2 & H3). simpl. split; [|split].
      * rewrite Hv1. exact H1.
      * rewrite Hv2. by injection H2 as ->.
      * intros Hno. apply orb_false_elim in Hno as [Hv Hitems].
        rewrite (Hv3 Hv). by injection (H3 Hitems) as ->.
Qed.

Lemma convert_sets_no_set_witness :
  convert_sets (O_dict [("summary", O_leaf "3")]) = O_dict [("summary", O_leaf "3")] /\
  has_set (convert_sets
             (O_dict [("unique_values", O_dict [("gender", O_set ["F"; "M"])])])) = false.
Proof.
  split.
  - apply (convert_sets_no_set (O_dict [("summary", O_leaf "3")])). reflexivity.
  - apply (convert_sets_no_set
             (O_dict [("unique_values", O_dict [("gender", O_set ["F"; "M"])])])).
Defined.

(** X21.  In the completeness report after a batch every file has at
    most one record under a field.  The records of a field name distinct
    files, in the order of the file table, so there are at most as many
    as files in the batch; each gives the count that the file's
    [field_completion] holds for the field and, as total, the number of
    rows of the file that are not blank, which is positive. *)
Theorem one_record_per_file (nfkd_ext : string -> string)
    (read_csv : string -> string -> res DataFrame)
    (path_join : string -> string -> string) (basename : string -> string)
    (csv_directory : string) (csv_files : list string) (field : string) :
  let a := analyze_all nfkd_ext read_csv path_join basename csv_directory
             new_analyzer csv_files in
  exists by_field,
    analyze_data_quality a = Val by_field /\
    let entries := default [] (by_field !! field) in
    NoDup (map c_file entries) /\
    map c_file entries `sublist_of` (file_structures a).*1 /\
    length entries <= length csv_files /\
    forall e, e ∈ entries ->
      exists info,
        (c_file e, info) ∈ file_structures a /\
        dict_get (field_completion info) field = Some (c_filled_records e) /\
        c_total_records e = non_empty_rows info /\ 0 < non_empty_rows info.
Proof.
  intros a.
  destruct (analyze_data_quality_entries a) as (by_field & Hq & Hentries).
  exists by_field. split; [done|]. cbn zeta. rewrite Hentries.
  destruct (analyze_all_structures nfkd_ext read_csv path_join basename csv_directory
              csv_files new_analyzer) as [Hnd Hnames]; [apply NoDup_nil_2|].
  fold a in Hnd, Hnames.
  destruct (entries_of_files (file_structures a) field) as [Hsub Hrec].
  { apply analyze_all_NoDup. apply Forall_nil_2. }
  split; [by apply (sublist_NoDup _ _ Hnd Hsub)|]. split; [done|]. split; [|done].
  apply sublist_length in Hsub. rewrite !length_map in Hsub.
  etrans; [exact Hsub|].
  assert (Hlen : forall (l : list string) (k : list string),
            NoDup l -> (forall x, x ∈ l -> x ∈ k) -> length l <= length k).
  { intros l k Hl Hlk. apply submseteq_length, NoDup_submseteq; done. }
  rewrite <- (length_map fst). apply Hlen; [done|].
  intros name Hname. apply Hnames in Hname as [Hname|Hname]; [|done].
  by apply elem_of_nil in Hname.
Qed.

(** X22.  The ten patterns of [date_formats] exclude one another: no
    text is matched by two of them.  So the order in which
    [detect_date_format] tries them does not matter, and none of them
    shadows a later one: a value that is not blank gets the name of a
    pattern exactly when that pattern matches its stripped text. *)
Theorem date_formats_exclusive (value : string) :
  (forall i j p q,
     date_formats !! i = Some p -> date_formats !! j = Some q ->
     Re.matches p value = Val true -> Re.matches q value = Val true -> i = j) /\
  (forall i p,
     Py.strip value <> "" -> date_formats !! i = Some p ->
     (detect_date_format value = Val (Some (format_name i p)) <->
      Re.matches p (Py.strip value) = Val true)).
Proof.
  assert (Hapart : forall s i j p q,
            date_formats !! i = Some p -> date_formats !! j = Some q ->
            Re.matches p s = Val true -> Re.matches q s = Val true -> i = j).
  { intros s i j p q Hi Hj Hp Hq.
    destruct (Nat.lt_trichotomy i j) as [Hlt|[Heq|Hgt]]; [|done|].
    - destruct (formats_apart s i j p q Hlt Hi Hj Hp Hq).
    - destruct (formats_apart s j i q p Hgt Hj Hi Hq Hp). }
  split; [apply Hapart|].
  intros i p Hne Hi. rewrite (detect_nonblank value Hne).
  destruct (first_format_cases date_formats (Py.strip value) date_formats_compile 0)
    as [(k & pattern & Hk & Hm & _ & ->)|[Hnone ->]].
  - change (0 + k) with k.
    change (Some <$> Val (format_name k pattern))
      with (Val (Some (format_name k pattern))).
    split.
    + intros Heq. assert (format_name k pattern = format_name i p) as Hname
        by congruence.
      assert (k = i) as -> by by apply (format_names_differ k i pattern p).
      rewrite Hk in Hi. by injection Hi as <-.
    + intros Hp. assert (k = i) as -> by by apply (Hapart (Py.strip value) k i pattern p).
      rewrite Hk in Hi. by injection Hi as <-.
  - change (Some <$> Val "unknown_format") with (Val (Some "unknown_format")).
    split.
    + intros Heq. destruct (format_name_head i p) as [rest Hrest].
      rewrite Hrest in Heq. discriminate Heq.
    + intros Hp. by rewrite (Hnone i p Hi) in Hp.
Qed.

Lemma date_formats_exclusive_witness :
  detect_date_format " 25/6/ " = Val (Some (format_name 7 "^\d{1,2}/\d{1,2}/$")).
Proof.
  apply (proj2 (date_formats_exclusive " 25/6/ ") 7 "^\d{1,2}/\d{1,2}/$");
    [discriminate|reflexivity|reflexivity].
Defined.

(** X23.  The findings of the date check of the societies script.  The
    finding is blank exactly when the cell is empty or white space.  The
    guard on the number of dash-separated parts never fails: a text of
    ISO shape always has three parts.  Otherwise the finding follows the
    three patterns: an ISO finding when the ISO pattern matches, the
    slash pattern, the dash pattern, or none.  The three patterns exclude
    one another, so the order of the tests does not matter. *)
Theorem check_date_findings (value : string) :
  (Societies.check_date value = Val Societies.blank <-> Py.strip value = "") /\
  Societies.check_date value <> Val Societies.iso_too_few_parts /\
  (Py.strip value <> "" ->
   exists iso slash dash,
     Re.matches "\d{4}-\d{2}-\d{2}" (Py.strip value) = Val iso /\
     Re.matches "\d{1,2}/\d{1,2}/\d{2,4}" (Py.strip value) = Val slash /\
     Re.matches "\d{1,2}-\d{1,2}-\d{2,4}" (Py.strip value) = Val dash /\
     (iso = true -> slash = false /\ dash = false) /\
     (slash = true -> dash = false) /\
     match finding_of value with
     | Societies.iso_date | Societies.iso_date_invalid_range
     | Societies.iso_date_malformed => iso = true
     | Societies.slash_pattern => iso = false /\ slash = true
     | Societies.dash_pattern => iso = false /\ slash = false /\ dash = true
     | Societies.no_pattern => iso = false /\ slash = false /\ dash = false
     | Societies.blank | Societies.iso_too_few_parts => False
     end).
Proof.
  assert (Hblank : Py.strip value = "" -> Societies.check_date value = Val Societies.blank).
  { intros Hs. unfold Societies.check_date. rewrite Hs. cbn [Py.truthy String.eqb negb].
    by rewrite andb_false_r. }
  assert (Hfound : Py.strip value <> "" ->
            finding_of value <> Societies.blank /\
            finding_of value <> Societies.iso_too_few_parts).
  { intros Hne.
    destruct (check_date_unfold value Hne) as (iso & slash & dash & _ & _ & _ & _ & _ & Hf).
    split; intros Heq; by rewrite Heq in Hf. }
  split; [|split].
  - split; [|done]. intros Hb.
    destruct (decide (Py.strip value = "")) as [|Hne]; [done|].
    rewrite check_date_val in Hb. injection Hb as Hb. by destruct (Hfound Hne).
  - rewrite check_date_val. intros [= Heq].
    destruct (decide (Py.strip value = "")) as [Hs|Hne].
    + pose proof (Hblank Hs) as Hb. rewrite check_date_val in Hb.
      injection Hb as Hb. by rewrite Hb in Heq.
    + by destruct (Hfound Hne).
  - apply check_date_unfold.
Qed.

Lemma check_date_findings_witness :
  Societies.check_date "  " = Val Societies.blank /\
  exists iso slash dash,
    Re.matches "\d{4}-\d{2}-\d{2}" (Py.strip " 12/05/1998 ") = Val iso /\
    Re.matches "\d{1,2}/\d{1,2}/\d{2,4}" (Py.strip " 12/05/1998 ") = Val slash /\
    Re.matches "\d{1,2}-\d{1,2}-\d{2,4}" (Py.strip " 12/05/1998 ") = Val dash /\
    (iso = true -> slash = false /\ dash = false) /\
    (slash = true -> dash = false) /\
    iso = false /\ slash = true.
Proof.
  split.
  - apply (proj1 (check_date_findings "  ")). reflexivity.
  - apply (proj2 (proj2 (check_date_findings " 12/05/1998 "))). discriminate.
Defined.

(** X24.  The two scripts agree on what has ISO shape.  The date check
    of the societies script gives one of its three ISO findings (valid,
    out of range or malformed) for a value exactly when
    [detect_date_format] of the trustees script names it by pattern 3;
    the trustees script does not look at the numbers. *)
Theorem iso_dates_in_both_scripts (value : string) :
  (Societies.check_date value = Val Societies.iso_date \/
   Societies.check_date value = Val Societies.iso_date_invalid_range \/
   Societies.check_date value = Val Societies.iso_date_malformed) <->
  detect_date_format value = Val (Some (format_name 3 "^\d{4}-\d{2}-\d{2}")).
Proof.
  assert (Hsame : forall s b,
            Re.matches "\d{4}-\d{2}-\d{2}" s = Val b <->
            Re.matches "^\d{4}-\d{2}-\d{2}" s = Val b).
  { intros s b.
    rewrite (matches_compiled "\d{4}-\d{2}-\d{2}" _ s eq_refl).
    by rewrite (matches_compiled "^\d{4}-\d{2}-\d{2}" _ s eq_refl). }
  rewrite !check_date_val.
  destruct (decide (Py.strip value = "")) as [Hs|Hne].
  { assert (Hb : finding_of value = Societies.blank).
    { unfold finding_of, Societies.check_date. rewrite Hs.
      cbn [Py.truthy String.eqb negb]. by rewrite andb_false_r. }
    rewrite Hb, (detect_blank value Hs). split; [|discriminate].
    intros [H|[H|H]]; discriminate H. }
  destruct (check_date_unfold value Hne)
    as (iso & slash & dash & Hiso & _ & _ & _ & _ & Hfind).
  assert (Hkind : (Val (finding_of value) = Val Societies.iso_date \/
                   Val (finding_of value) = Val Societies.iso_date_invalid_range \/
                   Val (finding_of value) = Val Societies.iso_date_malformed) <->
                  iso = true).
  { destruct (finding_of value); split; try done; try tauto;
      try (intros [H|[H|H]]; discriminate H);
      try (intros ->; by destruct Hfind). }
  rewrite Hkind, (detect_nonblank value Hne).
  destruct (first_format_cases date_formats (Py.strip value) date_formats_compile 0)
    as [(k & pattern & Hk & Hm & _ & ->)|[Hnone ->]].
  - change (0 + k) with k.
    change (Some <$> Val (format_name k pattern))
      with (Val (Some (format_name k pattern))).
    split.
    + intros ->. apply (proj1 (Hsame _ _)) in Hiso.
      assert (k = 3) as ->.
      { destruct (Nat.lt_trichotomy k 3) as [Hlt|[Heq|Hgt]]; [|done|].
        - destruct (formats_apart (Py.strip value) k 3 pattern _ Hlt Hk eq_refl Hm Hiso).
        - destruct (formats_apart (Py.strip value) 3 k _ pattern Hgt eq_refl Hk Hiso Hm). }
      by injection Hk as <-.
    + intros Heq. assert (format_name k pattern = format_name 3 "^\d{4}-\d{2}-\d{2}")
        as Hname by congruence.
      assert (k = 3) as -> by by apply (format_names_differ k 3 pattern _ Hk eq_refl).
      injection Hk as <-. apply (proj2 (Hsame _ _)) in Hm. rewrite Hiso in Hm. by injection Hm as ->.
  - change (Some <$> Val "unknown_format") with (Val (Some "unknown_format")).
    split; [|discriminate].
    intros ->. apply (proj1 (Hsame _ _)) in Hiso. by rewrite (Hnone 3 _ eq_refl) in Hiso.
Qed.

Lemma iso_dates_in_both_scripts_witness :
  detect_date_format " 1954-20-20 " = Val (Some (format_name 3 "^\d{4}-\d{2}-\d{2}")).
Proof.
  apply (proj1 (iso_dates_in_both_scripts " 1954-20-20 ")).
  right; left. reflexivity.
Defined.
